(** * Perp Scan v1.2 (FEperp_scan_v_1.jsx): hash router, remote data client,
      formatters and Dashboard state, embedded and checked against the
      specification.

    Conventions of the embedding.
    - A JavaScript string is a [string]: the sequence of the bytes of its
      UTF-8 form.  Every character the program inspects ([#], [?], [/],
      [&], [=], [+], [%]) is ASCII, and no byte of a multi-byte UTF-8
      sequence is ASCII, so splitting and escaping act on bytes exactly as
      they act on characters.  (A string with a lone surrogate has no
      UTF-8 form and is outside the embedding.)
    - A JavaScript number is an IEEE-754 binary64 [float].
    - An evaluation that can throw is a [Completion]: a value, or the
      error thrown.  A render that throws, or that React rejects, shows
      nothing, and is [None].
    - What the host decides (locale formatting, engine error texts) is a
      field of the class [Engine]; what the network decides is the
      [Network] given to [fetchJson]; the clock ([Date.now()]) and
      [window.location.href] are arguments.
    - Definitions come first, in the order of the source; the facts and
      the properties of the specification follow. *)

From Stdlib Require Import String Ascii List Bool Arith NArith ZArith Lia.
From Stdlib Require Import Floats DecimalString DecimalN.
Import ListNotations.
Open Scope string_scope.

(* ================================================================== *)
(** * Strings as JavaScript uses them *)

Module Js.

(** A string is truthy when it is not empty. *)
Definition truthy (s : string) : bool := negb (s =? "").

(** [every p s]: all characters of [s] satisfy [p]. *)
Fixpoint every (p : ascii -> bool) (s : string) : bool :=
  match s with
  | EmptyString => true
  | String c r => p c && every p r
  end.

(** [s] has no occurrence of [c]. *)
Definition lacks (c : ascii) (s : string) : bool :=
  every (fun x => negb (x =? c)%char) s.

(** [s.split(sep)] for a one-character separator: never the empty list. *)
Fixpoint split (sep : ascii) (s : string) : list string :=
  match s with
  | EmptyString => [""]
  | String c r =>
      if (c =? sep)%char then "" :: split sep r
      else match split sep r with
           | h :: t => String c h :: t
           | [] => [String c ""]
           end
  end.

(** [s.replace(/^c/, "")]: one leading [c] is removed, if there is one. *)
Definition strip_leading (c : ascii) (s : string) : string :=
  match s with
  | String x r => if (x =? c)%char then r else s
  | EmptyString => s
  end.

(** [s.replace(/c$/, "")]: one trailing [c] is removed, if there is one. *)
Fixpoint strip_trailing (c : ascii) (s : string) : string :=
  match s with
  | EmptyString => ""
  | String x EmptyString => if (x =? c)%char then "" else s
  | String x r => String x (strip_trailing c r)
  end.

(** [s.split(sep)] read back: the pieces joined by [sep]. *)
Fixpoint join (sep : string) (l : list string) : string :=
  match l with
  | [] => ""
  | [x] => x
  | x :: r => x ++ sep ++ join sep r
  end.

(** The part of [s] before the first [c] (all of [s] when there is none). *)
Fixpoint before (c : ascii) (s : string) : string :=
  match s with
  | EmptyString => ""
  | String x r => if (x =? c)%char then "" else String x (before c r)
  end.

(** The part of [s] after the first [c], when there is one. *)
Fixpoint after (c : ascii) (s : string) : option string :=
  match s with
  | EmptyString => None
  | String x r => if (x =? c)%char then Some r else after c r
  end.

(** [n] copies of the character [c]. *)
Fixpoint copies (n : nat) (c : ascii) : string :=
  match n with
  | O => ""
  | S k => String c (copies k c)
  end.

End Js.

(* ================================================================== *)
(** * Percent escapes (URL Standard, ECMA-262 [encodeURIComponent]) *)

Module Percent.

Definition hex_upper (n : N) : ascii :=
  if (n <? 10)%N then ascii_of_N (48 + n) else ascii_of_N (55 + n).

(** The value of a hexadecimal digit, in either case. *)
Definition hex_value (c : ascii) : option N :=
  let n := N_of_ascii c in
  if ((48 <=? n) && (n <=? 57))%N then Some (n - 48)%N
  else if ((65 <=? n) && (n <=? 70))%N then Some (n - 55)%N
  else if ((97 <=? n) && (n <=? 102))%N then Some (n - 87)%N
  else None.

(** [%XX] for the byte [c], upper-case digits. *)
Definition escape (c : ascii) (rest : string) : string :=
  let n := N_of_ascii c in
  String "%" (String (hex_upper (n / 16)) (String (hex_upper (n mod 16)) rest)).

Definition is_alnum (c : ascii) : bool :=
  let n := N_of_ascii c in
  (((48 <=? n) && (n <=? 57)) || ((65 <=? n) && (n <=? 90))
   || ((97 <=? n) && (n <=? 122)))%N.

(** ECMA-262 uriUnreserved: letters, digits and [- _ . ! ~ * ' ( )]. *)
Definition uri_unreserved (c : ascii) : bool :=
  is_alnum c
  || existsb (fun x => (x =? c)%char)
       ["-"; "_"; "."; "!"; "~"; "*"; "'"; "("; ")"]%char.

(** [encodeURIComponent(s)]: every byte outside uriUnreserved is escaped. *)
Fixpoint encodeURIComponent (s : string) : string :=
  match s with
  | EmptyString => ""
  | String c r =>
      if uri_unreserved c then String c (encodeURIComponent r)
      else escape c (encodeURIComponent r)
  end.

(** URL Standard, percent-decode: [%] followed by two hexadecimal digits
    is one byte; any other [%] stands for itself. *)
Fixpoint decode (s : string) : string :=
  match s with
  | EmptyString => ""
  | String c r =>
      if (c =? "%")%char then
        match r with
        | String h (String l r') =>
            match hex_value h, hex_value l with
            | Some a, Some b => String (ascii_of_N (a * 16 + b)) (decode r')
            | _, _ => String c (decode r)
            end
        | _ => String c (decode r)
        end
      else String c (decode r)
  end.

(** URL Standard, fragment percent-encode set: C0 controls, everything
    above [~], and space, double quote, [<], [>] and back-quote. *)
Definition in_fragment_set (c : ascii) : bool :=
  let n := N_of_ascii c in
  ((n <? 32) || (126 <? n) || (n =? 32) || (n =? 34) || (n =? 60)
   || (n =? 62) || (n =? 96))%N.

(** ASCII tab or newline, which the URL parser removes from its input. *)
Definition tab_or_newline (c : ascii) : bool :=
  let n := N_of_ascii c in ((n =? 9) || (n =? 10) || (n =? 13))%N.

(** The URL parser's fragment state over the input [s]. *)
Fixpoint fragment_encode (s : string) : string :=
  match s with
  | EmptyString => ""
  | String c r =>
      if tab_or_newline c then fragment_encode r
      else if in_fragment_set c then escape c (fragment_encode r)
      else String c (fragment_encode r)
  end.

End Percent.

(* ================================================================== *)
(** * URLSearchParams (URL Standard, application/x-www-form-urlencoded) *)

Module URLSearchParams.

(** The list of name-value pairs, in order. *)
Definition t := list (string * string).

Fixpoint plus_to_space (s : string) : string :=
  match s with
  | EmptyString => ""
  | String c r =>
      String (if (c =? "+")%char then " "%char else c) (plus_to_space r)
  end.

(** One [name=value] sequence: cut at the first [=], [+] read as a space,
    then percent-decoded.  The bytes that result are the string when they
    are UTF-8, as are the bytes of everything the program itself writes
    with [encodeURIComponent] or [toString]; bytes that are not UTF-8
    (after [%FF], say) stay as they are here, where the browser puts
    U+FFFD in their place. *)
Definition parse_pair (seq : string) : string * string :=
  let name := Js.before "=" seq in
  let value := match Js.after "=" seq with Some v => v | None => "" end in
  (Percent.decode (plus_to_space name), Percent.decode (plus_to_space value)).

(** The urlencoded parser: sequences are separated by [&]; empty ones are
    skipped. *)
Definition parse (input : string) : t :=
  map parse_pair (filter Js.truthy (Js.split "&" input)).

(** [new URLSearchParams(init)] for a string: one leading [?] is dropped. *)
Definition new (init : string) : t := parse (Js.strip_leading "?" init).

(** [qs.get(name)]: the value of the first pair called [name], or null. *)
Fixpoint get (qs : t) (name : string) : option string :=
  match qs with
  | [] => None
  | (k, v) :: r => if (k =? name) then Some v else get r name
  end.

(** urlencoded byte serializer: letters, digits and [* - . _] stay, a
    space becomes [+], every other byte is escaped. *)
Fixpoint serialize_bytes (s : string) : string :=
  match s with
  | EmptyString => ""
  | String c r =>
      if Percent.is_alnum c
         || existsb (fun x => (x =? c)%char) ["*"; "-"; "."; "_"]%char
      then String c (serialize_bytes r)
      else if (c =? " ")%char then String "+" (serialize_bytes r)
      else Percent.escape c (serialize_bytes r)
  end.

(** [params.toString()]. *)
Definition toString (qs : t) : string :=
  Js.join "&"
    (map (fun kv => serialize_bytes (fst kv) ++ "=" ++ serialize_bytes (snd kv)) qs).

(** [params.set(name, value)]: the first pair called [name] takes the
    value and later ones go; a new name is appended. *)
Fixpoint set (qs : t) (name value : string) : t :=
  match qs with
  | [] => [(name, value)]
  | (k, v) :: r =>
      if (k =? name)
      then (k, value) :: filter (fun kv => negb (fst kv =? name)) r
      else (k, v) :: set r name value
  end.

End URLSearchParams.

(* ================================================================== *)
(** * The hash router (lines 40-53) *)

(** [{ name: "home", qs }] or [{ name: "acct", addr, qs }]. *)
Inductive Route : Type :=
| Home (qs : URLSearchParams.t)
| Acct (addr : string) (qs : URLSearchParams.t).

Definition route_qs (r : Route) : URLSearchParams.t :=
  match r with Home qs => qs | Acct _ qs => qs end.

(** [queryStr || ""] for the second piece of [clean.split("?")]. *)
Definition or_empty (o : option string) : string :=
  match o with
  | Some s => if Js.truthy s then s else ""
  | None => ""
  end.

(** [parseRoute(hash)], lines 40-48. *)
Definition parseRoute (hash : string) : Route :=
  let clean := Js.strip_leading "#" hash in
  let pieces := Js.split "?" clean in
  let path := nth 0 pieces "" in
  let queryStr := nth_error pieces 1 in
  let qs := URLSearchParams.new (or_empty queryStr) in
  let parts := filter Js.truthy (Js.split "/" path) in
  match nth_error parts 0, nth_error parts 1 with
  | Some p0, Some p1 =>
      if (p0 =? "acct") && Js.truthy p1 then Acct p1 qs else Home qs
  | _, _ => Home qs
  end.

(** [new URL(href)], the [hash] setter and getter, and [toString()]
    (URL Standard).  [href] is a serialized URL, so its first [#], if any,
    starts its fragment. *)
Module Url.

Definition without_fragment (href : string) : string := Js.before "#" href.

(** [u.hash = value; u.toString()]: an empty value removes the fragment;
    otherwise one leading [#] is dropped and the rest goes through the
    parser's fragment state. *)
Definition set_hash (href value : string) : string :=
  if (value =? "") then without_fragment href
  else without_fragment href ++ "#"
       ++ Percent.fragment_encode (Js.strip_leading "#" value).

(** [u.hash] ([window.location.hash]): [#] and the fragment, or the empty
    string when the fragment is missing or empty. *)
Definition hash (href : string) : string :=
  match Js.after "#" href with
  | Some f => if Js.truthy f then "#" ++ f else ""
  | None => ""
  end.

End Url.

(** [shareUrl(addr, baseUrl)], lines 49-53; [href] is
    [window.location.href]. *)
Definition shareUrl (href addr baseUrl : string) : string :=
  Url.set_hash href
    ("#/acct/" ++ addr ++ "?base=" ++ Percent.encodeURIComponent baseUrl).

(* ================================================================== *)
(** * JavaScript values, coercions and errors *)

(** The values a JSON response can hold, and [undefined] for what is
    missing. *)
#[warnings="-register-all"]
Inductive JsValue : Type :=
| VUndefined
| VNull
| VBool (b : bool)
| VNum (x : float)
| VStr (s : string)
| VArr (items : list JsValue)
| VObj (fields : list (string * JsValue)).

Inductive ErrorKind : Type :=
| Error_ | TypeError | RangeError | SyntaxError | AbortError.

(** An error object: its [name] (by kind) and its [message]. *)
Record JsError : Type := MkError { kind : ErrorKind; message : string }.

Definition kind_name (k : ErrorKind) : string :=
  match k with
  | Error_ => "Error"
  | TypeError => "TypeError"
  | RangeError => "RangeError"
  | SyntaxError => "SyntaxError"
  | AbortError => "AbortError"
  end.

(** How an evaluation ends: with a value or with a thrown error. *)
Inductive Completion (A : Type) : Type :=
| Returned (a : A)
| Thrown (e : JsError).
Arguments Returned {A} a.
Arguments Thrown {A} e.

Definition bind {A B : Type} (c : Completion A) (k : A -> Completion B)
  : Completion B :=
  match c with
  | Returned a => k a
  | Thrown e => Thrown e
  end.

Notation "x <- c ;; k" := (bind c (fun x => k))
  (at level 61, c at next level, right associativity).

(** The evaluations of a list, from left to right, up to the first one
    that throws. *)
Fixpoint sequence {A : Type} (cs : list (Completion A))
  : Completion (list A) :=
  match cs with
  | [] => Returned []
  | c :: r => a <- c ;; l <- sequence r ;; Returned (a :: l)
  end.

(** What the host decides. *)
Class Engine : Type := {
  (** Number::toString, radix 10 *)
  Number_toString : float -> string;
  (** StringToNumber, the numeric value of a string *)
  StringToNumber : string -> float;
  (** [x.toLocaleString(undefined, { maximumFractionDigits: d,
      minimumFractionDigits: d })] in the host's locale; a number of
      decimals beyond what the host accepts throws a RangeError *)
  toLocaleString : float -> nat -> Completion string;
  (** [new Date(p).toLocaleString()] for a primitive value [p] *)
  Date_toLocaleString : JsValue -> string;
  (** the TypeError text for reading property [k] of [null] *)
  null_read_message : string -> string;
  (** the TypeError text for an object that has no primitive value *)
  no_primitive_message : string;
  (** the text of the AbortError a fetch rejects with after [abort()] *)
  abort_message : string
}.

(** [v == null] *)
Definition nullish (v : JsValue) : bool :=
  match v with VUndefined | VNull => true | _ => false end.

(** ToBoolean *)
Definition ToBoolean (v : JsValue) : bool :=
  match v with
  | VUndefined | VNull => false
  | VBool b => b
  | VNum x => negb ((x =? 0)%float || is_nan x)
  | VStr s => Js.truthy s
  | VArr _ | VObj _ => true
  end.

(** The value of the property [k] among the properties of an object
    (each name listed once), [undefined] when there is none. *)
Fixpoint lookup (fields : list (string * JsValue)) (k : string) : JsValue :=
  match fields with
  | [] => VUndefined
  | (n, v) :: r => if (n =? k) then v else lookup r k
  end.

(** An object of a JSON text has the property [k] itself. *)
Definition has_own (fields : list (string * JsValue)) (k : string) : bool :=
  existsb (fun kv => fst kv =? k) fields.

Section Coercions.
Context {E : Engine}.

(** ToString.  An array is its elements joined by commas, [null] and
    [undefined] elements left empty.  An object goes through
    OrdinaryToPrimitive: with the inherited methods it is
    ["[object Object]"]; a property [toString] of its own, which in a
    JSON value is never a function, hides the inherited method, and then
    neither [toString] nor [valueOf] gives a primitive value and a
    TypeError is thrown.  (A property [valueOf] of its own changes
    nothing: the inherited [valueOf] returns the object itself.) *)
Fixpoint ToString (v : JsValue) : Completion string :=
  match v with
  | VUndefined => Returned "undefined"
  | VNull => Returned "null"
  | VBool b => Returned (if b then "true" else "false")
  | VNum x => Returned (Number_toString x)
  | VStr s => Returned s
  | VArr items =>
      parts <- sequence
                 (map (fun x => if nullish x then Returned "" else ToString x)
                      items) ;;
      Returned (Js.join "," parts)
  | VObj fields =>
      if has_own fields "toString"
      then Thrown (MkError TypeError no_primitive_message)
      else Returned "[object Object]"
  end.

(** ToPrimitive: an array or an object becomes the string above, with
    either hint. *)
Definition ToPrimitive (v : JsValue) : Completion JsValue :=
  match v with
  | VArr _ | VObj _ => s <- ToString v ;; Returned (VStr s)
  | _ => Returned v
  end.

(** ToNumber, the unary [+v] *)
Definition ToNumber (v : JsValue) : Completion float :=
  p <- ToPrimitive v ;;
  Returned match p with
           | VUndefined => nan
           | VNull => 0%float
           | VBool b => if b then 1%float else 0%float
           | VNum x => x
           | VStr s => StringToNumber s
           | VArr _ | VObj _ => nan
           end.

(** [v.k]: reading a property of [null] or [undefined] throws; a property
    an object does not have is [undefined], and so is, on an array or a
    primitive value, each of the names the program reads (none of them is
    a property of a prototype). *)
Definition get (v : JsValue) (k : string) : Completion JsValue :=
  match v with
  | VUndefined | VNull => Thrown (MkError TypeError (null_read_message k))
  | VObj fields => Returned (lookup fields k)
  | _ => Returned VUndefined
  end.

(** [v?.k] *)
Definition get_opt (v : JsValue) (k : string) : JsValue :=
  match v with
  | VObj fields => lookup fields k
  | _ => VUndefined
  end.

(** Error.prototype.toString, [String(e)] *)
Definition Error_toString (e : JsError) : string :=
  let name := kind_name (kind e) in
  if negb (Js.truthy (message e)) then name
  else if negb (Js.truthy name) then message e
  else name ++ ": " ++ message e.

End Coercions.

(* ================================================================== *)
(** * Number formatting (lines 31-33) *)

Module Number.

(** The decimal digits of a natural number. *)
Definition digits (n : N) : string := NilZero.string_of_uint (N.to_uint n).

(** The integer [n] for which [n / 10^f - x] is closest to zero, the
    larger one when there are two, for [x = m * 2^e] (ECMA-262,
    Number.prototype.toFixed, step 10.a). *)
Definition nearest_scaled (m : positive) (e : Z) (f : nat) : N :=
  let p := (Z.pos m * 10 ^ Z.of_nat f)%Z in
  Z.to_N (if (0 <=? e)%Z then p * 2 ^ e
          else (2 * p + 2 ^ (- e)) / 2 ^ (1 - e))%Z.

(** Steps 10.b-10.c: the digits of [n], left-padded with zeros to [f + 1]
    characters, with a point before the last [f]. *)
Definition fixed_point (n : N) (f : nat) : string :=
  let m := digits n in
  let k := String.length m in
  let m := if (k <=? f)%nat then Js.copies (f + 1 - k) "0" ++ m else m in
  let k := String.length m in
  if (f =? 0)%nat then m
  else substring 0 (k - f) m ++ "." ++ substring (k - f) f m.

Section WithEngine.
Context {E : Engine}.

(** [x.toFixed(f)] for [0 <= f <= 100]. *)
Definition toFixed (x : float) (f : nat) : string :=
  if negb (is_finite x) then Number_toString x
  else if (1e21 <=? abs x)%float then Number_toString x
  else match Prim2SF x with
       | S754_zero _ => fixed_point 0 f
       | S754_finite s m e =>
           (if s then "-" else "") ++ fixed_point (nearest_scaled m e f) f
       | _ => Number_toString x
       end.

End WithEngine.
End Number.

Section Formatters.
Context {E : Engine}.

(** [num(v, d = 2)], line 31.  [v == null] coerces nothing; [+v] throws
    when [v] has no primitive value. *)
Definition num (v : JsValue) (d : nat) : Completion string :=
  if nullish v then Returned ""
  else x <- ToNumber v ;;
       if negb (is_finite x) then Returned "" else toLocaleString x d.

(** [pct(v)], line 32. *)
Definition pct (v : JsValue) : Completion string :=
  if nullish v then Returned ""
  else x <- ToNumber v ;;
       Returned
         (if negb (is_finite x) then ""
          else Number.toFixed
                 (if (abs x <=? 1)%float then (x * 100)%float else x) 2
               ++ "%").

(** [ts(ms)], line 33: the Date constructor takes the primitive value of
    its argument. *)
Definition ts (ms : JsValue) : Completion string :=
  if negb (ToBoolean ms) then Returned ""
  else p <- ToPrimitive ms ;; Returned (Date_toLocaleString p).

End Formatters.

(* ================================================================== *)
(** * The remote data client (lines 21-30) *)

(** The body of a response: JSON text denoting a value, or text that
    [res.json()] rejects with a SyntaxError of the given message. *)
Inductive Body : Type :=
| JsonBody (v : JsValue)
| MalformedBody (syntax_message : string).

(** What the network does with one request; times are milliseconds from
    the call. *)
Inductive Reply : Type :=
| Refused (reason : string)
    (** nothing is sent: [fetch] rejects at once with a TypeError (a URL
        that cannot be parsed, ...), before any timer can fire *)
| Silence
    (** nothing ever arrives *)
| Failure (at_ms : N) (reason : string)
    (** [fetch] rejects with a TypeError (no connectivity, CORS, ...) *)
| Response (headers_ms : N) (status : N) (body_ms : N) (body : Body)
    (** the response head arrives at [headers_ms], and the body is
        complete [body_ms] later *).

(** The network: a reply for every URL requested. *)
Definition Network := string -> Reply.

(** [res.ok]: the status is in the range 200-299. *)
Definition res_ok (status : N) : bool :=
  ((200 <=? status) && (status <=? 299))%N.

(** [const { timeoutMs = 15000, ...rest } = opts] *)
Definition timeout_of (timeoutMs : option N) : N :=
  match timeoutMs with Some t => t | None => 15000%N end.

(** The delay of [setTimeout(f, timeoutMs)], line 24, for a whole number
    of milliseconds: the argument is converted to a 32-bit signed integer
    (it wraps around modulo 2^32), and a negative delay counts as 0. *)
Definition timer_delay (timeoutMs : N) : N :=
  let t := (timeoutMs mod 2 ^ 32)%N in
  if (t <? 2 ^ 31)%N then t else 0%N.

Section Client.
Context {E : Engine}.

(** The rejection of a fetch whose signal was aborted by the timer. *)
Definition aborted : JsError := MkError AbortError abort_message.

(** [fetchJson(url, { timeoutMs })].  The timer set at line 24 fires
    after the delay [setTimeout] makes of [timeoutMs]; an event of the
    network counts when it comes strictly before.  The timer is only
    cleared in the [finally], so it also bounds the reading of the
    body. *)
Definition fetchJson (net : Network) (url : string) (timeoutMs : option N)
  : Completion JsValue :=
  let limit := timer_delay (timeout_of timeoutMs) in
  match net url with
  | Refused reason => Thrown (MkError TypeError reason)
  | Silence => Thrown aborted
  | Failure at_ms reason =>
      if (at_ms <? limit)%N then Thrown (MkError TypeError reason)
      else Thrown aborted
  | Response headers_ms status body_ms body =>
      if negb (headers_ms <? limit)%N then Thrown aborted
      else if negb (res_ok status)
      then Thrown (MkError Error_ ("HTTP " ++ Number.digits status))
      else if negb (headers_ms + body_ms <? limit)%N then Thrown aborted
      else match body with
           | JsonBody v => Returned v
           | MalformedBody m => Thrown (MkError SyntaxError m)
           end
  end.

End Client.

(* ================================================================== *)
(** * Preferences in [localStorage] *)

Module Storage.

Definition t := list (string * string).

(** [localStorage.getItem(k)] *)
Fixpoint getItem (ls : t) (k : string) : option string :=
  match ls with
  | [] => None
  | (n, v) :: r => if (n =? k) then Some v else getItem r k
  end.

(** [localStorage.setItem(k, v)] *)
Fixpoint setItem (ls : t) (k v : string) : t :=
  match ls with
  | [] => [(k, v)]
  | (n, w) :: r => if (n =? k) then (n, v) :: r else (n, w) :: setItem r k v
  end.

End Storage.

(** [o || d] for a string-or-null [o]. *)
Definition or_else (o : option string) (d : string) : string :=
  match o with
  | Some s => if Js.truthy s then s else d
  | None => d
  end.

Definition DEFAULT_BASE : string :=
  "https://perp-scan-live.liam-alerts.workers.dev".

Definition BUILT_IN_PERIODS : list string :=
  ["day"; "week"; "month"; "allTime";
   "perpDay"; "perpWeek"; "perpMonth"; "perpAllTime"].

(* ================================================================== *)
(** * The Landing page (lines 63-68) *)

Record Landing : Type := {
  landing_baseUrl : string;
  landing_addr : string
}.

Definition Landing_init (ls : Storage.t) : Landing :=
  {| landing_baseUrl := or_else (Storage.getItem ls "ps_base") DEFAULT_BASE;
     landing_addr := "" |}.

(** [go()]: the value assigned to [window.location.hash], if any. *)
Definition go (l : Landing) : option string :=
  if negb (Js.truthy (landing_addr l)) then None
  else Some ("#/acct/" ++ landing_addr l ++ "?base="
             ++ Percent.encodeURIComponent (landing_baseUrl l)).

(* ================================================================== *)
(** * The Dashboard page (lines 99-307) *)

(** The seven [useState] cells of a Dashboard, lines 100-106. *)
Record Dashboard : Type := {
  baseUrl : string;
  period : string;
  includePositions : bool;
  includeClosed : bool;
  loading : bool;
  error : string;
  data : option JsValue
}.

(** The initial state, from the [qs] prop and the stored preference. *)
Definition Dashboard_init (qs : URLSearchParams.t) (ls : Storage.t)
  : Dashboard :=
  {| baseUrl := or_else (URLSearchParams.get qs "base")
                  (or_else (Storage.getItem ls "ps_base") DEFAULT_BASE);
     period := or_else (URLSearchParams.get qs "period") "week";
     includePositions := true;
     includeClosed := true;
     loading := false;
     error := "";
     data := None |}.

Definition setBaseUrl (v : string) (s : Dashboard) : Dashboard :=
  {| baseUrl := v; period := period s;
     includePositions := includePositions s;
     includeClosed := includeClosed s; loading := loading s;
     error := error s; data := data s |}.

Definition setPeriod (v : string) (s : Dashboard) : Dashboard :=
  {| baseUrl := baseUrl s; period := v;
     includePositions := includePositions s;
     includeClosed := includeClosed s; loading := loading s;
     error := error s; data := data s |}.

Definition setIncludePositions (v : bool) (s : Dashboard) : Dashboard :=
  {| baseUrl := baseUrl s; period := period s; includePositions := v;
     includeClosed := includeClosed s; loading := loading s;
     error := error s; data := data s |}.

Definition setIncludeClosed (v : bool) (s : Dashboard) : Dashboard :=
  {| baseUrl := baseUrl s; period := period s;
     includePositions := includePositions s; includeClosed := v;
     loading := loading s; error := error s; data := data s |}.

Definition setLoading (v : bool) (s : Dashboard) : Dashboard :=
  {| baseUrl := baseUrl s; period := period s;
     includePositions := includePositions s;
     includeClosed := includeClosed s; loading := v;
     error := error s; data := data s |}.

Definition setError (v : string) (s : Dashboard) : Dashboard :=
  {| baseUrl := baseUrl s; period := period s;
     includePositions := includePositions s;
     includeClosed := includeClosed s; loading := loading s;
     error := v; data := data s |}.

Definition setData (v : option JsValue) (s : Dashboard) : Dashboard :=
  {| baseUrl := baseUrl s; period := period s;
     includePositions := includePositions s;
     includeClosed := includeClosed s; loading := loading s;
     error := error s; data := v |}.

(** The query of the request, lines 113-115; [now] is [Date.now()]. *)
Definition run_params (addr : string) (s : Dashboard) (now : N)
  : URLSearchParams.t :=
  let params := [("account", addr); ("period", period s);
                 ("_ts", Number.digits (now / 1000))] in
  let params := if includePositions s
                then URLSearchParams.set params "positions" "1" else params in
  if includeClosed s then URLSearchParams.set params "closed" "1" else params.

(** The URL of the request, line 116. *)
Definition run_url (addr : string) (s : Dashboard) (now : N) : string :=
  Js.strip_trailing "/" (baseUrl s) ++ "/pnlClean?"
  ++ URLSearchParams.toString (run_params addr s now).

(** Line 111, before the request leaves. *)
Definition run_begin (s : Dashboard) : Dashboard :=
  setData None (setError "" (setLoading true s)).

Section Run.
Context {E : Engine}.

(** Lines 117-119, the rest of the [try] block once [fetchJson] has
    settled with [c]; [new Error(m)] takes the string of [m]. *)
Definition run_try (c : Completion JsValue) : Completion JsValue :=
  json <- c ;;
  ok <- get json "ok" ;;
  if negb (ToBoolean ok) then
    err <- get json "error" ;;
    text <- (if ToBoolean err then ToString err else Returned "ok=false") ;;
    Thrown (MkError Error_ text)
  else Returned json.

(** [e?.message || String(e)], line 120. *)
Definition error_text (e : JsError) : string :=
  if Js.truthy (message e) then message e else Error_toString e.

(** Lines 119-121: what the settled request does to the state the
    Dashboard then has. *)
Definition run_settle (c : Completion JsValue) (s : Dashboard) : Dashboard :=
  setLoading false
    match run_try c with
    | Returned json => setData (Some json) s
    | Thrown e => setError (error_text e) s
    end.

(** [run()], lines 110-122, when nothing else happens to the Dashboard
    while the request is pending. *)
Definition run (net : Network) (addr : string) (now : N) (s : Dashboard)
  : Dashboard :=
  run_settle (fetchJson net (run_url addr s now) (Some 15000%N))
             (run_begin s).

End Run.

(** What the Dashboard shows (lines 133-306), by the conditions of the
    JSX, with the texts of the data block. *)
Inductive Widget : Type :=
| FetchButton (disabled : bool)
| ClosedCsvButton
| PositionsCsvButton
| ErrorBanner (text : string)
| SummaryCards (cards : list (string * string * string))
| WindowAndCashflows (window cashflows : string)
| PositionsTable (rows : list (list string))
| ClosedTable (rows : list (list string))
| FetchPrompt.

(** The part of an evaluation that matters to what is shown: its value,
    or nothing when it throws. *)
Definition value_of {A : Type} (c : Completion A) : option A :=
  match c with
  | Returned a => Some a
  | Thrown _ => None
  end.

Definition and_then {A B : Type} (o : option A) (k : A -> option B)
  : option B :=
  match o with
  | Some a => k a
  | None => None
  end.

Notation "x <-- o ;; k" := (and_then o (fun x => k))
  (at level 61, o at next level, right associativity).

(** Each of a list, or nothing when one of them is nothing. *)
Fixpoint all_of {A : Type} (os : list (option A)) : option (list A) :=
  match os with
  | [] => Some []
  | o :: r => a <-- o ;; l <-- all_of r ;; Some (a :: l)
  end.

Section Rendering.
Context {E : Engine}.

(** The text React shows for a value placed as a child, [{v}]: nothing
    for [undefined], [null] and booleans, the elements of an array one
    after the other; an object is not a valid child, and React throws. *)
Fixpoint child_text (v : JsValue) : option string :=
  match v with
  | VUndefined | VNull | VBool _ => Some ""
  | VNum x => Some (Number_toString x)
  | VStr s => Some s
  | VArr items =>
      option_map (fun l => String.concat "" l)
                 (all_of (map child_text items))
  | VObj _ => None
  end.

(** [a || b] *)
Definition js_or (a b : JsValue) : JsValue := if ToBoolean a then a else b.

(** [<InfoCard title value sub />], lines 309-318: its title, the child
    [{value || "—"}], and the child [{sub}] (the [div] around a truthy
    [sub] adds no text). *)
Definition InfoCard (title : string) (value sub : JsValue)
  : option (string * string * string) :=
  v <-- child_text (js_or value (VStr "—")) ;;
  t <-- child_text sub ;;
  Some (title, v, t).

(** The four cards of lines 196-200, for a truthy [data]. *)
Definition summary_cards (d : JsValue) : option (list (string * string * string)) :=
  period <-- InfoCard "Period" (get_opt d "period") (get_opt d "method") ;;
  perp_pnl <-- value_of (num (get_opt d "perp_pnl") 2) ;;
  trading_pct <-- value_of (pct (get_opt (get_opt d "roi") "trading_pct")) ;;
  trading <-- InfoCard "Trading PnL" (VStr ("$" ++ perp_pnl))
                (VStr ("ROI " ++ trading_pct)) ;;
  balance_change <-- value_of (num (get_opt d "balance_change") 2) ;;
  portfolio_pct <--
    value_of (pct (get_opt (get_opt d "roi") "portfolio_pct")) ;;
  portfolio <-- InfoCard "Portfolio PnL" (VStr ("$" ++ balance_change))
                  (VStr ("ROI " ++ portfolio_pct)) ;;
  perp_now <-- value_of (num (get_opt (get_opt d "balances") "perp_now") 2) ;;
  portfolio_now <--
    value_of (num (get_opt (get_opt d "balances") "portfolio_now") 2) ;;
  balances <-- InfoCard "Balances Now"
                 (VStr ("Perp $" ++ perp_now ++ String "010" "Port $"
                        ++ portfolio_now))
                 VUndefined ;;
  Some [period; trading; portfolio; balances].

(** The window, line 205. *)
Definition window_text (d : JsValue) : option string :=
  startMs <-- value_of (ts (get_opt (get_opt d "window") "startMs")) ;;
  endMs <-- value_of (ts (get_opt (get_opt d "window") "endMs")) ;;
  Some (startMs ++ " → " ++ endMs).

(** The cashflows, line 206. *)
Definition cashflows_text (d : JsValue) : option string :=
  deposits <--
    value_of (num (get_opt (get_opt d "adjustments") "deposits") 2) ;;
  withdrawals <--
    value_of (num (get_opt (get_opt d "adjustments") "withdrawals") 2) ;;
  net <--
    value_of (num (get_opt (get_opt d "adjustments") "net_cashflow") 2) ;;
  Some ("Deposits: $" ++ deposits ++ " · Withdrawals: $" ++ withdrawals
        ++ " · Net: $" ++ net).

(** [data?.k ?? []] (lines 129-130) as what [.map] goes over at lines 234
    and 277: an array has its elements mapped; any other value that is
    not [null] or [undefined] has no [map] to call, which throws. *)
Definition rows_of (result : JsValue) (k : string)
  : option (list JsValue) :=
  match get_opt result k with
  | VUndefined | VNull => Some []
  | VArr items => Some items
  | _ => None
  end.

(** A row of the positions table, lines 235-248: its twelve cells.
    Reading a property of a [null] row throws. *)
Definition position_row (p : JsValue) : option (list string) :=
  if nullish p then None
  else
    coin <-- child_text (js_or (get_opt p "symbolPretty") (get_opt p "coin")) ;;
    side <-- child_text (get_opt p "side") ;;
    size <-- value_of (num (get_opt p "size") 4) ;;
    size_coin <-- child_text (get_opt p "coin") ;;
    entryPx <-- value_of (num (get_opt p "entryPx") 6) ;;
    markPx <-- value_of (num (get_opt p "markPx") 6) ;;
    notional <-- value_of (num (get_opt p "notional") 2) ;;
    unrealizedPnl <-- value_of (num (get_opt p "unrealizedPnl") 2) ;;
    roePct <-- value_of (pct (get_opt p "roePct")) ;;
    basisPct <-- value_of (pct (get_opt p "basisPct")) ;;
    leverage <-- child_text (if nullish (get_opt p "leverage") then VStr ""
                             else get_opt p "leverage") ;;
    liqPx <-- value_of (num (get_opt p "liqPx") 5) ;;
    entryTs <-- (if ToBoolean (get_opt p "entryTs")
                 then value_of (ts (get_opt p "entryTs")) else Some "") ;;
    Some [coin; side; size ++ " " ++ size_coin; entryPx; markPx;
          "$" ++ notional; "$" ++ unrealizedPnl; roePct; basisPct;
          leverage; liqPx; entryTs].

(** A row of the closed trades table, lines 278-289: its ten cells. *)
Definition closed_row (c : JsValue) : option (list string) :=
  if nullish c then None
  else
    endTs <-- value_of (ts (get_opt c "endTs")) ;;
    coin <-- child_text (js_or (get_opt c "symbolPretty") (get_opt c "coin")) ;;
    direction <-- child_text (get_opt c "direction") ;;
    duration <-- value_of (ms <- ToNumber (get_opt c "durationMs") ;;
                           num (VNum (ms / 1000)) 0) ;;
    sizeClosed <-- value_of (num (get_opt c "sizeClosed") 4) ;;
    avgEntryPx <-- value_of (num (get_opt c "avgEntryPx") 6) ;;
    exitPx <-- value_of (num (get_opt c "exitPx") 6) ;;
    pnl <-- value_of (num (get_opt c "pnl") 2) ;;
    fees <-- value_of (num (get_opt c "fees") 2) ;;
    netPnl <-- value_of (num (get_opt c "netPnl") 2) ;;
    Some [endTs; coin; direction; duration ++ "s"; sizeClosed; avgEntryPx;
          exitPx; "$" ++ pnl; "$" ++ fees; "$" ++ netPnl].

(** The positions table, lines 212-254, when it is switched on. *)
Definition positions_table (s : Dashboard) (d : JsValue)
  : option (list Widget) :=
  if includePositions s then
    items <-- rows_of d "positions" ;;
    rows <-- all_of (map position_row items) ;;
    Some [PositionsTable rows]
  else Some [].

(** The closed trades table, lines 257-295, when it is switched on. *)
Definition closed_table (s : Dashboard) (d : JsValue)
  : option (list Widget) :=
  if includeClosed s then
    items <-- rows_of d "closed" ;;
    rows <-- all_of (map closed_row items) ;;
    Some [ClosedTable rows]
  else Some [].

(** The data block, lines 193-297, for a truthy [data]. *)
Definition data_block (s : Dashboard) (d : JsValue) : option (list Widget) :=
  cards <-- summary_cards d ;;
  window <-- window_text d ;;
  cashflows <-- cashflows_text d ;;
  positions <-- positions_table s d ;;
  closed <-- closed_table s d ;;
  Some ([SummaryCards cards; WindowAndCashflows window cashflows]
        ++ positions ++ closed)%list.

(** [data] as a condition, lines 193 and 299. *)
Definition has_data (s : Dashboard) : bool :=
  match data s with
  | Some d => ToBoolean d
  | None => false
  end.

(** One render of the Dashboard, lines 133-306: what it shows, or nothing
    at all when an expression of the JSX throws or React rejects a child
    (no error boundary is around it, so React then removes the whole
    page). *)
Definition render (s : Dashboard) : option (list Widget) :=
  block <-- match data s with
            | Some d => if ToBoolean d then data_block s d else Some []
            | None => Some []
            end ;;
  Some ([FetchButton (loading s)]
        ++ (if includeClosed s
            then ClosedCsvButton
                 :: (if includePositions s then [PositionsCsvButton] else [])
            else [])
        ++ (if Js.truthy (error s) then [ErrorBanner (error s)] else [])
        ++ block
        ++ (if negb (has_data s) && negb (loading s)
               && negb (Js.truthy (error s))
            then [FetchPrompt] else []))%list.

(** The Dashboard shows a widget of the kind [w]. *)
Definition shows (w : Widget -> bool) (s : Dashboard) : bool :=
  match render s with
  | Some widgets => existsb w widgets
  | None => false
  end.

End Rendering.

Definition is_positions_csv (w : Widget) : bool :=
  match w with PositionsCsvButton => true | _ => false end.
Definition is_closed_csv (w : Widget) : bool :=
  match w with ClosedCsvButton => true | _ => false end.
Definition is_positions_table (w : Widget) : bool :=
  match w with PositionsTable _ => true | _ => false end.
Definition is_closed_table (w : Widget) : bool :=
  match w with ClosedTable _ => true | _ => false end.

(* ================================================================== *)
(** * The application (lines 35-60) *)

(** The page that is mounted, with its props and its state. *)
Inductive View : Type :=
| LandingView (l : Landing)
| DashboardView (addr : string) (qs : URLSearchParams.t) (d : Dashboard).

(** [mounted] counts the page instances mounted so far and so names the
    one that is mounted now: the state setters a pending [run()] holds
    belong to the instance that started it, and React drops an update
    addressed to an instance that is no longer mounted.  [view] is the
    page component with its props and state; what a Dashboard in that
    state shows, if it can be shown, is its [render]. *)
Record App : Type := {
  storage : Storage.t;
  mounted : nat;
  view : View
}.

(** [window.location.hash || "#/"], lines 36-37. *)
Definition current_hash (location_hash : string) : string :=
  if Js.truthy location_hash then location_hash else "#/".

(** Mounting the page of a route; its effect stores the base URL
    (lines 66 and 108). *)
Definition mount (r : Route) (ls : Storage.t) (n : nat) : App :=
  match r with
  | Home _ =>
      let l := Landing_init ls in
      {| storage := Storage.setItem ls "ps_base" (landing_baseUrl l);
         mounted := S n; view := LandingView l |}
  | Acct addr qs =>
      let d := Dashboard_init qs ls in
      {| storage := Storage.setItem ls "ps_base" (baseUrl d);
         mounted := S n; view := DashboardView addr qs d |}
  end.

(** The first render. *)
Definition start (location_hash : string) (ls : Storage.t) : App :=
  mount (parseRoute (current_hash location_hash)) ls 0.

(** A [hashchange] event, lines 37 and 56-60: the same kind of page keeps
    its instance and its state and only takes the new props; the other
    kind replaces it. *)
Definition hashchange (location_hash : string) (a : App) : App :=
  match parseRoute (current_hash location_hash), view a with
  | Home _, LandingView _ => a
  | Acct addr qs, DashboardView _ _ d =>
      {| storage := storage a; mounted := mounted a;
         view := DashboardView addr qs d |}
  | r, _ => mount r (storage a) (mounted a)
  end.

Section Events.
Context {E : Engine}.

(** A click on Fetch: line 111 runs at once. *)
Definition click_fetch (a : App) : App :=
  match view a with
  | DashboardView addr qs d =>
      {| storage := storage a; mounted := mounted a;
         view := DashboardView addr qs (run_begin d) |}
  | LandingView _ => a
  end.

(** The request started by instance [issuer] settles with [c]. *)
Definition settle (issuer : nat) (c : Completion JsValue) (a : App) : App :=
  match view a with
  | DashboardView addr qs d =>
      if (issuer =? mounted a)%nat
      then {| storage := storage a; mounted := mounted a;
              view := DashboardView addr qs (run_settle c d) |}
      else a
  | LandingView _ => a
  end.

End Events.

(* ================================================================== *)
(** * The properties the specification states, in its own terms *)

(** The path of a fragment: the fragment without one leading [#], cut at
    its first [?]. *)
Definition fragment_path (f : string) : string :=
  Js.before "?" (Js.strip_leading "#" f).

(** The query parameters of a fragment: what stands between its first and
    its second [?]. *)
Definition fragment_query (f : string) : URLSearchParams.t :=
  URLSearchParams.new
    match Js.after "?" (Js.strip_leading "#" f) with
    | Some q => Js.before "?" q
    | None => ""
    end.

(** [path] is: any number of [/], the literal [acct], one or more [/],
    the non-empty slash-free [addr], and then nothing or a [/] followed
    by anything. *)
Definition account_path (path addr : string) : Prop :=
  exists n m rest,
    path = Js.copies n "/" ++ "acct" ++ Js.copies (S m) "/" ++ addr ++ rest
    /\ addr <> ""
    /\ Js.lacks "/" addr = true
    /\ (rest = "" \/ exists r, rest = String "/" r).

(** [s] without the prefix [p], when it starts with it. *)
Fixpoint strip_prefix (p s : string) : option string :=
  match p, s with
  | EmptyString, _ => Some s
  | String a p', String b s' =>
      if (a =? b)%char then strip_prefix p' s' else None
  | String _ _, EmptyString => None
  end.

(** The pattern [#/acct/<nonempty>] read to the letter, with an optional
    query string after it: the fragment starts with [#/acct/], and what
    follows up to the first [?] is one non-empty segment. *)
Definition matches_exactly (f : string) : bool :=
  match strip_prefix "#/acct/" f with
  | Some rest =>
      Js.truthy (Js.before "?" rest) && Js.lacks "/" (Js.before "?" rest)
  | None => false
  end.

(** The non-empty pieces of a path, [path.split("/").filter(Boolean)]. *)
Definition segments (path : string) : list string :=
  filter Js.truthy (Js.split "/" path).

(** A character that [encodeURIComponent] can produce. *)
Definition uri_safe (c : ascii) : bool :=
  Percent.uri_unreserved c || (c =? "%")%char.

(** A character the URL parser leaves alone in a fragment. *)
Definition fragment_stable (c : ascii) : bool :=
  negb (Percent.tab_or_newline c) && negb (Percent.in_fragment_set c).

(** An address that a fragment carries unchanged as one path segment:
    not empty, without [/] and [?], and made of characters the URL parser
    neither drops nor escapes. *)
Definition plain_address (addr : string) : bool :=
  Js.truthy addr
  && Js.every (fun c => negb (c =? "/")%char && negb (c =? "?")%char
                        && fragment_stable c) addr.

(** A preference that is not set: missing, or the empty string. *)
Definition unset (o : option string) : Prop := o = None \/ o = Some "".

Definition is_error_banner (text : string) (w : Widget) : bool :=
  match w with ErrorBanner t => (t =? text) | _ => false end.

(** A host to evaluate examples on.  Numbers print in fixed notation
    with six decimals (a real engine prints the shortest form that reads
    back), no string is numeric, the locale groups nothing and takes up
    to 100 decimals, and no date is valid. *)
Definition sample_number_text (x : float) : string :=
  match Prim2SF x with
  | S754_nan => "NaN"
  | S754_infinity s => (if s then "-" else "") ++ "Infinity"
  | S754_zero _ => "0"
  | S754_finite s m e =>
      (if s then "-" else "")
      ++ Number.fixed_point (Number.nearest_scaled m e 6) 6
  end.

Definition sample_host : Engine :=
  {| Number_toString := sample_number_text;
     StringToNumber := fun _ => nan;
     toLocaleString := fun x d =>
       if (100 <? d)%nat
       then Thrown (MkError RangeError
                      "maximumFractionDigits value is out of range.")
       else Returned
              match Prim2SF x with
              | S754_finite s m e =>
                  (if s then "-" else "")
                  ++ Number.fixed_point (Number.nearest_scaled m e d) d
              | _ => Number.fixed_point 0 d
              end;
     Date_toLocaleString := fun _ => "Invalid Date";
     null_read_message := fun k =>
       "Cannot read properties of null (reading '" ++ k ++ "')";
     no_primitive_message := "Cannot convert object to primitive value";
     abort_message := "signal is aborted without reason" |}.

(** A network that answers every request after 120 ms with status 200
    and, 30 ms later, the complete JSON body [v]. *)
Definition answers (v : JsValue) : Network :=
  fun _ => Response 120 200 30 (JsonBody v).

(** The failure payload of the specification's scenario. *)
Definition bad_account : JsValue :=
  VObj [("ok", VBool false); ("error", VStr "bad account")].

(** A failure payload whose [error] field is present and empty. *)
Definition empty_error : JsValue :=
  VObj [("ok", VBool false); ("error", VStr "")].

(** A result payload. *)
Definition week_result : JsValue :=
  VObj [("ok", VBool true); ("period", VStr "week");
        ("perp_pnl", VNum 12.5);
        ("positions", VArr [VObj [("coin", VStr "ETH")]]);
        ("closed", VArr [])].

(** The Dashboard of the specification's scenario: opened by
    [#/acct/0xABCD?base=https%3A%2F%2Fexample.test] with nothing stored. *)
Definition scenario_dashboard : Dashboard :=
  Dashboard_init
    (route_qs (parseRoute "#/acct/0xABCD?base=https%3A%2F%2Fexample.test")) [].

(** A decimal digit. *)
Definition is_digit (c : ascii) : bool :=
  ((48 <=? N_of_ascii c) && (N_of_ascii c <=? 57))%N.

(** The number that a string of decimal digits writes, read from the
    left after the digits that gave [acc]. *)
Fixpoint decimal_value_from (acc : N) (s : string) : N :=
  match s with
  | EmptyString => acc
  | String c r => decimal_value_from (10 * acc + (N_of_ascii c - 48)) r
  end.

Definition decimal_value (s : string) : N := decimal_value_from 0 s.

(** [n / 100] is the multiple of 0.01 nearest to the number [m * 2^e],
    the larger one of two that are equally near:
    [n - 1/2 <= 100 * m * 2^e < n + 1/2]. *)
Definition nearest_hundredths (n : N) (m : positive) (e : Z) : Prop :=
  if (0 <=? e)%Z then Z.of_N n = (100 * Z.pos m * 2 ^ e)%Z
  else ((2 * Z.of_N n - 1) * 2 ^ (- e) <= 200 * Z.pos m
        < (2 * Z.of_N n + 1) * 2 ^ (- e))%Z.

(* ================================================================== *)
(** * More of the Dashboard and of the application *)

(** The argument of [downloadCsv], line 124. *)
Inductive CsvSection : Type := CsvClosed | CsvPositions.

Definition section_name (sec : CsvSection) : string :=
  match sec with
  | CsvClosed => "closed"
  | CsvPositions => "positions"
  end.

(** The query that [downloadCsv(section)] writes, line 125: the address
    and the period go in as they are. *)
Definition downloadCsv_query (addr : string) (s : Dashboard)
    (sec : CsvSection) (now : N) : string :=
  "account=" ++ addr ++ "&period=" ++ period s ++ "&csv=1&section="
  ++ section_name sec ++ "&_ts=" ++ Number.digits (now / 1000).

(** The URL that [downloadCsv(section)] opens, line 125. *)
Definition downloadCsv_url (addr : string) (s : Dashboard)
    (sec : CsvSection) (now : N) : string :=
  Js.strip_trailing "/" (baseUrl s) ++ "/pnlClean?"
  ++ downloadCsv_query addr s sec now.

(** [window.location.hash = value], and [window.location.hash] read
    after it; [href] is the URL of the page. *)
Definition assign_hash (href value : string) : string :=
  Url.hash (Url.set_hash href value).

(** What can happen to a mounted Dashboard: the controls of lines
    155-173 and the settling of a request. *)
Inductive DashEvent : Type :=
| EditBaseUrl (v : string)
| ResetBaseUrl
| PickPeriod (v : string)
| SwitchPositions (v : bool)
| SwitchClosed (v : bool)
| ClickFetch
| Settled (c : Completion JsValue).

Section DashboardEvents.
Context {E : Engine}.

(** One event on a Dashboard and the number of its requests that are
    pending.  The Fetch button is disabled while [loading] (line 173),
    so a click then starts nothing; a request settles only while one is
    pending. *)
Definition dash_step (st : Dashboard * nat) (e : DashEvent)
  : Dashboard * nat :=
  let (s, pending) := st in
  match e with
  | EditBaseUrl v => (setBaseUrl v s, pending)
  | ResetBaseUrl => (setBaseUrl DEFAULT_BASE s, pending)
  | PickPeriod v => (setPeriod v s, pending)
  | SwitchPositions v => (setIncludePositions v s, pending)
  | SwitchClosed v => (setIncludeClosed v s, pending)
  | ClickFetch => if loading s then st else (run_begin s, S pending)
  | Settled c =>
      match pending with
      | O => st
      | S n => (run_settle c s, n)
      end
  end.

(** A Dashboard after a sequence of events since its mount. *)
Definition dash_after (qs : URLSearchParams.t) (ls : Storage.t)
    (events : list DashEvent) : Dashboard * nat :=
  fold_left dash_step events (Dashboard_init qs ls, O).

End DashboardEvents.

(** What can happen to the application. *)
Inductive AppEvent : Type :=
| HashChanged (location_hash : string)
| BaseUrlEdited (v : string)
| AddressEdited (v : string)
| Submitted (href : string)
| FetchClicked
| RequestSettled (issuer : nat) (c : Completion JsValue).

(** The base URL field of the page that is mounted. *)
Definition view_baseUrl (v : View) : string :=
  match v with
  | LandingView l => landing_baseUrl l
  | DashboardView _ _ d => baseUrl d
  end.

(** An edit of the base URL field (lines 85-86 and 155-156); the effect
    on [baseUrl] stores it (lines 66 and 108). *)
Definition edit_baseUrl (v : string) (a : App) : App :=
  {| storage := Storage.setItem (storage a) "ps_base" v;
     mounted := mounted a;
     view := match view a with
             | LandingView l =>
                 LandingView {| landing_baseUrl := v;
                                landing_addr := landing_addr l |}
             | DashboardView addr qs d =>
                 DashboardView addr qs (setBaseUrl v d)
             end |}.

(** An edit of the address field of the Landing page, line 80. *)
Definition edit_address (v : string) (a : App) : App :=
  match view a with
  | LandingView l =>
      {| storage := storage a; mounted := mounted a;
         view := LandingView {| landing_baseUrl := landing_baseUrl l;
                                landing_addr := v |} |}
  | DashboardView _ _ _ => a
  end.

(** A click on Continue, line 90: [go()] assigns the fragment, and the
    [hashchange] that follows is handled. *)
Definition submit (href : string) (a : App) : App :=
  match view a with
  | LandingView l =>
      match go l with
      | Some value => hashchange (assign_hash href value) a
      | None => a
      end
  | DashboardView _ _ _ => a
  end.

Section AppEvents.
Context {E : Engine}.

Definition app_step (a : App) (e : AppEvent) : App :=
  match e with
  | HashChanged h => hashchange h a
  | BaseUrlEdited v => edit_baseUrl v a
  | AddressEdited v => edit_address v a
  | Submitted href => submit href a
  | FetchClicked =>
      match view a with
      | DashboardView _ _ d => if loading d then a else click_fetch a
      | LandingView _ => a
      end
  | RequestSettled issuer c => settle issuer c a
  end.

(** The application after a sequence of events since its first render. *)
Definition app_after (location_hash : string) (ls : Storage.t)
    (events : list AppEvent) : App :=
  fold_left app_step events (start location_hash ls).

End AppEvents.

(** A value that is neither an array nor an object. *)
Definition primitive (v : JsValue) : bool :=
  match v with
  | VArr _ | VObj _ => false
  | _ => true
  end.

(** A primitive value, or an object whose properties are all primitive
    values. *)
Definition flat (v : JsValue) : bool :=
  match v with
  | VArr _ => false
  | VObj fields => forallb (fun kv => primitive (snd kv)) fields
  | _ => true
  end.

(** Rows that can be shown: nothing, or an array of flat values other
    than [null]. *)
Definition plain_rows (v : JsValue) : bool :=
  match v with
  | VUndefined | VNull => true
  | VArr items => forallb (fun r => negb (nullish r) && flat r) items
  | _ => false
  end.

(** A result of the shape the service sends: an object whose [positions]
    and [closed] are rows, whose [roi], [balances], [window] and
    [adjustments] are flat, and whose other properties are primitive
    values. *)
Definition plain_field (kv : string * JsValue) : bool :=
  if existsb (String.eqb (fst kv)) ["positions"; "closed"]
  then plain_rows (snd kv)
  else if existsb (String.eqb (fst kv))
            ["roi"; "balances"; "window"; "adjustments"]
  then flat (snd kv)
  else primitive (snd kv).

Definition plain_result (d : JsValue) : bool :=
  match d with
  | VObj fields => forallb plain_field fields
  | _ => false
  end.

(** The host formats numbers with up to six decimals. *)
Definition formats_six_decimals (E : Engine) : Prop :=
  forall x d, d <= 6 -> exists text, toLocaleString x d = Returned text.

(** The stored preference is the base URL of the mounted page. *)
Definition in_sync (a : App) : Prop :=
  Storage.getItem (storage a) "ps_base" = Some (view_baseUrl (view a)).

(** A character that the urlencoded serializer writes as it is. *)
Definition form_plain (c : ascii) : bool :=
  Percent.is_alnum c
  || existsb (fun x => (x =? c)%char) ["*"; "-"; "."; "_"]%char.

(** A character that the urlencoded serializer can write. *)
Definition form_written (c : ascii) : bool :=
  form_plain c || (c =? "+")%char || (c =? "%")%char.

(** One parameter as [toString] writes it. *)
Definition pair_text (kv : string * string) : string :=
  URLSearchParams.serialize_bytes (fst kv) ++ "="
  ++ URLSearchParams.serialize_bytes (snd kv).

(* ================================================================== *)
(** * Facts about strings *)

Module JsFacts.
Import Js.

Lemma append_assoc (a b c : string) : (a ++ b) ++ c = a ++ b ++ c.
Proof. induction a as [|x a IH]; simpl; [reflexivity | now rewrite IH]. Qed.

Lemma append_empty_r (a : string) : a ++ "" = a.
Proof. induction a as [|x a IH]; simpl; [reflexivity | now rewrite IH]. Qed.

Lemma truthy_iff (s : string) : truthy s = true <-> s <> "".
Proof.
  unfold truthy. rewrite negb_true_iff. apply String.eqb_neq.
Qed.

Lemma every_app (p : ascii -> bool) (a b : string) :
  every p (a ++ b) = every p a && every p b.
Proof.
  induction a as [|x a IH]; simpl; [reflexivity|].
  now rewrite IH, andb_assoc.
Qed.

Lemma every_impl (p q : ascii -> bool) (s : string) :
  (forall c, p c = true -> q c = true) -> every p s = true -> every q s = true.
Proof.
  intros Hpq. induction s as [|x s IH]; simpl; [reflexivity|].
  rewrite !andb_true_iff. intros [Hx Hs]. split; auto.
Qed.

(** [split] is: the part before the first separator, then the split of
    what follows it. *)
Lemma split_unfold (sep : ascii) (s : string) :
  split sep s
  = before sep s :: match after sep s with
                    | Some r => split sep r
                    | None => []
                    end.
Proof.
  induction s as [|c s IH]; simpl; [reflexivity|].
  destruct (c =? sep)%char; [reflexivity|].
  now rewrite IH.
Qed.

Lemma before_after (sep : ascii) (s : string) :
  s = before sep s ++ match after sep s with
                      | Some r => String sep r
                      | None => ""
                      end.
Proof.
  induction s as [|c s IH]; simpl; [reflexivity|].
  destruct (Ascii.eqb_spec c sep) as [->|Hne]; simpl; [reflexivity|].
  now rewrite <- IH.
Qed.

Lemma lacks_before (sep : ascii) (s : string) : lacks sep (before sep s) = true.
Proof.
  unfold lacks. induction s as [|c s IH]; simpl; [reflexivity|].
  destruct (c =? sep)%char eqn:Hc; simpl; [reflexivity|].
  now rewrite Hc, IH.
Qed.

Lemma before_lacks (sep : ascii) (s t : string) :
  lacks sep s = true -> before sep (s ++ t) = s ++ before sep t.
Proof.
  unfold lacks. induction s as [|c s IH]; simpl; [reflexivity|].
  rewrite andb_true_iff, negb_true_iff. intros [Hc Hs].
  now rewrite Hc, IH.
Qed.

Lemma after_lacks (sep : ascii) (s t : string) :
  lacks sep s = true -> after sep (s ++ t) = after sep t.
Proof.
  unfold lacks. induction s as [|c s IH]; simpl; [reflexivity|].
  rewrite andb_true_iff, negb_true_iff. intros [Hc Hs].
  now rewrite Hc, IH.
Qed.

Lemma before_here (sep : ascii) (r : string) : before sep (String sep r) = "".
Proof. simpl. now rewrite Ascii.eqb_refl. Qed.

Lemma after_here (sep : ascii) (r : string) :
  after sep (String sep r) = Some r.
Proof. simpl. now rewrite Ascii.eqb_refl. Qed.

Lemma before_all (sep : ascii) (s : string) :
  lacks sep s = true -> before sep s = s.
Proof.
  intros H. pose proof (before_lacks sep s "" H) as Hb.
  simpl in Hb. now rewrite !append_empty_r in Hb.
Qed.

Lemma after_none (sep : ascii) (s : string) :
  lacks sep s = true -> after sep s = None.
Proof.
  intros H. pose proof (after_lacks sep s "" H) as Ha.
  simpl in Ha. now rewrite !append_empty_r in Ha.
Qed.

Lemma split_lacks (sep : ascii) (s : string) :
  lacks sep s = true -> split sep s = [s].
Proof.
  intros H. rewrite split_unfold.
  now rewrite (before_all _ _ H), (after_none _ _ H).
Qed.

Lemma split_app (sep : ascii) (h r : string) :
  lacks sep h = true -> split sep (h ++ String sep r) = h :: split sep r.
Proof.
  intros H. rewrite split_unfold.
  rewrite (before_lacks _ _ _ H), (after_lacks _ _ _ H).
  now rewrite before_here, after_here, append_empty_r.
Qed.

Lemma strip_prefix_some (p s r : string) :
  strip_prefix p s = Some r -> s = p ++ r.
Proof.
  revert s. induction p as [|a p IH]; intros s; simpl.
  - now intros [= ->].
  - destruct s as [|b s]; [discriminate|].
    destruct (Ascii.eqb_spec a b) as [->|]; [|discriminate].
    intros H. now rewrite (IH _ H).
Qed.

End JsFacts.

(* ================================================================== *)
(** * The router *)

Module RouterFacts.
Import Js JsFacts.

Lemma segments_slash (r : string) : segments (String "/" r) = segments r.
Proof. reflexivity. Qed.

Lemma segments_copies (n : nat) (r : string) :
  segments (copies n "/" ++ r) = segments r.
Proof. induction n as [|n IH]; simpl; [reflexivity|]. now rewrite segments_slash. Qed.

(** A segment followed by a slash, or ending the path. *)
Lemma segments_first (x r : string) :
  x <> "" -> lacks "/" x = true ->
  segments (x ++ String "/" r) = x :: segments r.
Proof.
  intros Hx Hl. unfold segments. rewrite (split_app _ _ _ Hl). simpl.
  apply truthy_iff in Hx. now rewrite Hx.
Qed.

Lemma segments_last (x : string) :
  x <> "" -> lacks "/" x = true -> segments x = [x].
Proof.
  intros Hx Hl. unfold segments. rewrite (split_lacks _ _ Hl). simpl.
  apply truthy_iff in Hx. now rewrite Hx.
Qed.

(** Where the first segment of a path stands in it. *)
Lemma segments_cons (p x : string) (l : list string) :
  segments p = x :: l ->
  exists n r,
    p = copies n "/" ++ x ++ r /\ x <> "" /\ lacks "/" x = true
    /\ ((r = "" /\ l = []) \/ exists r', r = String "/" r' /\ segments r' = l).
Proof.
  revert x l. induction p as [|c p IH]; intros x l H; [discriminate|].
  destruct (Ascii.eqb_spec c "/") as [->|Hc].
  - rewrite segments_slash in H. destruct (IH _ _ H) as (n & r & -> & Hx & Hl & Hr).
    exists (S n), r. repeat split; assumption.
  - unfold segments in H. rewrite split_unfold in H.
    pose proof (before_after "/" (String c p)) as Hp.
    pose proof (lacks_before "/" (String c p)) as Hl.
    assert (Hb : before "/" (String c p) = String c (before "/" p)).
    { simpl. apply Ascii.eqb_neq in Hc. now rewrite Hc. }
    remember (after "/" (String c p)) as o eqn:Ho. clear Ho.
    rewrite Hb in H, Hp, Hl. simpl in H. injection H as <- <-.
    exists 0, (match o with Some r => String "/" r | None => "" end).
    split; [exact Hp|]. split; [discriminate|]. split; [exact Hl|].
    destruct o as [r'|].
    + right. exists r'. split; reflexivity.
    + left. split; reflexivity.
Qed.

Lemma segments_truthy (p x : string) : In x (segments p) -> truthy x = true.
Proof. unfold segments. intros H. now apply filter_In in H. Qed.

Lemma split_nth0 (sep : ascii) (s : string) :
  nth 0 (split sep s) "" = before sep s.
Proof. now rewrite split_unfold. Qed.

Lemma split_nth1 (sep : ascii) (s : string) :
  or_empty (nth_error (split sep s) 1)
  = match after sep s with Some q => before sep q | None => "" end.
Proof.
  rewrite split_unfold. simpl.
  destruct (after sep s) as [q|]; [|reflexivity].
  rewrite split_unfold. simpl. unfold truthy.
  now destruct (String.eqb_spec (before sep q) "") as [->|].
Qed.

(** [parseRoute] by the segments of the path. *)
Lemma parseRoute_segments (f : string) :
  parseRoute f =
  match segments (fragment_path f) with
  | p0 :: p1 :: _ =>
      if (p0 =? "acct") then Acct p1 (fragment_query f)
      else Home (fragment_query f)
  | _ => Home (fragment_query f)
  end.
Proof.
  unfold parseRoute, fragment_path, fragment_query.
  cbv zeta. rewrite split_nth0, split_nth1.
  fold (segments (before "?" (strip_leading "#" f))).
  pose proof (segments_truthy (before "?" (strip_leading "#" f))) as Ht.
  destruct (segments (before "?" (strip_leading "#" f))) as [|p0 [|p1 l]];
    try reflexivity.
  simpl. rewrite (Ht p1) by (simpl; auto). now rewrite andb_true_r.
Qed.

(** From two leading segments to the shape of the path. *)
Lemma account_path_of_segments (p a : string) (l : list string) :
  segments p = "acct" :: a :: l -> account_path p a.
Proof.
  intros H. destruct (segments_cons _ _ _ H) as (n & r & -> & _ & _ & Hr).
  destruct Hr as [[_ Hl]|(r' & -> & Hs)]; [discriminate|].
  destruct (segments_cons _ _ _ Hs) as (m & rest & -> & Ha & Hla & Hrest).
  exists n, m, rest. repeat split; try assumption.
  destruct Hrest as [[-> _]|(r'' & -> & _)]; [now left | right; now exists r''].
Qed.

(** And back. *)
Lemma segments_of_account_path (p a : string) :
  account_path p a -> exists l, segments p = "acct" :: a :: l.
Proof.
  intros (n & m & rest & -> & Ha & Hl & Hrest).
  rewrite segments_copies.
  change ("acct" ++ copies (S m) "/" ++ a ++ rest)
    with ("acct" ++ String "/" (copies m "/" ++ a ++ rest)).
  rewrite segments_first by (discriminate || reflexivity).
  rewrite segments_copies.
  destruct Hrest as [->|(r & ->)].
  - rewrite append_empty_r, (segments_last _ Ha Hl). now exists [].
  - rewrite (segments_first _ _ Ha Hl). now eexists.
Qed.

(** A query string appended to a fragment leaves its path as it was. *)
Lemma fragment_path_with_query (f q : string) :
  lacks "?" f = true -> fragment_path (f ++ "?" ++ q) = fragment_path f.
Proof.
  intros H. unfold fragment_path.
  assert (Hs : lacks "?" (strip_leading "#" f) = true).
  { destruct f as [|c f]; [reflexivity|]. simpl.
    destruct (c =? "#")%char; [|exact H].
    unfold lacks in H. simpl in H. now apply andb_true_iff in H. }
  assert (Happ : strip_leading "#" (f ++ "?" ++ q)
                 = strip_leading "#" f ++ "?" ++ q).
  { destruct f as [|c f]; [reflexivity|]. simpl.
    now destruct (c =? "#")%char. }
  rewrite Happ, (before_lacks _ _ _ Hs), (before_all _ _ Hs).
  change ("?" ++ q) with (String "?" q).
  now rewrite before_here, append_empty_r.
Qed.

End RouterFacts.

Example parseRoute_spec_scenario :
  parseRoute "#/acct/0xABCD?base=https%3A%2F%2Fexample.test"
  = Acct "0xABCD" [("base", "https://example.test")].
Proof. reflexivity. Qed.

Example parseRoute_root : parseRoute "#/" = Home [].
Proof. reflexivity. Qed.

Example parseRoute_no_address : parseRoute "#/acct/?base=x" = Home [("base", "x")].
Proof. reflexivity. Qed.

Example parseRoute_without_slash : parseRoute "#acct/0xABCD" = Acct "0xABCD" [].
Proof. reflexivity. Qed.

Example parseRoute_further_segments :
  parseRoute "#/acct/0xABCD/more/here" = Acct "0xABCD" [].
Proof. reflexivity. Qed.

(** C1, as stated, fails: the fragment [#//acct/0xABCD] is not of the
    form [#/acct/<nonempty>] (its second character is followed by another
    slash, not by [acct]), and [parseRoute] still yields the account
    route for [0xABCD], because empty path segments are dropped. *)
Lemma parseRoute_not_exact :
  matches_exactly "#//acct/0xABCD" = false
  /\ parseRoute "#//acct/0xABCD" = Acct "0xABCD" [].
Proof. split; reflexivity. Qed.

(** C1, amended.  [parseRoute] is total, and for every fragment [f]:
    it yields the account route for [a] exactly when the path of [f] (one
    leading [#] removed, cut at the first [?]) is any number of slashes,
    the literal [acct], one or more slashes, the non-empty slash-free [a],
    and then nothing or a slash followed by anything; it yields the home
    route exactly when the path has that shape for no [a]; the query
    parameters are those of the fragment in both cases; a fragment of
    the exact form [#/acct/<nonempty>], with or without a query string,
    is an account route; and a query string appended to a fragment
    leaves its path, and so the choice of the route, as it was. *)
Theorem parseRoute_home_unless_account_path (f : string) :
  ((exists a, parseRoute f = Acct a (fragment_query f))
   \/ parseRoute f = Home (fragment_query f))
  /\ (forall a, account_path (fragment_path f) a
                <-> parseRoute f = Acct a (fragment_query f))
  /\ ((forall a, ~ account_path (fragment_path f) a)
      <-> parseRoute f = Home (fragment_query f))
  /\ (matches_exactly f = true
      -> exists a, parseRoute f = Acct a (fragment_query f))
  /\ (forall q, Js.lacks "?" f = true
                -> fragment_path (f ++ "?" ++ q) = fragment_path f).
Proof.
  split.
  { rewrite RouterFacts.parseRoute_segments.
    destruct (segments (fragment_path f)) as [|p0 [|p1 l]]; auto.
    destruct (p0 =? "acct"); eauto. }
  cut ((forall a, account_path (fragment_path f) a
                  <-> parseRoute f = Acct a (fragment_query f))
       /\ ((forall a, ~ account_path (fragment_path f) a)
           <-> parseRoute f = Home (fragment_query f))
       /\ (matches_exactly f = true
           -> exists a, parseRoute f = Acct a (fragment_query f))).
  { intros (Ha & Hb & Hc). repeat (split; [assumption|]).
    intros q Hq. now apply RouterFacts.fragment_path_with_query. }
  assert (H1 : forall a, account_path (fragment_path f) a
                         <-> parseRoute f = Acct a (fragment_query f)).
  { intros a. rewrite RouterFacts.parseRoute_segments. split.
    - intros H. destruct (RouterFacts.segments_of_account_path _ _ H) as [l ->].
      reflexivity.
    - destruct (segments (fragment_path f)) as [|p0 [|p1 l]] eqn:Hs;
        try discriminate.
      destruct (String.eqb_spec p0 "acct") as [->|]; [|discriminate].
      intros [= ->]. exact (RouterFacts.account_path_of_segments _ _ _ Hs). }
  split; [exact H1|]. split.
  - split.
    + intros Hno. rewrite RouterFacts.parseRoute_segments.
      destruct (segments (fragment_path f)) as [|p0 [|p1 l]] eqn:Hs;
        try reflexivity.
      destruct (String.eqb_spec p0 "acct") as [->|]; [|reflexivity].
      destruct (Hno p1). exact (RouterFacts.account_path_of_segments _ _ _ Hs).
    + intros Hh a Ha. apply H1 in Ha. congruence.
  - unfold matches_exactly.
    destruct (strip_prefix "#/acct/" f) as [rest|] eqn:Hp; [|discriminate].
    apply JsFacts.strip_prefix_some in Hp. subst f.
    rewrite andb_true_iff, JsFacts.truthy_iff. intros [Hne Hl].
    exists (Js.before "?" rest). apply H1.
    exists 1, 0, "". repeat split; auto.
    unfold fragment_path. simpl. now rewrite JsFacts.append_empty_r.
Qed.

(* ================================================================== *)
(** * Escaping and the share link *)

Module PercentFacts.
Import Js JsFacts Percent.

Ltac by_byte c := destruct c as [[] [] [] [] [] [] [] []].

(** One byte through [encodeURIComponent] and back. *)
Lemma decode_encoded_byte (c : ascii) (r : string) :
  decode (if uri_unreserved c then String c r else escape c r)
  = String c (decode r).
Proof. by_byte c; reflexivity. Qed.

Lemma decode_encodeURIComponent (s : string) :
  decode (encodeURIComponent s) = s.
Proof.
  induction s as [|c s IH]; simpl; [reflexivity|].
  pose proof (decode_encoded_byte c (encodeURIComponent s)) as H.
  destruct (uri_unreserved c); rewrite H, IH; reflexivity.
Qed.

Lemma encodeURIComponent_safe (s : string) :
  every uri_safe (encodeURIComponent s) = true.
Proof.
  induction s as [|c s IH]; simpl; [reflexivity|].
  assert (H : forall r, every uri_safe r = true ->
            every uri_safe (if uri_unreserved c then String c r
                            else escape c r) = true).
  { intros r Hr. by_byte c; simpl; exact Hr. }
  specialize (H _ IH). now destruct (uri_unreserved c).
Qed.

(** What a safe character is not. *)
Lemma uri_safe_plain (c : ascii) :
  uri_safe c = true ->
  negb (c =? "+")%char && negb (c =? "&")%char && negb (c =? "=")%char
  && negb (c =? "?")%char && negb (c =? "/")%char && negb (c =? "#")%char
  && fragment_stable c = true.
Proof. by_byte c; intros H; try reflexivity; discriminate H. Qed.

Lemma safe_lacks (x : ascii) (s : string) :
  In x ["+"; "&"; "="; "?"; "/"; "#"]%char ->
  every uri_safe s = true -> lacks x s = true.
Proof.
  intros Hx. apply every_impl. intros c Hc.
  apply uri_safe_plain in Hc. rewrite !andb_true_iff in Hc.
  simpl in Hx. intuition (subst; assumption).
Qed.

Lemma safe_stable (s : string) :
  every uri_safe s = true -> every fragment_stable s = true.
Proof.
  apply every_impl. intros c Hc.
  apply uri_safe_plain in Hc. rewrite !andb_true_iff in Hc. tauto.
Qed.

Lemma plus_to_space_lacks (s : string) :
  lacks "+" s = true -> URLSearchParams.plus_to_space s = s.
Proof.
  unfold lacks. induction s as [|c s IH]; simpl; [reflexivity|].
  rewrite andb_true_iff, negb_true_iff. intros [Hc Hs].
  now rewrite Hc, IH.
Qed.

Lemma fragment_encode_stable (s : string) :
  every fragment_stable s = true -> fragment_encode s = s.
Proof.
  unfold fragment_stable. induction s as [|c s IH]; simpl; [reflexivity|].
  rewrite !andb_true_iff, !negb_true_iff. intros [[Ht Hf] Hs].
  now rewrite Ht, Hf, IH.
Qed.

(** The query [base=<encoded>] read back by [URLSearchParams]. *)
Lemma new_base_parameter (base : string) :
  URLSearchParams.new ("base=" ++ encodeURIComponent base) = [("base", base)].
Proof.
  pose proof (encodeURIComponent_safe base) as Hs.
  assert (Hamp : lacks "&" ("base=" ++ encodeURIComponent base) = true).
  { unfold lacks. rewrite every_app. simpl.
    apply (safe_lacks "&"); [simpl; tauto | exact Hs]. }
  unfold URLSearchParams.new, URLSearchParams.parse.
  change (strip_leading "?" ("base=" ++ encodeURIComponent base))
    with ("base=" ++ encodeURIComponent base).
  rewrite (split_lacks _ _ Hamp).
  simpl. unfold URLSearchParams.parse_pair. simpl.
  rewrite plus_to_space_lacks
    by (apply (safe_lacks "+"); [simpl; tauto | exact Hs]).
  now rewrite decode_encodeURIComponent.
Qed.

(** The fragment of a URL whose hash was just set. *)
Lemma hash_set_hash (href v : string) :
  Url.hash (Url.set_hash href (String "#" (String "/" v)))
  = "#" ++ fragment_encode (String "/" v).
Proof.
  unfold Url.hash, Url.set_hash, Url.without_fragment. simpl String.eqb.
  cbv iota. rewrite after_lacks by apply lacks_before.
  reflexivity.
Qed.

End PercentFacts.

Module ShareFacts.
Import Js JsFacts Percent PercentFacts.

Lemma plain_address_parts (addr : string) :
  plain_address addr = true ->
  addr <> "" /\ lacks "/" addr = true /\ lacks "?" addr = true
  /\ every fragment_stable addr = true.
Proof.
  unfold plain_address. rewrite andb_true_iff, truthy_iff. intros [Hne He].
  split; [exact Hne|].
  repeat split; revert He; apply every_impl; intros c;
    rewrite !andb_true_iff; tauto.
Qed.

(** The fragment that [shareUrl] writes is read back by the browser as it
    was written. *)
Lemma share_fragment (href addr base : string) :
  plain_address addr = true ->
  Url.hash (shareUrl href addr base)
  = "#" ++ ("/acct/" ++ addr) ++ "?base=" ++ encodeURIComponent base.
Proof.
  intros H. destruct (plain_address_parts _ H) as (_ & _ & _ & Hst).
  unfold shareUrl.
  change ("#/acct/" ++ addr ++ "?base=" ++ encodeURIComponent base)
    with (String "#" (String "/"
            ("acct/" ++ addr ++ "?base=" ++ encodeURIComponent base))).
  rewrite hash_set_hash, fragment_encode_stable.
  - now rewrite append_assoc.
  - change (every fragment_stable
              ("/acct/" ++ addr ++ "?base=" ++ encodeURIComponent base) = true).
    rewrite !every_app, Hst. simpl.
    apply safe_stable, encodeURIComponent_safe.
Qed.

(** [parseRoute] on such a fragment. *)
Lemma parseRoute_share_fragment (addr base : string) :
  addr <> "" -> lacks "/" addr = true -> lacks "?" addr = true ->
  parseRoute ("#" ++ ("/acct/" ++ addr) ++ "?base=" ++ encodeURIComponent base)
  = Acct addr [("base", base)].
Proof.
  intros Hne Hsl Hq.
  assert (HP : lacks "?" ("/acct/" ++ addr) = true).
  { unfold lacks. rewrite every_app. simpl. exact Hq. }
  assert (HB : lacks "?" ("base=" ++ encodeURIComponent base) = true).
  { unfold lacks. rewrite every_app. simpl.
    apply (safe_lacks "?"); [simpl; tauto | apply encodeURIComponent_safe]. }
  rewrite RouterFacts.parseRoute_segments.
  unfold fragment_path, fragment_query.
  change (strip_leading "#"
            ("#" ++ ("/acct/" ++ addr) ++ "?base=" ++ encodeURIComponent base))
    with (("/acct/" ++ addr) ++ String "?" ("base=" ++ encodeURIComponent base)).
  rewrite (before_lacks _ _ _ HP), (after_lacks _ _ _ HP).
  rewrite before_here, after_here, append_empty_r, (before_all _ _ HB).
  change ("/acct/" ++ addr) with (String "/" ("acct" ++ String "/" addr)).
  rewrite RouterFacts.segments_slash.
  rewrite RouterFacts.segments_first by (discriminate || reflexivity).
  rewrite (RouterFacts.segments_last _ Hne Hsl).
  rewrite new_base_parameter. reflexivity.
Qed.

End ShareFacts.

Example shareUrl_example :
  shareUrl "https://app.example/#/acct/0x12" "0xABCD" "https://example.test"
  = "https://app.example/#/acct/0xABCD?base=https%3A%2F%2Fexample.test".
Proof. reflexivity. Qed.

Example shareUrl_empty_address :
  parseRoute (Url.hash (shareUrl "https://app.example/" "" "https://example.test"))
  = Home [("base", "https://example.test")].
Proof. reflexivity. Qed.

Example shareUrl_question_mark :
  parseRoute (Url.hash (shareUrl "https://app.example/" "a?b" "https://example.test"))
  = Acct "a" [("b", "")].
Proof. reflexivity. Qed.

Example shareUrl_space :
  parseRoute (Url.hash (shareUrl "https://app.example/" "a b" "https://example.test"))
  = Acct "a%20b" [("base", "https://example.test")].
Proof. reflexivity. Qed.

(** C4, as stated, fails: for the address [a/b] the fragment of the share
    link is [#/acct/a/b?base=...], and [parseRoute] yields the account
    route for [a], not for [a/b]. *)
Lemma shareUrl_roundtrip_fails_on_slash :
  parseRoute (Url.hash (shareUrl "https://app.example/" "a/b" "https://example.test"))
  = Acct "a" [("base", "https://example.test")]
  /\ ~ (exists qs,
         parseRoute (Url.hash (shareUrl "https://app.example/" "a/b"
                                 "https://example.test"))
         = Acct "a/b" qs).
Proof.
  split; [reflexivity|]. intros [qs H]. vm_compute in H. discriminate H.
Qed.

(** C4, amended.  For every page URL [href], every base URL [base] and
    every address [addr] that is not empty, contains no [/] and no [?],
    and consists of characters a URL fragment keeps as they are (no
    control character, space, double quote, [<], [>], back-quote or
    non-ASCII byte): [parseRoute] applied to the fragment of
    [shareUrl(addr, base)] yields the account route with address [addr],
    and its only query parameter is [base] with the value [base]. *)
Theorem shareUrl_parseRoute_roundtrip (href addr base : string) :
  plain_address addr = true ->
  parseRoute (Url.hash (shareUrl href addr base)) = Acct addr [("base", base)]
  /\ URLSearchParams.get
       (route_qs (parseRoute (Url.hash (shareUrl href addr base)))) "base"
     = Some base.
Proof.
  intros H. destruct (ShareFacts.plain_address_parts _ H) as (Hne & Hsl & Hq & _).
  rewrite (ShareFacts.share_fragment _ _ _ H).
  rewrite (ShareFacts.parseRoute_share_fragment _ _ Hne Hsl Hq).
  split; reflexivity.
Qed.

Lemma shareUrl_parseRoute_roundtrip_witness :
  plain_address "0xABCD" = true
  /\ parseRoute (Url.hash (shareUrl "https://app.example/#/" "0xABCD"
                             "https://example.test/api?x=1&y=a b"))
     = Acct "0xABCD" [("base", "https://example.test/api?x=1&y=a b")].
Proof.
  split; [reflexivity|].
  apply (shareUrl_parseRoute_roundtrip "https://app.example/#/" "0xABCD"
           "https://example.test/api?x=1&y=a b"). reflexivity.
Defined.

(* ================================================================== *)
(** * The Dashboard: initial state and controls *)

Example scenario_dashboard_state :
  baseUrl scenario_dashboard = "https://example.test"
  /\ period scenario_dashboard = "week".
Proof. split; reflexivity. Qed.

Example run_url_scenario :
  run_url "0xABCD" scenario_dashboard 1700000000123
  = "https://example.test/pnlClean?account=0xABCD&period=week&_ts=1700000000&positions=1&closed=1".
Proof. reflexivity. Qed.

Lemma or_else_set (o : option string) (d v : string) :
  o = Some v -> v <> "" -> or_else o d = v.
Proof.
  intros -> Hv. unfold or_else. apply JsFacts.truthy_iff in Hv. now rewrite Hv.
Qed.

Lemma or_else_unset (o : option string) (d : string) :
  unset o -> or_else o d = d.
Proof. intros [->| ->]; reflexivity. Qed.

(** C3, as stated, fails: a Dashboard opened by
    [#/acct/0xABCD?period=yearly] starts with the period [yearly], which
    is none of the eight built-in periods. *)
Lemma Dashboard_period_not_constrained :
  period (Dashboard_init
            (route_qs (parseRoute "#/acct/0xABCD?period=yearly")) [])
  = "yearly"
  /\ ~ In "yearly" BUILT_IN_PERIODS.
Proof.
  split; [reflexivity|]. simpl. intros H.
  repeat (destruct H as [H|H]; [discriminate H|]). exact H.
Qed.

(** C3, amended.  On mount the base URL is the [base] query parameter
    when it is set (present and not empty), else the stored preference
    [ps_base] when it is set, else the built-in default.  The period is
    the [period] query parameter when it is set, whatever its value, and
    ["week"] otherwise: no stored preference takes part in it and it is
    not checked against the built-in periods.  ["week"] is one of the
    eight built-in periods, which are what the selector offers. *)
Theorem Dashboard_init_precedence (qs : URLSearchParams.t) (ls : Storage.t) :
  (forall b, URLSearchParams.get qs "base" = Some b -> b <> "" ->
             baseUrl (Dashboard_init qs ls) = b)
  /\ (forall p, unset (URLSearchParams.get qs "base") ->
                Storage.getItem ls "ps_base" = Some p -> p <> "" ->
                baseUrl (Dashboard_init qs ls) = p)
  /\ (unset (URLSearchParams.get qs "base") ->
      unset (Storage.getItem ls "ps_base") ->
      baseUrl (Dashboard_init qs ls) = DEFAULT_BASE)
  /\ (forall p, URLSearchParams.get qs "period" = Some p -> p <> "" ->
                period (Dashboard_init qs ls) = p)
  /\ (unset (URLSearchParams.get qs "period") ->
      period (Dashboard_init qs ls) = "week")
  /\ (forall ls', period (Dashboard_init qs ls') = period (Dashboard_init qs ls))
  /\ In "week" BUILT_IN_PERIODS
  /\ BUILT_IN_PERIODS
     = ["day"; "week"; "month"; "allTime";
        "perpDay"; "perpWeek"; "perpMonth"; "perpAllTime"].
Proof.
  unfold Dashboard_init; simpl.
  repeat split.
  - intros b Hb Hne. now apply or_else_set.
  - intros p Hq Hp Hne. rewrite (or_else_unset _ _ Hq). now apply or_else_set.
  - intros Hq Hp. now rewrite (or_else_unset _ _ Hq), (or_else_unset _ _ Hp).
  - intros p Hp Hne. now apply or_else_set.
  - intros Hq. now apply or_else_unset.
  - tauto.
Qed.

Module RenderFacts.
Section WithEngine.
Context {E : Engine}.

Lemma and_then_some {A B : Type} (o : option A) (k : A -> option B) (b : B) :
  and_then o k = Some b -> exists a, o = Some a /\ k a = Some b.
Proof. destruct o as [a|]; [|discriminate]. intros H. now exists a. Qed.

(** A positions table is a table when the switch is on and nothing when
    it is off. *)
Lemma positions_table_shape (s : Dashboard) (d : JsValue) (l : list Widget) :
  positions_table s d = Some l ->
  if includePositions s then exists rows, l = [PositionsTable rows]
  else l = [].
Proof.
  unfold positions_table. destruct (includePositions s).
  - intros H. apply and_then_some in H. destruct H as (items & _ & H).
    apply and_then_some in H. destruct H as (rows & _ & [= <-]).
    now exists rows.
  - now intros [= <-].
Qed.

Lemma closed_table_shape (s : Dashboard) (d : JsValue) (l : list Widget) :
  closed_table s d = Some l ->
  if includeClosed s then exists rows, l = [ClosedTable rows]
  else l = [].
Proof.
  unfold closed_table. destruct (includeClosed s).
  - intros H. apply and_then_some in H. destruct H as (items & _ & H).
    apply and_then_some in H. destruct H as (rows & _ & [= <-]).
    now exists rows.
  - now intros [= <-].
Qed.

(** The parts of a data block that was rendered. *)
Lemma data_block_parts (s : Dashboard) (d : JsValue) (block : list Widget) :
  data_block s d = Some block ->
  exists cards window cashflows positions closed,
    summary_cards d = Some cards
    /\ window_text d = Some window
    /\ cashflows_text d = Some cashflows
    /\ positions_table s d = Some positions
    /\ closed_table s d = Some closed
    /\ block = ([SummaryCards cards; WindowAndCashflows window cashflows]
                ++ positions ++ closed)%list.
Proof.
  unfold data_block. intros H.
  apply and_then_some in H. destruct H as (cards & Hc & H).
  apply and_then_some in H. destruct H as (w & Hw & H).
  apply and_then_some in H. destruct H as (c & Hf & H).
  apply and_then_some in H. destruct H as (pos & Hp & H).
  apply and_then_some in H. destruct H as (cl & Hl & [= <-]).
  now exists cards, w, c, pos, cl.
Qed.

(** What a render shows is the controls, the banner, the data block and
    the prompt. *)
Lemma render_parts (s : Dashboard) (widgets : list Widget) :
  render s = Some widgets ->
  exists block,
    match data s with
    | Some d => if ToBoolean d then data_block s d else Some []
    | None => Some []
    end = Some block
    /\ widgets
       = ([FetchButton (loading s)]
          ++ (if includeClosed s
              then ClosedCsvButton
                   :: (if includePositions s then [PositionsCsvButton] else [])
              else [])
          ++ (if Js.truthy (error s) then [ErrorBanner (error s)] else [])
          ++ block
          ++ (if negb (has_data s) && negb (loading s)
                 && negb (Js.truthy (error s))
              then [FetchPrompt] else []))%list.
Proof.
  unfold render. intros H. apply and_then_some in H.
  destruct H as (block & Hb & [= <-]). now exists block.
Qed.

(** The widgets of a data block, by kind. *)
Lemma data_block_kinds (s : Dashboard) (d : JsValue) (block : list Widget) :
  data_block s d = Some block ->
  existsb is_positions_csv block = false
  /\ existsb is_closed_csv block = false
  /\ existsb is_positions_table block = includePositions s
  /\ existsb is_closed_table block = includeClosed s.
Proof.
  intros H. apply data_block_parts in H.
  destruct H as (cards & w & c & pos & cl & _ & _ & _ & Hp & Hl & ->).
  apply positions_table_shape in Hp. apply closed_table_shape in Hl.
  destruct (includePositions s), (includeClosed s);
    repeat match goal with
           | H : exists _, _ |- _ => destruct H as (? & ->)
           | H : _ = [] |- _ => rewrite H
           end; repeat split; reflexivity.
Qed.

(** Without data, every render succeeds. *)
Lemma render_without_data (s : Dashboard) :
  data s = None ->
  render s
  = Some ([FetchButton (loading s)]
          ++ (if includeClosed s
              then ClosedCsvButton
                   :: (if includePositions s then [PositionsCsvButton] else [])
              else [])
          ++ (if Js.truthy (error s) then [ErrorBanner (error s)] else [])
          ++ (if negb (loading s) && negb (Js.truthy (error s))
              then [FetchPrompt] else []))%list.
Proof.
  intros H. unfold render, has_data. rewrite H. reflexivity.
Qed.

(** Switching the closed trades off leaves the rest of the data block. *)
Lemma data_block_closed_off (s : Dashboard) (d : JsValue)
    (block : list Widget) :
  data_block s d = Some block ->
  exists block',
    data_block (setIncludeClosed false s) d = Some block'
    /\ existsb is_positions_csv block' = false
    /\ existsb is_closed_csv block' = false
    /\ existsb is_positions_table block' = includePositions s
    /\ existsb is_closed_table block' = false
    /\ (forall rows, In (PositionsTable rows) block ->
                     In (PositionsTable rows) block').
Proof.
  intros H. apply data_block_parts in H.
  destruct H as (cards & w & c & pos & cl & Hc & Hw & Hf & Hp & Hl & ->).
  exists ([SummaryCards cards; WindowAndCashflows w c] ++ pos)%list.
  assert (Hb : data_block (setIncludeClosed false s) d
               = Some ([SummaryCards cards; WindowAndCashflows w c] ++ pos)%list).
  { unfold data_block. rewrite Hc, Hw, Hf. simpl.
    unfold positions_table in *. simpl includePositions. rewrite Hp. simpl.
    now rewrite app_nil_r. }
  split; [exact Hb|].
  destruct (data_block_kinds _ _ _ Hb) as (H1 & H2 & H3 & H4).
  repeat split; try assumption.
  intros rows Hin. apply closed_table_shape in Hl.
  simpl in Hin. destruct Hin as [Hin|[Hin|Hin]]; try discriminate.
  apply in_app_or in Hin. destruct Hin as [Hin|Hin].
  - simpl. right. right. exact Hin.
  - destruct (includeClosed s).
    + destruct Hl as (r & ->). simpl in Hin. destruct Hin as [Hin|[]].
      discriminate.
    + subst cl. destruct Hin.
Qed.

End WithEngine.
End RenderFacts.

Example render_week_result :
  @render sample_host
    (setData (Some week_result) scenario_dashboard)
  = Some [FetchButton false; ClosedCsvButton; PositionsCsvButton;
          SummaryCards [("Period", "week", ""); ("Trading PnL", "$12.50", "ROI ");
                        ("Portfolio PnL", "$", "ROI ");
                        ("Balances Now", "Perp $" ++ String "010" "Port $", "")];
          WindowAndCashflows " → " "Deposits: $ · Withdrawals: $ · Net: $";
          PositionsTable [["ETH"; ""; " ETH"; ""; ""; "$"; "$"; ""; ""; "";
                           ""; ""]];
          ClosedTable []].
Proof. reflexivity. Qed.

(** A result whose [positions] is not an array cannot be rendered: line
    234 calls a [map] that is not there, and nothing of the Dashboard is
    shown. *)
Example render_positions_not_an_array :
  @render sample_host
    (setData (Some (VObj [("ok", VBool true); ("positions", VNum 5)]))
       scenario_dashboard)
  = None.
Proof. reflexivity. Qed.

(** C10.  A Dashboard shows the Positions CSV control only when the
    closed-trades toggle and the positions toggle are both on.  In every
    state that renders, the control is shown exactly then, and the Closed
    CSV control exactly when the closed-trades toggle is on.  And when a
    state with the positions toggle on renders, the state with the
    closed-trades toggle turned off renders too, without the Positions
    CSV control and without the Closed CSV control, while the positions
    toggle is still on and the positions table of the result is still
    shown. *)
Theorem positions_csv_needs_both_toggles {E : Engine} (s : Dashboard) :
  (shows is_positions_csv s = true ->
   includeClosed s = true /\ includePositions s = true)
  /\ (forall widgets, render s = Some widgets ->
        existsb is_positions_csv widgets
        = includeClosed s && includePositions s
        /\ existsb is_closed_csv widgets = includeClosed s
        /\ (includePositions s = true ->
            exists widgets',
              render (setIncludeClosed false s) = Some widgets'
              /\ existsb is_positions_csv widgets' = false
              /\ existsb is_closed_csv widgets' = false
              /\ includePositions (setIncludeClosed false s) = true
              /\ existsb is_positions_table widgets' = has_data s
              /\ existsb is_closed_table widgets' = false
              /\ (forall rows, In (PositionsTable rows) widgets ->
                               In (PositionsTable rows) widgets'))).
Proof.
  assert (Hcsv : forall widgets, render s = Some widgets ->
            existsb is_positions_csv widgets
            = includeClosed s && includePositions s
            /\ existsb is_closed_csv widgets = includeClosed s).
  { intros widgets H. apply RenderFacts.render_parts in H.
    destruct H as (block & Hb & ->).
    assert (Hk : existsb is_positions_csv block = false
                 /\ existsb is_closed_csv block = false).
    { destruct (data s) as [d|]; [destruct (ToBoolean d)|].
      - apply RenderFacts.data_block_kinds in Hb. tauto.
      - injection Hb as <-. now split.
      - injection Hb as <-. now split. }
    destruct Hk as [Hk1 Hk2].
    rewrite !existsb_app, Hk1, Hk2.
    split; destruct (includeClosed s), (includePositions s),
      (Js.truthy (error s)),
      (negb (has_data s) && negb (loading s) && negb true),
      (negb (has_data s) && negb (loading s) && negb false); reflexivity. }
  split.
  - unfold shows. destruct (render s) as [widgets|] eqn:Hr; [|discriminate].
    destruct (Hcsv widgets eq_refl) as [-> _]. apply andb_true_iff.
  - intros widgets Hr. destruct (Hcsv widgets Hr) as [H1 H2].
    split; [exact H1|]. split; [exact H2|]. intros Hip.
    apply RenderFacts.render_parts in Hr. destruct Hr as (block & Hb & ->).
    assert (Hoff : exists block',
              match data s with
              | Some d => if ToBoolean d
                          then data_block (setIncludeClosed false s) d
                          else Some []
              | None => Some []
              end = Some block'
              /\ existsb is_positions_csv block' = false
              /\ existsb is_closed_csv block' = false
              /\ existsb is_positions_table block' = has_data s
              /\ existsb is_closed_table block' = false
              /\ (forall rows, In (PositionsTable rows) block ->
                               In (PositionsTable rows) block')).
    { unfold has_data.
      destruct (data s) as [d|]; [destruct (ToBoolean d)|].
      - apply RenderFacts.data_block_closed_off in Hb.
        destruct Hb as (block' & Hb' & K1 & K2 & K3 & K4 & K5).
        exists block'. rewrite Hip in K3. now repeat split.
      - injection Hb as <-. exists []. now repeat split.
      - injection Hb as <-. exists []. now repeat split. }
    destruct Hoff as (block' & Hb' & K1 & K2 & K3 & K4 & K5).
    exists ([FetchButton (loading s)]
            ++ (if Js.truthy (error s) then [ErrorBanner (error s)] else [])
            ++ block'
            ++ (if negb (has_data s) && negb (loading s)
                   && negb (Js.truthy (error s))
                then [FetchPrompt] else []))%list.
    split.
    { unfold render. change (data (setIncludeClosed false s)) with (data s).
      rewrite Hb'. reflexivity. }
    rewrite !existsb_app, K1, K2, K3, K4.
    assert (Hfalse : forall w : Widget -> bool,
              w (FetchButton (loading s)) = false ->
              w (ErrorBanner (error s)) = false ->
              w FetchPrompt = false ->
              forall x,
                (existsb w [FetchButton (loading s)]
                 || (existsb w (if Js.truthy (error s)
                                then [ErrorBanner (error s)] else [])
                     || (x || existsb w
                                (if negb (has_data s) && negb (loading s)
                                    && negb (Js.truthy (error s))
                                 then [FetchPrompt] else [])))) = x).
    { intros w W1 W2 W3 x. simpl. rewrite W1.
      destruct (Js.truthy (error s)); simpl; rewrite ?W2;
        destruct (negb (has_data s) && negb (loading s) && _); simpl;
        rewrite ?W3, ?orb_false_r; reflexivity. }
    rewrite !Hfalse by reflexivity.
    repeat split; try reflexivity; try assumption.
    intros rows Hin.
    assert (Hblock : In (PositionsTable rows) block).
    { apply in_app_or in Hin. destruct Hin as [Hin|Hin].
      { destruct Hin as [Hin|[]]. discriminate. }
      apply in_app_or in Hin. destruct Hin as [Hin|Hin].
      { destruct (includeClosed s); simpl in Hin; [|destruct Hin].
        destruct Hin as [Hin|Hin]; [discriminate|].
        destruct (includePositions s); simpl in Hin; [|destruct Hin].
        destruct Hin as [Hin|[]]; discriminate. }
      apply in_app_or in Hin. destruct Hin as [Hin|Hin].
      { destruct (Js.truthy (error s)); simpl in Hin; [|destruct Hin].
        destruct Hin as [Hin|[]]; discriminate. }
      apply in_app_or in Hin. destruct Hin as [Hin|Hin]; [exact Hin|].
      destruct (negb (has_data s) && negb (loading s) && _); simpl in Hin;
        [|destruct Hin]. destruct Hin as [Hin|[]]; discriminate. }
    apply in_or_app. right. apply in_or_app. right. apply in_or_app. left.
    now apply K5.
Qed.

Lemma positions_csv_needs_both_toggles_witness :
  exists widgets',
    @render sample_host
      (setIncludeClosed false (setData (Some week_result) scenario_dashboard))
    = Some widgets'
    /\ existsb is_positions_csv widgets' = false
    /\ includePositions
         (setIncludeClosed false (setData (Some week_result) scenario_dashboard))
       = true
    /\ In (PositionsTable [["ETH"; ""; " ETH"; ""; ""; "$"; "$"; ""; ""; "";
                            ""; ""]]) widgets'.
Proof.
  destruct (proj2 (proj2 (proj2 (@positions_csv_needs_both_toggles sample_host
                      (setData (Some week_result) scenario_dashboard)) _
                    eq_refl)) eq_refl)
    as (widgets' & Hr & H1 & _ & H3 & _ & _ & H6).
  exists widgets'. repeat split; try assumption.
  apply H6. simpl. do 5 right. left. reflexivity.
Defined.

(* ================================================================== *)
(** * The formatter [num] *)

Example num_examples :
  @num sample_host VUndefined 2 = Returned ""
  /\ @num sample_host VNull 2 = Returned ""
  /\ @num sample_host (VNum nan) 2 = Returned ""
  /\ @num sample_host (VNum infinity) 4 = Returned ""
  /\ @num sample_host (VNum neg_infinity) 0 = Returned ""
  /\ @num sample_host (VStr "n/a") 2 = Returned ""
  /\ @num sample_host (VObj [("a", VNum 1)]) 2 = Returned ""
  /\ @num sample_host (VNum 1234.5) 2 = Returned "1234.50".
Proof. repeat split; reflexivity. Qed.

(** An object with a property [toString] of its own has no numeric
    coercion: [+v] throws, and so does [num]. *)
Example num_throws :
  @num sample_host (VObj [("toString", VNum 1)]) 2
  = Thrown (MkError TypeError "Cannot convert object to primitive value").
Proof. reflexivity. Qed.

(** More decimals than the host accepts: a finite number throws, a
    missing one does not get that far. *)
Example num_too_many_decimals :
  @num sample_host (VNum 1.5) 101
  = Thrown (MkError RangeError "maximumFractionDigits value is out of range.")
  /\ @num sample_host VNull 101 = Returned "".
Proof. split; reflexivity. Qed.

(** C9.  For every input [v] that is null or undefined, or whose numeric
    coercion [+v] is a number that is not finite (NaN, Infinity,
    -Infinity), and for every number of decimals [d], [num(v, d)] returns
    the empty string, and so neither ["NaN"] nor ["0"]. *)
Theorem num_missing_is_empty {E : Engine} (v : JsValue) (d : nat) :
  nullish v = true
  \/ (exists x, ToNumber v = Returned x /\ is_finite x = false) ->
  num v d = Returned ""
  /\ num v d <> Returned "NaN" /\ num v d <> Returned "0".
Proof.
  intros H.
  assert (Hn : num v d = Returned "").
  { unfold num. destruct H as [-> | (x & -> & Hx)]; [reflexivity|].
    destruct (nullish v); [reflexivity|]. simpl. now rewrite Hx. }
  rewrite Hn. repeat split; discriminate.
Qed.

Lemma num_missing_is_empty_witness :
  @ToNumber sample_host (VNum nan) = Returned nan
  /\ is_finite nan = false
  /\ @num sample_host (VNum nan) 2 = Returned "".
Proof.
  split; [reflexivity|]. split; [reflexivity|].
  apply (@num_missing_is_empty sample_host (VNum nan) 2).
  right. exists nan. split; reflexivity.
Defined.

(* ================================================================== *)
(** * The remote data client *)

Example fetchJson_http_404 :
  @fetchJson sample_host (fun _ => Response 80 404 10 (MalformedBody "x"))
    "https://example.test/pnlClean" None
  = Thrown (MkError Error_ "HTTP 404").
Proof. reflexivity. Qed.

Example fetchJson_times_out :
  @fetchJson sample_host (fun _ => Response 15000 200 0 (JsonBody week_result))
    "https://example.test/pnlClean" None
  = Thrown (MkError AbortError "signal is aborted without reason").
Proof. reflexivity. Qed.

(** A delay beyond the range of the timer: [2^31] wraps to a negative
    number, the timer fires at once, and the response is not waited
    for. *)
Example fetchJson_timer_wraps :
  @fetchJson sample_host (fun _ => Response 80 503 10 (JsonBody week_result))
    "https://example.test/pnlClean" (Some 2147483648%N)
  = Thrown (MkError AbortError "signal is aborted without reason").
Proof. reflexivity. Qed.

(** Within the range of the timer the delay is the timeout. *)
Lemma timer_delay_in_range (t : N) : (t < 2 ^ 31)%N -> timer_delay t = t.
Proof.
  intros H. unfold timer_delay.
  rewrite N.mod_small by (eapply N.lt_trans; [exact H | reflexivity]).
  apply N.ltb_lt in H. now rewrite H.
Qed.

Lemma res_ok_iff (status : N) :
  res_ok status = true <-> (200 <= status <= 299)%N.
Proof. unfold res_ok. rewrite andb_true_iff, !N.leb_le. tauto. Qed.

(** A value is returned only for a response in time with a status in
    200-299 and a JSON body. *)
Lemma fetchJson_returns {E : Engine} (net : Network) (url : string)
    (t : option N) (v : JsValue) :
  fetchJson net url t = Returned v ->
  exists headers_ms status body_ms,
    net url = Response headers_ms status body_ms (JsonBody v)
    /\ res_ok status = true
    /\ (headers_ms + body_ms < timer_delay (timeout_of t))%N.
Proof.
  unfold fetchJson.
  destruct (net url) as [r| |a r|h st b body]; try discriminate.
  - destruct (a <? timer_delay (timeout_of t))%N; discriminate.
  - destruct (h <? timer_delay (timeout_of t))%N; simpl; [|discriminate].
    destruct (res_ok st) eqn:Hok; simpl; [|discriminate].
    destruct (h + b <? timer_delay (timeout_of t))%N eqn:Hb; simpl;
      [|discriminate].
    destruct body as [w|m]; [|discriminate].
    intros [= ->]. exists h, st, b. apply N.ltb_lt in Hb. now repeat split.
Qed.

(** A response whose head is in time and whose status is outside
    200-299. *)
Lemma fetchJson_http_failure {E : Engine} (net : Network) (url : string)
    (t : option N) (headers_ms status body_ms : N) (body : Body) :
  net url = Response headers_ms status body_ms body ->
  (headers_ms < timer_delay (timeout_of t))%N ->
  ~ (200 <= status <= 299)%N ->
  fetchJson net url t
  = Thrown (MkError Error_ ("HTTP " ++ Number.digits status)).
Proof.
  intros Hnet Hh Hs. apply N.ltb_lt in Hh.
  unfold fetchJson. rewrite Hnet, Hh. simpl.
  destruct (res_ok status) eqn:Hok; [|reflexivity].
  destruct Hs. now apply res_ok_iff.
Qed.

(** C5.  Whenever [fetchJson] returns a value, the response had a status
    in 200-299 and the value is what its body denotes as JSON.  When the
    head of a response comes before the timer fires: a status outside
    200-299 makes [fetchJson] fail with an Error whose message is exactly
    [HTTP <status>] in decimal, whatever the body; a status inside that
    range, with the body complete before the timer fires, makes it return
    the value the body denotes as JSON, or fail with the SyntaxError of
    the parse when the body is not JSON. *)
Theorem fetchJson_by_status {E : Engine} (net : Network) (url : string)
    (t : option N) :
  (forall v, fetchJson net url t = Returned v ->
     exists headers_ms status body_ms,
       net url = Response headers_ms status body_ms (JsonBody v)
       /\ (200 <= status <= 299)%N)
  /\ (forall headers_ms status body_ms body,
        net url = Response headers_ms status body_ms body ->
        (headers_ms < timer_delay (timeout_of t))%N ->
        (~ (200 <= status <= 299)%N ->
         fetchJson net url t
         = Thrown (MkError Error_ ("HTTP " ++ Number.digits status)))
        /\ ((200 <= status <= 299)%N ->
            (headers_ms + body_ms < timer_delay (timeout_of t))%N ->
            fetchJson net url t
            = match body with
              | JsonBody v => Returned v
              | MalformedBody m => Thrown (MkError SyntaxError m)
              end)).
Proof.
  split.
  - intros v H. apply fetchJson_returns in H.
    destruct H as (h & st & b & Hr & Hs & _). exists h, st, b.
    split; [exact Hr | now apply res_ok_iff].
  - intros h st b body Hnet Hh. apply N.ltb_lt in Hh. split.
    + intros Hs. apply N.ltb_lt in Hh.
      exact (fetchJson_http_failure net url t h st b body Hnet Hh Hs).
    + intros Hs Hb. apply N.ltb_lt in Hb. apply res_ok_iff in Hs.
      unfold fetchJson. now rewrite Hnet, Hh, Hs, Hb.
Qed.

Lemma fetchJson_by_status_witness :
  @fetchJson sample_host (fun _ => Response 80 503 10 (JsonBody week_result))
    "https://example.test/pnlClean?account=0xABCD" None
  = Thrown (MkError Error_ "HTTP 503").
Proof.
  refine (proj1 (proj2 (@fetchJson_by_status sample_host
                          (fun _ => Response 80 503 10 (JsonBody week_result))
                          "https://example.test/pnlClean?account=0xABCD" None)
                   80%N 503%N 10%N (JsonBody week_result) eq_refl _) _).
  - reflexivity.
  - intros [_ H]. apply H. reflexivity.
Defined.

(* ================================================================== *)
(** * The fetch operation [run] *)

Module RunFacts.
Section WithEngine.
Context {E : Engine}.

Lemma error_text_not_empty (e : JsError) : error_text e <> "".
Proof.
  unfold error_text, Error_toString.
  destruct (Js.truthy (message e)) eqn:Hm.
  - now apply JsFacts.truthy_iff.
  - simpl. destruct (kind e); discriminate.
Qed.

Lemma loading_run_settle (c : Completion JsValue) (s : Dashboard) :
  loading (run_settle c s) = false.
Proof. reflexivity. Qed.

(** What a thrown error leaves in the state. *)
Lemma run_settle_thrown (c : Completion JsValue) (s : Dashboard) (e : JsError) :
  run_try c = Thrown e ->
  run_settle c s = setLoading false (setError (error_text e) s).
Proof. intros H. unfold run_settle. now rewrite H. Qed.

Lemma run_settle_returned (c : Completion JsValue) (s : Dashboard) (j : JsValue) :
  run_try c = Returned j ->
  run_settle c s = setLoading false (setData (Some j) s).
Proof. intros H. unfold run_settle. now rewrite H. Qed.

(** The [try] block on a response whose [ok] field is falsy. *)
Lemma run_try_not_ok (fields : list (string * JsValue)) :
  ToBoolean (lookup fields "ok") = false ->
  run_try (Returned (VObj fields))
  = (text <- (if ToBoolean (lookup fields "error")
              then ToString (lookup fields "error")
              else Returned "ok=false") ;;
     Thrown (MkError Error_ text)).
Proof. intros H. unfold run_try. simpl. now rewrite H. Qed.

(** The [try] block throws on every value whose [ok] is falsy or cannot
    be read. *)
Lemma run_try_falsy (json : JsValue) :
  ToBoolean (get_opt json "ok") = false ->
  exists e, run_try (Returned json) = Thrown e.
Proof.
  intros H. destruct json as [| |b|x|t|items|fields];
    try (eexists; reflexivity).
  simpl in H. rewrite (run_try_not_ok _ H).
  destruct (if ToBoolean (lookup fields "error")
            then ToString (lookup fields "error")
            else Returned "ok=false") as [text|e]; eexists; reflexivity.
Qed.

(** The [try] block returns a value whose [ok] is truthy. *)
Lemma run_try_truthy (json : JsValue) :
  ToBoolean (get_opt json "ok") = true ->
  run_try (Returned json) = Returned json.
Proof.
  intros H. destruct json as [| |b|x|t|items|fields]; try discriminate H.
  simpl in H. unfold run_try. simpl. now rewrite H.
Qed.

Lemma tables_need_data (s : Dashboard) :
  data s = None ->
  shows is_positions_table s = false /\ shows is_closed_table s = false.
Proof.
  intros H. unfold shows. rewrite (RenderFacts.render_without_data _ H).
  split; destruct (includeClosed s), (includePositions s), (loading s);
    simpl; destruct (Js.truthy (error s)); reflexivity.
Qed.

Lemma banner_shown (s : Dashboard) :
  data s = None ->
  error s <> "" -> shows (is_error_banner (error s)) s = true.
Proof.
  intros H He. unfold shows. rewrite (RenderFacts.render_without_data _ H).
  apply JsFacts.truthy_iff in He. rewrite He.
  destruct (includeClosed s), (includePositions s); simpl;
    rewrite String.eqb_refl; simpl; rewrite ?orb_true_r; reflexivity.
Qed.

(** What a request that ended in an error leaves: no data, and the text
    of the error, which is not empty, in the banner. *)
Lemma run_settle_failure (c : Completion JsValue) (s : Dashboard)
    (e : JsError) :
  run_try c = Thrown e ->
  data (run_settle c (run_begin s)) = None
  /\ error (run_settle c (run_begin s)) = error_text e
  /\ error (run_settle c (run_begin s)) <> ""
  /\ shows (is_error_banner (error (run_settle c (run_begin s))))
        (run_settle c (run_begin s)) = true.
Proof.
  intros H. rewrite (run_settle_thrown _ _ _ H).
  assert (He : error (setLoading false (setError (error_text e) (run_begin s)))
               = error_text e) by reflexivity.
  split; [reflexivity|]. split; [exact He|]. split.
  - rewrite He. apply error_text_not_empty.
  - apply banner_shown; [reflexivity|]. rewrite He.
    apply error_text_not_empty.
Qed.

End WithEngine.
End RunFacts.

Example run_bad_account :
  let s := @run sample_host (answers bad_account) "0xABCD" 1700000000123
             scenario_dashboard in
  error s = "bad account" /\ data s = None /\ loading s = false
  /\ @render sample_host s
     = Some [FetchButton false; ClosedCsvButton; PositionsCsvButton;
             ErrorBanner "bad account"].
Proof. repeat split; reflexivity. Qed.

Example run_success :
  let s := @run sample_host (answers week_result) "0xABCD" 1700000000123
             scenario_dashboard in
  error s = "" /\ data s = Some week_result /\ loading s = false.
Proof. repeat split; reflexivity. Qed.

Example run_timeout :
  let s := @run sample_host
             (fun _ => Response 15000 200 0 (JsonBody week_result))
             "0xABCD" 1700000000123 scenario_dashboard in
  error s = "signal is aborted without reason" /\ data s = None
  /\ loading s = false.
Proof. repeat split; reflexivity. Qed.

Example run_null_body :
  let s := @run sample_host (answers VNull) "0xABCD" 1700000000123
             scenario_dashboard in
  error s = "Cannot read properties of null (reading 'ok')" /\ data s = None.
Proof. repeat split; reflexivity. Qed.

(** C2, as stated, fails: for the response [{ok: false, error: ""}] the
    [error] field is present, and the displayed text is not that field
    but the fallback ["ok=false"]. *)
Lemma run_empty_error_field :
  get_opt empty_error "ok" = VBool false
  /\ get_opt empty_error "error" = VStr ""
  /\ error (@run sample_host (answers empty_error) "0xABCD" 1700000000123
              scenario_dashboard)
     = "ok=false".
Proof. repeat split; reflexivity. Qed.

(** C2, amended.  When the request of [run()] returns a JSON object whose
    [ok] field is [false] (so the client call itself succeeded: this
    failure is raised by [run()], not by the network or the HTTP
    status), the displayed error text is exactly the [error] field when
    that field is a non-empty string, and the fallback ["ok=false"] when
    it is absent, null or the empty string; the banner with that text is
    rendered, the loading flag is cleared, and the result data stays
    cleared, so neither the positions nor the closed-trades table is
    rendered. *)
Theorem run_application_failure {E : Engine} (net : Network) (addr : string)
    (now : N) (s : Dashboard) (fields : list (string * JsValue)) :
  fetchJson net (run_url addr s now) (Some 15000%N) = Returned (VObj fields) ->
  lookup fields "ok" = VBool false ->
  (forall e, lookup fields "error" = VStr e -> e <> "" ->
             error (run net addr now s) = e)
  /\ (lookup fields "error" = VUndefined \/ lookup fields "error" = VNull
      \/ lookup fields "error" = VStr "" ->
      error (run net addr now s) = "ok=false")
  /\ shows (is_error_banner (error (run net addr now s))) (run net addr now s)
     = true
  /\ loading (run net addr now s) = false
  /\ data (run net addr now s) = None
  /\ shows is_positions_table (run net addr now s) = false
  /\ shows is_closed_table (run net addr now s) = false.
Proof.
  intros Hc Hok. unfold run. rewrite Hc.
  assert (Hf : ToBoolean (lookup fields "ok") = false) by now rewrite Hok.
  pose proof (RunFacts.run_try_not_ok _ Hf) as Ht.
  destruct (RunFacts.run_try_falsy (VObj fields) Hf) as [err Herr].
  destruct (RunFacts.run_settle_failure _ s _ Herr) as (Hd & He & Hne & Hb).
  split; [|split; [|split; [|split; [|split]]]].
  - intros e Hfe Hne'. rewrite He. rewrite Ht, Hfe in Herr.
    apply JsFacts.truthy_iff in Hne'. simpl in Herr. rewrite Hne' in Herr.
    injection Herr as <-. unfold error_text. cbn [message]. now rewrite Hne'.
  - intros Hfe. rewrite He. rewrite Ht in Herr.
    destruct Hfe as [Hfe | [Hfe | Hfe]]; rewrite Hfe in Herr;
      injection Herr as <-; reflexivity.
  - exact Hb.
  - reflexivity.
  - exact Hd.
  - exact (RunFacts.tables_need_data _ Hd).
Qed.

Lemma run_application_failure_witness :
  error (@run sample_host (answers bad_account) "0xABCD" 1700000000123
           scenario_dashboard)
  = "bad account".
Proof.
  refine (proj1 (@run_application_failure sample_host (answers bad_account)
                   "0xABCD" 1700000000123 scenario_dashboard
                   [("ok", VBool false); ("error", VStr "bad account")]
                   eq_refl eq_refl) "bad account" eq_refl _).
  discriminate.
Defined.

(** A failure payload whose [error] field has no string. *)
Example run_error_without_text :
  error (@run sample_host
           (answers (VObj [("ok", VBool false);
                           ("error", VObj [("toString", VNull)])]))
           "0xABCD" 1700000000123 scenario_dashboard)
  = "Cannot convert object to primitive value".
Proof. reflexivity. Qed.

(** C6.  However the request of [run()] ends, the loading flag is cleared
    when the operation completes.  Every failure leaves the result data
    cleared and stores an error message that is not empty and is shown in
    the banner: an error of the client itself (an HTTP status outside
    200-299, stored as [HTTP <status>]; the abort of the timer; a failure
    of the network; a body that is not JSON), stored by its message, and
    a returned value whose [ok] is falsy or cannot be read.  A returned
    value whose [ok] is truthy becomes the data, with no error stored.
    There is no other outcome. *)
Theorem run_always_clears_loading {E : Engine} (net : Network) (addr : string)
    (now : N) (s : Dashboard) :
  loading (run net addr now s) = false
  /\ (forall e, fetchJson net (run_url addr s now) (Some 15000%N) = Thrown e ->
        data (run net addr now s) = None
        /\ error (run net addr now s) = error_text e
        /\ error (run net addr now s) <> ""
        /\ shows (is_error_banner (error (run net addr now s)))
             (run net addr now s) = true)
  /\ (forall headers_ms status body_ms body,
        net (run_url addr s now) = Response headers_ms status body_ms body ->
        (headers_ms < 15000)%N -> ~ (200 <= status <= 299)%N ->
        data (run net addr now s) = None
        /\ error (run net addr now s) = "HTTP " ++ Number.digits status)
  /\ (net (run_url addr s now) = Silence ->
      data (run net addr now s) = None
      /\ error (run net addr now s) = error_text aborted)
  /\ (forall json,
        fetchJson net (run_url addr s now) (Some 15000%N) = Returned json ->
        ToBoolean (get_opt json "ok") = false ->
        data (run net addr now s) = None
        /\ error (run net addr now s) <> ""
        /\ shows (is_error_banner (error (run net addr now s)))
             (run net addr now s) = true)
  /\ (forall json,
        fetchJson net (run_url addr s now) (Some 15000%N) = Returned json ->
        ToBoolean (get_opt json "ok") = true ->
        data (run net addr now s) = Some json
        /\ error (run net addr now s) = "")
  /\ (forall c cur, loading (run_settle c cur) = false).
Proof.
  assert (Hthrown : forall e,
            fetchJson net (run_url addr s now) (Some 15000%N) = Thrown e ->
            data (run net addr now s) = None
            /\ error (run net addr now s) = error_text e
            /\ error (run net addr now s) <> ""
            /\ shows (is_error_banner (error (run net addr now s)))
                 (run net addr now s) = true).
  { intros e Hc. unfold run. rewrite Hc.
    now apply RunFacts.run_settle_failure. }
  split; [reflexivity|]. split; [exact Hthrown|].
  split; [|split; [|split; [|split]]].
  - intros h st b body Hnet Hh Hs.
    assert (Hc : fetchJson net (run_url addr s now) (Some 15000%N)
                 = Thrown (MkError Error_ ("HTTP " ++ Number.digits st))).
    { exact (fetchJson_http_failure net (run_url addr s now)
               (Some 15000%N) h st b body Hnet Hh Hs). }
    destruct (Hthrown _ Hc) as (Hd & He & _). split; [exact Hd|].
    rewrite He. reflexivity.
  - intros Hnet.
    assert (Hc : fetchJson net (run_url addr s now) (Some 15000%N)
                 = Thrown aborted).
    { unfold fetchJson. now rewrite Hnet. }
    destruct (Hthrown _ Hc) as (Hd & He & _). now split.
  - intros json Hc Hok. unfold run. rewrite Hc.
    destruct (RunFacts.run_try_falsy json Hok) as [e He].
    destruct (RunFacts.run_settle_failure _ s _ He) as (Hd & _ & Hne & Hb).
    now repeat split.
  - intros json Hc Hok. unfold run. rewrite Hc.
    rewrite (RunFacts.run_settle_returned _ _ _
               (RunFacts.run_try_truthy json Hok)).
    split; reflexivity.
  - reflexivity.
Qed.

Lemma run_always_clears_loading_witness :
  data (@run sample_host (answers bad_account) "0xABCD" 1700000000123
          scenario_dashboard) = None
  /\ error (@run sample_host (answers bad_account) "0xABCD" 1700000000123
              scenario_dashboard) <> ""
  /\ @shows sample_host
        (is_error_banner
           (error (@run sample_host (answers bad_account) "0xABCD"
                     1700000000123 scenario_dashboard)))
        (@run sample_host (answers bad_account) "0xABCD" 1700000000123
           scenario_dashboard) = true.
Proof.
  exact (proj1 (proj2 (proj2 (proj2 (proj2
           (@run_always_clears_loading sample_host (answers bad_account)
              "0xABCD" 1700000000123 scenario_dashboard)))))
           bad_account eq_refl eq_refl).
Defined.

(* ================================================================== *)
(** * A response that arrives after a navigation *)

Example start_on_account :
  start "#/acct/0xA" []
  = {| storage := [("ps_base", DEFAULT_BASE)]; mounted := 1;
       view := DashboardView "0xA" [] (Dashboard_init [] []) |}.
Proof. reflexivity. Qed.

Example stale_response_after_home :
  let pending := click_fetch (start "#/acct/0xA" []) in
  let home := hashchange "#/" pending in
  view home = LandingView (Landing_init (storage pending))
  /\ @settle sample_host (mounted pending) (Returned week_result) home = home.
Proof. split; reflexivity. Qed.

Module LifecycleFacts.

Lemma mounted_hashchange (h : string) (a : App) :
  mounted a <= mounted (hashchange h a).
Proof.
  unfold hashchange.
  destruct (parseRoute (current_hash h)), (view a); simpl; lia.
Qed.

Section WithEngine.
Context {E : Engine}.

(** Page instances are only ever added. *)
Lemma mounted_step (a : App) (e : AppEvent) :
  mounted a <= mounted (app_step a e).
Proof.
  destruct e as [h|v|v|href| |issuer c]; simpl.
  - apply mounted_hashchange.
  - reflexivity.
  - unfold edit_address. now destruct (view a).
  - unfold submit. destruct (view a) as [l|]; [|reflexivity].
    destruct (go l); [apply mounted_hashchange | reflexivity].
  - destruct (view a) as [|addr qs d]; [reflexivity|].
    destruct (loading d); [reflexivity|].
    unfold click_fetch. now destruct (view a).
  - unfold settle. destruct (view a); [reflexivity|].
    now destruct (issuer =? mounted a)%nat.
Qed.

Lemma mounted_after (events : list AppEvent) (a : App) :
  mounted a <= mounted (fold_left app_step events a).
Proof.
  revert a. induction events as [|e events IH]; intros a; simpl;
    [reflexivity|].
  etransitivity; [apply mounted_step | apply IH].
Qed.

(** An outcome addressed to an earlier instance is dropped. *)
Lemma settle_earlier (issuer : nat) (c : Completion JsValue) (a : App) :
  issuer < mounted a -> settle issuer c a = a.
Proof.
  intros H. unfold settle. destruct (view a); [reflexivity|].
  destruct (Nat.eqb_spec issuer (mounted a)); [lia | reflexivity].
Qed.

End WithEngine.
End LifecycleFacts.

Example stale_response_after_return :
  let pending := click_fetch (start "#/acct/0xA" []) in
  let back := hashchange "#/acct/0xA" (hashchange "#/" pending) in
  @settle sample_host (mounted pending) (Returned week_result) back = back
  /\ view back = DashboardView "0xA" [] (Dashboard_init [] (storage pending)).
Proof. split; reflexivity. Qed.

(** C7.  When the route changes away from the account view to the home
    route while a request of [run()] is pending, the Dashboard that
    started the request is unmounted and the Landing page is shown; the
    response that arrives afterwards changes nothing in the application,
    neither right after the navigation nor after any further events, be
    they edits, further navigations (also back to an account view, which
    mounts a new Dashboard) or other requests.  The guard is the
    unmounting: [run()] itself applies its result unconditionally. *)
Theorem stale_response_changes_nothing {E : Engine} (a : App) (h : string)
    (c : Completion JsValue) (events : list AppEvent) (addr : string)
    (qs q : URLSearchParams.t) (d : Dashboard) :
  view a = DashboardView addr qs d ->
  parseRoute (current_hash h) = Home q ->
  (exists l, view (hashchange h a) = LandingView l)
  /\ settle (mounted a) c (hashchange h a) = hashchange h a
  /\ settle (mounted a) c (fold_left app_step events (hashchange h a))
     = fold_left app_step events (hashchange h a).
Proof.
  intros Hv Hr.
  assert (Hm : mounted (hashchange h a) = S (mounted a)).
  { unfold hashchange. now rewrite Hr, Hv. }
  split; [|split].
  - unfold hashchange. rewrite Hr, Hv. eexists. reflexivity.
  - apply LifecycleFacts.settle_earlier. rewrite Hm. lia.
  - apply LifecycleFacts.settle_earlier.
    pose proof (LifecycleFacts.mounted_after events (hashchange h a)). lia.
Qed.

Lemma stale_response_changes_nothing_witness :
  @settle sample_host 1 (Returned week_result)
    (fold_left (@app_step sample_host)
       [AddressEdited "0xB"; HashChanged "#/acct/0xB"; FetchClicked]
       (hashchange "#/" (click_fetch (start "#/acct/0xA" []))))
  = fold_left (@app_step sample_host)
      [AddressEdited "0xB"; HashChanged "#/acct/0xB"; FetchClicked]
      (hashchange "#/" (click_fetch (start "#/acct/0xA" []))).
Proof.
  exact (proj2 (proj2 (@stale_response_changes_nothing sample_host
                         (click_fetch (start "#/acct/0xA" []))
                         "#/" (Returned week_result)
                         [AddressEdited "0xB"; HashChanged "#/acct/0xB";
                          FetchClicked]
                         "0xA" [] [] (run_begin (Dashboard_init [] []))
                         eq_refl eq_refl))).
Defined.

(** X17.  A change of the route from one account address to another
    keeps the Dashboard mounted with the state it has, and the outcome of
    a request that was pending is applied to that state, under the new
    address. *)
Theorem late_response_after_address_change {E : Engine} (a : App)
    (h : string) (c : Completion JsValue) (addr b : string)
    (qs q : URLSearchParams.t) (d : Dashboard) :
  view a = DashboardView addr qs d ->
  parseRoute (current_hash h) = Acct b q ->
  view (hashchange h a) = DashboardView b q d
  /\ view (settle (mounted a) c (hashchange h a))
     = DashboardView b q (run_settle c d).
Proof.
  intros Hv Hr. unfold hashchange. rewrite Hr, Hv.
  split; [reflexivity|]. unfold settle. simpl.
  now rewrite Nat.eqb_refl.
Qed.

Lemma late_response_after_address_change_witness :
  exists d,
    view (@settle sample_host 1 (Returned week_result)
            (hashchange "#/acct/0xB" (click_fetch (start "#/acct/0xA" []))))
    = DashboardView "0xB" [] d
    /\ data d = Some week_result
    /\ loading d = false.
Proof.
  eexists. split; [|split].
  - exact (proj2 (@late_response_after_address_change sample_host
                    (click_fetch (start "#/acct/0xA" []))
                    "#/acct/0xB" (Returned week_result) "0xA" "0xB" [] []
                    (run_begin (Dashboard_init [] [])) eq_refl eq_refl)).
  - reflexivity.
  - reflexivity.
Defined.

(* ================================================================== *)
(** * Binary64 arithmetic behind [pct] *)

Module FloatFacts.
Local Open Scope Z_scope.

(** A number equals itself, unless it is NaN. *)
Lemma SFeqb_same (x : spec_float) :
  SFeqb x x = match x with S754_nan => false | _ => true end.
Proof.
  destruct x as [s|s| |s m e]; unfold SFeqb; simpl; try reflexivity.
  - destruct s; reflexivity.
  - destruct s; rewrite Z.compare_refl, Pos.compare_cont_refl; reflexivity.
Qed.

(** [isFinite] by the class of the number. *)
Lemma is_finite_SF (x : float) :
  is_finite x = match Prim2SF x with
                | S754_zero _ | S754_finite _ _ _ => true
                | _ => false
                end.
Proof.
  unfold is_finite, is_nan, is_infinity.
  rewrite !eqb_spec, abs_spec, SFeqb_same.
  destruct (Prim2SF x) as [s|s| |s m e]; reflexivity.
Qed.

Lemma digits2_size (p : positive) : digits2_pos p = Pos.size p.
Proof. induction p as [p IH|p IH|]; simpl; now rewrite ?IH. Qed.

Lemma pos_lt_pow2_digits (p : positive) :
  Z.pos p < 2 ^ Z.pos (digits2_pos p).
Proof.
  rewrite digits2_size. pose proof (Pos.size_gt p) as H.
  apply Pos2Z.pos_lt_pos in H. now rewrite Pos2Z.inj_pow in H.
Qed.

(** A number below [2^k] has at most [k] binary digits. *)
Lemma Zdigits2_le (m k : Z) : 0 <= m < 2 ^ k -> 0 <= k -> Zdigits2 m <= k.
Proof.
  intros [H0 Hm] Hk. destruct m as [|p|p]; simpl; try lia.
  rewrite digits2_size.
  pose proof (Pos.size_le p) as H.
  apply Pos2Z.pos_le_pos in H. rewrite Pos2Z.inj_pow in H.
  change (Z.pos p~0) with (2 * Z.pos p) in H.
  destruct (Z_le_gt_dec (Z.pos (Pos.size p)) k) as [Hle|Hgt]; [exact Hle|].
  exfalso.
  assert (Hp : 2 ^ (k + 1) <= 2 ^ Z.pos (Pos.size p))
    by (apply Z.pow_le_mono_r; lia).
  rewrite Z.pow_add_r in Hp by lia. lia.
Qed.

Lemma iter_pos_inv {A : Type} (f : A -> A) (P : A -> Prop) :
  (forall x, P x -> P (f x)) -> forall p x, P x -> P (iter_pos f p x).
Proof.
  intros Hf. induction p as [p IH|p IH|]; intros x Hx; simpl; auto.
Qed.

(** Shifting right never enlarges a mantissa. *)
Lemma shr_1_bounds (M : Z) (mrs : shr_record) :
  0 <= shr_m mrs <= M -> 0 <= shr_m (shr_1 mrs) <= M.
Proof.
  destruct mrs as [m r s]. simpl. intros H.
  destruct m as [|[p|p|]|p]; simpl; lia.
Qed.

Lemma shr_bounds (mrs : shr_record) (e n : Z) :
  0 <= shr_m mrs ->
  0 <= shr_m (fst (shr mrs e n)) <= shr_m mrs
  /\ snd (shr mrs e n) <= Z.max e (e + n).
Proof.
  intros H. destruct n as [|p|p]; simpl; try lia.
  split; [|lia].
  apply (iter_pos_inv shr_1 (fun x => 0 <= shr_m x <= shr_m mrs)).
  - intros x. apply shr_1_bounds.
  - lia.
Qed.

Lemma shr_fexp_bounds (m e : Z) (l : location) :
  0 <= m ->
  0 <= shr_m (fst (shr_fexp prec emax m e l)) <= m
  /\ snd (shr_fexp prec emax m e l)
     <= Z.max e (fexp prec emax (Zdigits2 m + e)).
Proof.
  intros H. unfold shr_fexp.
  assert (Hm : shr_m (shr_record_of_loc m l) = m)
    by (destruct l as [|[]]; reflexivity).
  pose proof (shr_bounds (shr_record_of_loc m l) e
                (fexp prec emax (Zdigits2 m + e) - e)) as Hb.
  rewrite Hm in Hb. specialize (Hb H). split; [tauto|].
  destruct Hb as [_ Hb]. lia.
Qed.

Lemma round_nearest_even_bounds (m : Z) (l : location) :
  m <= round_nearest_even m l <= m + 1.
Proof.
  destruct l as [|[]]; simpl; try lia. destruct (Z.even m); lia.
Qed.

Lemma fexp_le (x k : Z) :
  x <= k + 53 -> -1074 <= k -> fexp prec emax x <= k.
Proof. unfold fexp, SpecFloat.emin, prec, emax. lia. Qed.

(** A product of two mantissas below [2^53], at an exponent of at most
    [-98], rounds to zero or to a finite number whose exponent is at most
    9: nowhere near overflow. *)
Lemma binary_round_aux_small (s : bool) (mx ex : Z) :
  0 <= mx < 2 ^ 106 -> ex <= -98 ->
  match binary_round_aux prec emax s mx ex loc_Exact with
  | S754_zero _ => True
  | S754_finite _ _ e => e <= 9
  | _ => False
  end.
Proof.
  intros Hm He. unfold binary_round_aux.
  pose proof (shr_fexp_bounds mx ex loc_Exact (proj1 Hm)) as H1.
  destruct (shr_fexp prec emax mx ex loc_Exact) as [mrs1 e1]. simpl in H1.
  destruct H1 as [Hm1 He1].
  assert (Hd : Zdigits2 mx <= 106) by (apply Zdigits2_le; lia).
  assert (He1' : e1 <= -45).
  { pose proof (fexp_le (Zdigits2 mx + ex) (-45)). lia. }
  pose proof (round_nearest_even_bounds (shr_m mrs1)
                (loc_of_shr_record mrs1)) as Hr.
  set (m2 := round_nearest_even (shr_m mrs1) (loc_of_shr_record mrs1)) in *.
  assert (Hm2 : 0 <= m2 < 2 ^ 107).
  { change (2 ^ 107) with (2 * 2 ^ 106). lia. }
  pose proof (shr_fexp_bounds m2 e1 loc_Exact (proj1 Hm2)) as H2.
  destruct (shr_fexp prec emax m2 e1 loc_Exact) as [mrs2 e2]. simpl in H2.
  destruct H2 as [Hm3 He2].
  assert (Hd2 : Zdigits2 m2 <= 107) by (apply Zdigits2_le; lia).
  assert (He2' : e2 <= 9).
  { pose proof (fexp_le (Zdigits2 m2 + e1) 9). lia. }
  destruct (shr_m mrs2) as [|p|p]; [exact I | | lia].
  replace (e2 <=? emax - prec) with true; [exact He2'|].
  symmetry. apply Z.leb_le. unfold prec, emax. lia.
Qed.

Local Open Scope float_scope.

(** The mantissa of a binary64 number has at most 53 bits. *)
Lemma mantissa_bound (x : float) (s : bool) (m : positive) (e : Z) :
  Prim2SF x = S754_finite s m e -> (Z.pos m < 2 ^ 53)%Z.
Proof.
  intros H. pose proof (Prim2SF_valid x) as Hv. rewrite H in Hv.
  simpl in Hv. unfold bounded, canonical_mantissa in Hv.
  apply andb_true_iff in Hv. destruct Hv as [Hc _].
  apply Z.eqb_eq in Hc. unfold fexp, SpecFloat.emin, prec, emax in Hc.
  pose proof (pos_lt_pow2_digits m) as Hd.
  assert (Hle : (Z.pos (digits2_pos m) <= 53)%Z) by lia.
  assert (Hp : (2 ^ Z.pos (digits2_pos m) <= 2 ^ 53)%Z)
    by (apply Z.pow_le_mono_r; lia).
  lia.
Qed.

Lemma Prim2SF_100 : Prim2SF 100 = S754_finite false 7036874417766400 (-46).
Proof. reflexivity. Qed.

Lemma Prim2SF_1 : Prim2SF 1 = S754_finite false 4503599627370496 (-52).
Proof. reflexivity. Qed.

Lemma Prim2SF_1e21 : Prim2SF 1e21 = S754_finite false 7629394531250000 17.
Proof. reflexivity. Qed.

(** The exponent of a number of magnitude at most one. *)
Lemma le_one_exponent (x : float) (s : bool) (m : positive) (e : Z) :
  Prim2SF x = S754_finite s m e -> (abs x <=? 1) = true -> (e <= -52)%Z.
Proof.
  intros H. rewrite leb_spec, abs_spec, H, Prim2SF_1.
  cbv beta iota delta [SFleb SFcompare SFabs].
  destruct (Z.compare_spec e (-52)); [lia | lia | discriminate].
Qed.

(** Scaling a number of magnitude at most one by 100 stays far from
    overflow. *)
Lemma mul100_small (x : float) :
  is_finite x = true -> (abs x <=? 1) = true ->
  match Prim2SF (x * 100) with
  | S754_zero _ => True
  | S754_finite _ _ e => (e <= 9)%Z
  | _ => False
  end.
Proof.
  intros Hf Hle. rewrite is_finite_SF in Hf.
  rewrite mul_spec, Prim2SF_100.
  destruct (Prim2SF x) as [s|s| |s m e] eqn:Hx; try discriminate.
  - exact I.
  - unfold SF64mul, SFmul.
    pose proof (mantissa_bound _ _ _ _ Hx) as Hm.
    pose proof (le_one_exponent _ _ _ _ Hx Hle) as He.
    apply binary_round_aux_small; [|lia].
    rewrite Pos2Z.inj_mul.
    change (2 ^ 106)%Z with (2 ^ 53 * 2 ^ 53)%Z.
    split; [lia|]. apply Z.mul_lt_mono_nonneg; lia.
Qed.

Lemma mul100_finite (x : float) :
  is_finite x = true -> (abs x <=? 1) = true -> is_finite (x * 100) = true.
Proof.
  intros Hf Hle. pose proof (mul100_small x Hf Hle) as H.
  rewrite is_finite_SF. destruct (Prim2SF (x * 100)); tauto.
Qed.

Lemma mul100_below_1e21 (x : float) :
  is_finite x = true -> (abs x <=? 1) = true ->
  (1e21 <=? abs (x * 100)) = false.
Proof.
  intros Hf Hle. pose proof (mul100_small x Hf Hle) as H.
  rewrite leb_spec, abs_spec, Prim2SF_1e21.
  destruct (Prim2SF (x * 100)) as [s|s| |s m e]; try tauto; try reflexivity.
  cbv beta iota delta [SFleb SFcompare SFabs].
  destruct (Z.compare_spec 17 e); [lia | lia | reflexivity].
Qed.

(** Above one is not at most one. *)
Lemma gt_one_not_le (y : float) :
  (1 <? abs y) = true -> (abs y <=? 1) = false.
Proof.
  rewrite ltb_spec, leb_spec, abs_spec, Prim2SF_1.
  destruct (Prim2SF y) as [s|s| |s m e];
    cbv beta iota delta [SFltb SFleb SFcompare SFabs];
    try discriminate; try reflexivity.
  rewrite (Z.compare_antisym (-52) e).
  assert (Hm : Pos.compare_cont Eq m 4503599627370496
               = CompOpp (Pos.compare_cont Eq 4503599627370496 m))
    by (now rewrite Pos.compare_cont_antisym).
  rewrite Hm.
  destruct (-52 ?= e)%Z; cbv beta iota delta [CompOpp];
    try discriminate; try reflexivity.
  destruct (Pos.compare_cont Eq 4503599627370496 m);
    try discriminate; reflexivity.
Qed.

(** Above one is neither zero nor NaN. *)
Lemma gt_one_not_zero (y : float) :
  (1 <? abs y) = true ->
  match Prim2SF y with
  | S754_zero _ | S754_nan => False
  | _ => True
  end.
Proof.
  rewrite ltb_spec, abs_spec, Prim2SF_1.
  destruct (Prim2SF y) as [s|s| |s m e];
    cbv beta iota delta [SFltb SFcompare SFabs];
    try discriminate; intros _; exact I.
Qed.

End FloatFacts.

(* ================================================================== *)
(** * Fixed notation *)

Module NumberFacts.
Import Js JsFacts.

Lemma length_append (a b : string) :
  String.length (a ++ b) = String.length a + String.length b.
Proof. induction a as [|c a IH]; simpl; [reflexivity | now rewrite IH]. Qed.

Lemma length_copies (n : nat) (c : ascii) : String.length (copies n c) = n.
Proof. induction n as [|n IH]; simpl; [reflexivity | now rewrite IH]. Qed.

Lemma every_copies (p : ascii -> bool) (n : nat) (c : ascii) :
  p c = true -> every p (copies n c) = true.
Proof. intros H. induction n as [|n IH]; simpl; [reflexivity | now rewrite H, IH]. Qed.

Lemma length_substring (s : string) (a b : nat) :
  a + b <= String.length s -> String.length (substring a b s) = b.
Proof.
  revert a b. induction s as [|c s IH]; intros a b H; simpl in H.
  - assert (a = 0) by lia. assert (b = 0) by lia. now subst.
  - destruct a as [|a]; simpl.
    + destruct b as [|b]; simpl; [reflexivity|]. rewrite IH; lia.
    + apply IH. lia.
Qed.

Lemma every_substring (p : ascii -> bool) (s : string) (a b : nat) :
  every p s = true -> every p (substring a b s) = true.
Proof.
  revert a b. induction s as [|c s IH]; intros a b H.
  - destruct a, b; reflexivity.
  - simpl in H. apply andb_true_iff in H. destruct H as [Hc Hs].
    destruct a as [|a]; simpl.
    + destruct b as [|b]; simpl; [reflexivity|]. now rewrite Hc, IH.
    + now apply IH.
Qed.

Lemma every_digit_uint (d : Decimal.uint) :
  every is_digit (NilEmpty.string_of_uint d) = true.
Proof. induction d; simpl; auto. Qed.

Lemma digits_are_digits (n : N) : every is_digit (Number.digits n) = true.
Proof.
  unfold Number.digits, NilZero.string_of_uint.
  destruct (N.to_uint n); try reflexivity; apply every_digit_uint.
Qed.

Lemma digits_not_empty (n : N) : 1 <= String.length (Number.digits n).
Proof.
  unfold Number.digits, NilZero.string_of_uint.
  destruct (N.to_uint n); simpl; lia.
Qed.

(** With [f > 0] decimals asked for, the text is digits, a point, and
    exactly [f] digits. *)
Lemma fixed_point_shape (n : N) (f : nat) :
  f <> 0 ->
  exists int frac,
    Number.fixed_point n f = int ++ "." ++ frac
    /\ int <> "" /\ every is_digit int = true
    /\ String.length frac = f /\ every is_digit frac = true.
Proof.
  intros Hf. unfold Number.fixed_point.
  pose proof (digits_are_digits n) as Hd.
  pose proof (digits_not_empty n) as Hl.
  set (m := Number.digits n) in *.
  set (m' := if (String.length m <=? f)%nat
             then copies (f + 1 - String.length m) "0" ++ m else m).
  assert (Hd' : every is_digit m' = true).
  { subst m'. destruct (String.length m <=? f)%nat; [|exact Hd].
    rewrite every_app, Hd, every_copies; reflexivity. }
  assert (Hl' : f + 1 <= String.length m').
  { subst m'. destruct (Nat.leb_spec (String.length m) f) as [Hle|Hgt].
    - rewrite length_append, length_copies. lia.
    - lia. }
  apply Nat.eqb_neq in Hf. rewrite Hf.
  exists (substring 0 (String.length m' - f) m'),
         (substring (String.length m' - f) f m').
  split; [reflexivity|]. split; [|split; [|split]].
  - intros H0.
    assert (Hlen : String.length (substring 0 (String.length m' - f) m')
                   = String.length m' - f) by (apply length_substring; lia).
    rewrite H0 in Hlen. simpl in Hlen. lia.
  - now apply every_substring.
  - apply length_substring. lia.
  - now apply every_substring.
Qed.

(** A string cut in two. *)
Lemma substring_split (s : string) (a : nat) :
  a <= String.length s ->
  substring 0 a s ++ substring a (String.length s - a) s = s.
Proof.
  revert a. induction s as [|c s IH]; intros a H; simpl in H.
  - assert (a = 0) by lia. now subst.
  - destruct a as [|a]; simpl.
    + f_equal. specialize (IH 0 (Nat.le_0_l _)).
      rewrite Nat.sub_0_r in IH. simpl in IH.
      destruct s; [reflexivity | exact IH].
    + f_equal. apply IH. lia.
Qed.

Lemma decimal_value_from_app (acc : N) (a b : string) :
  decimal_value_from acc (a ++ b)
  = decimal_value_from (decimal_value_from acc a) b.
Proof.
  revert acc. induction a as [|c a IH]; intros acc; simpl;
    [reflexivity | apply IH].
Qed.

(** Zeros in front change nothing. *)
Lemma decimal_value_zeros (n : nat) (s : string) :
  decimal_value (copies n "0" ++ s) = decimal_value s.
Proof.
  unfold decimal_value. induction n as [|n IH]; simpl; [reflexivity|].
  exact IH.
Qed.

Lemma decimal_value_uint_acc (d : Decimal.uint) (acc : positive) :
  decimal_value_from (N.pos acc) (NilEmpty.string_of_uint d)
  = N.pos (Pos.of_uint_acc d acc).
Proof.
  revert acc.
  induction d as [|d IH|d IH|d IH|d IH|d IH|d IH|d IH|d IH|d IH|d IH];
    intros acc; [reflexivity| ..];
    cbn [NilEmpty.string_of_uint decimal_value_from Pos.of_uint_acc];
    rewrite <- IH; f_equal; cbn [N_of_ascii N_of_digits]; lia.
Qed.

Lemma decimal_value_uint (d : Decimal.uint) :
  decimal_value (NilEmpty.string_of_uint d) = N.of_uint d.
Proof.
  unfold decimal_value, N.of_uint.
  induction d as [|d IH|d IH|d IH|d IH|d IH|d IH|d IH|d IH|d IH|d IH];
    [reflexivity | exact IH | ..];
    cbn [NilEmpty.string_of_uint decimal_value_from Pos.of_uint];
    rewrite <- decimal_value_uint_acc; f_equal.
Qed.

(** The digits of a number read back as the number. *)
Lemma decimal_value_digits (n : N) : decimal_value (Number.digits n) = n.
Proof.
  unfold Number.digits.
  rewrite <- (DecimalN.Unsigned.of_to n) at 2.
  destruct (N.to_uint n) eqn:Hd; try reflexivity;
    unfold NilZero.string_of_uint; apply decimal_value_uint.
Qed.

(** With [f > 0] decimals asked for, the text is digits, a point, and
    exactly [f] digits, and the digits read as [n]. *)
Lemma fixed_point_reads (n : N) (f : nat) :
  f <> 0 ->
  exists int frac,
    Number.fixed_point n f = int ++ "." ++ frac
    /\ int <> "" /\ every is_digit int = true
    /\ String.length frac = f /\ every is_digit frac = true
    /\ decimal_value (int ++ frac) = n.
Proof.
  intros Hf. unfold Number.fixed_point.
  pose proof (digits_are_digits n) as Hd.
  pose proof (digits_not_empty n) as Hl.
  pose proof (decimal_value_digits n) as Hv.
  set (m := Number.digits n) in *.
  set (m' := if (String.length m <=? f)%nat
             then copies (f + 1 - String.length m) "0" ++ m else m).
  assert (Hd' : every is_digit m' = true).
  { subst m'. destruct (String.length m <=? f)%nat; [|exact Hd].
    rewrite every_app, Hd, every_copies; reflexivity. }
  assert (Hl' : f + 1 <= String.length m').
  { subst m'. destruct (Nat.leb_spec (String.length m) f) as [Hle|Hgt].
    - rewrite length_append, length_copies. lia.
    - lia. }
  assert (Hv' : decimal_value m' = n).
  { subst m'. destruct (String.length m <=? f)%nat; [|exact Hv].
    now rewrite decimal_value_zeros. }
  apply Nat.eqb_neq in Hf. rewrite Hf.
  exists (substring 0 (String.length m' - f) m'),
         (substring (String.length m' - f) f m').
  split; [reflexivity|]. split; [|split; [|split; [|split]]].
  - intros H0.
    assert (Hlen : String.length (substring 0 (String.length m' - f) m')
                   = String.length m' - f) by (apply length_substring; lia).
    rewrite H0 in Hlen. simpl in Hlen. lia.
  - now apply every_substring.
  - apply length_substring. lia.
  - now apply every_substring.
  - transitivity (decimal_value m'); [|exact Hv']. f_equal.
    pose proof (substring_split m' (String.length m' - f)
                  ltac:(lia)) as Hs.
    replace (String.length m' - (String.length m' - f)) with f in Hs by lia.
    exact Hs.
Qed.

(** [nearest_scaled] with two decimals is the nearest number of
    hundredths. *)
Lemma nearest_scaled_hundredths (m : positive) (e : Z) :
  nearest_hundredths (Number.nearest_scaled m e 2) m e.
Proof.
  unfold nearest_hundredths, Number.nearest_scaled.
  change (10 ^ Z.of_nat 2)%Z with 100%Z.
  destruct (Z.leb_spec 0 e) as [He|He].
  - rewrite Z2N.id; [lia|]. pose proof (Z.pow_nonneg 2 e). nia.
  - replace (1 - e)%Z with (Z.succ (- e)) by lia.
    rewrite Z.pow_succ_r by lia.
    pose proof (Z.pow_pos_nonneg 2 (- e)) as Hp.
    assert (Ht : (0 < 2 ^ (- e))%Z) by (apply Hp; lia).
    set (t := (2 ^ (- e))%Z) in *.
    set (p := (Z.pos m * 100)%Z).
    assert (Hpp : (0 < p)%Z) by (subst p; lia).
    pose proof (Z.div_mod (2 * p + t) (2 * t) ltac:(lia)) as Hdm.
    pose proof (Z.mod_pos_bound (2 * p + t) (2 * t) ltac:(lia)) as Hmod.
    assert (Hq : (0 <= (2 * p + t) / (2 * t))%Z)
      by (apply Z.div_pos; lia).
    rewrite Z2N.id by exact Hq.
    set (q := ((2 * p + t) / (2 * t))%Z) in *.
    replace (200 * Z.pos m)%Z with (2 * p)%Z by (subst p; lia).
    nia.
Qed.

End NumberFacts.

Example pct_examples :
  @pct sample_host (VNum 0.5) = Returned "50.00%"
  /\ @pct sample_host (VNum 50) = Returned "50.00%"
  /\ @pct sample_host (VNum (-0.25)) = Returned "-25.00%"
  /\ @pct sample_host (VNum 1) = Returned "100.00%"
  /\ @pct sample_host (VNum 2.5) = Returned "2.50%"
  /\ @pct sample_host (VNum 0.001953125) = Returned "0.20%"
  /\ @pct sample_host VUndefined = Returned ""
  /\ @pct sample_host (VNum nan) = Returned ""
  /\ @pct sample_host (VObj [("toString", VNum 1)])
     = Thrown (MkError TypeError "Cannot convert object to primitive value").
Proof. repeat split; reflexivity. Qed.

(** C8.  For every finite number [v] with [|v| <= 1] whose scaled form
    [v * 100] has [|v * 100| > 1], [pct(v)] and [pct(v * 100)] return the
    same text, and that text renders the percentage [v * 100] with two
    decimals and a percent sign: it is a minus sign exactly when [v * 100]
    is negative, then one or more digits, a point, exactly two digits and
    [%], and the digits read as the number of hundredths nearest to the
    magnitude [m * 2^e] of [v * 100] (of two equally near, the one away
    from zero). *)
Theorem pct_scaled_agree {E : Engine} (v : float) :
  is_finite v = true ->
  (abs v <=? 1)%float = true ->
  (1 <? abs (v * 100))%float = true ->
  pct (VNum v) = pct (VNum (v * 100))
  /\ exists s m e int frac,
       Prim2SF (v * 100) = S754_finite s m e
       /\ pct (VNum v)
          = Returned ((if s then "-" else "") ++ int ++ "." ++ frac ++ "%")
       /\ int <> "" /\ Js.every is_digit int = true
       /\ String.length frac = 2 /\ Js.every is_digit frac = true
       /\ nearest_hundredths (decimal_value (int ++ frac)) m e.
Proof.
  intros Hf Hle Hgt.
  pose proof (FloatFacts.mul100_finite v Hf Hle) as Hwf.
  pose proof (FloatFacts.mul100_below_1e21 v Hf Hle) as Hbig.
  pose proof (FloatFacts.gt_one_not_le _ Hgt) as Hnle.
  pose proof (FloatFacts.gt_one_not_zero _ Hgt) as Hnz.
  assert (Hv : pct (VNum v)
               = Returned (Number.toFixed (v * 100)%float 2 ++ "%")).
  { unfold pct. simpl. now rewrite Hf, Hle. }
  assert (Hw : pct (VNum (v * 100)%float)
               = Returned (Number.toFixed (v * 100)%float 2 ++ "%")).
  { unfold pct. simpl. now rewrite Hwf, Hnle. }
  split; [now rewrite Hv, Hw|].
  rewrite Hv. unfold Number.toFixed. rewrite Hwf, Hbig. simpl negb. cbv iota.
  rewrite FloatFacts.is_finite_SF in Hwf.
  destruct (Prim2SF (v * 100)%float) as [s|s| |s m e];
    try contradiction; try discriminate.
  destruct (NumberFacts.fixed_point_reads (Number.nearest_scaled m e 2) 2)
    as (int & frac & Heq & Hi & Hid & Hfl & Hfd & Hval); [discriminate|].
  exists s, m, e, int, frac. rewrite Heq.
  split; [reflexivity|]. split; [now rewrite !JsFacts.append_assoc|].
  repeat (split; [assumption|]).
  rewrite Hval. apply NumberFacts.nearest_scaled_hundredths.
Qed.

Lemma pct_scaled_agree_witness :
  @pct sample_host (VNum 0.5) = @pct sample_host (VNum (0.5 * 100))
  /\ exists s m e int frac,
       Prim2SF (0.5 * 100) = S754_finite s m e
       /\ @pct sample_host (VNum 0.5)
          = Returned ((if s then "-" else "") ++ int ++ "." ++ frac ++ "%")
       /\ int <> "" /\ Js.every is_digit int = true
       /\ String.length frac = 2 /\ Js.every is_digit frac = true
       /\ nearest_hundredths (decimal_value (int ++ frac)) m e.
Proof.
  exact (@pct_scaled_agree sample_host 0.5%float eq_refl eq_refl eq_refl).
Defined.

(** The text of the witness, and its reading: 5000 hundredths for
    [50 = 7036874417766400 * 2^-47]. *)
Example pct_half_reads_fifty :
  @pct sample_host (VNum 0.5) = Returned "50.00%"
  /\ Prim2SF (0.5 * 100) = S754_finite false 7036874417766400 (-47)
  /\ decimal_value "5000" = 5000%N
  /\ nearest_hundredths 5000 7036874417766400 (-47).
Proof.
  repeat split; try reflexivity; vm_compute; discriminate.
Qed.

(* ================================================================== *)
(** * Further properties: fragments, addresses and links *)

Module AddressFacts.
Import Js JsFacts Percent PercentFacts.

Lemma every_and (p q : ascii -> bool) (s : string) :
  every (fun c => p c && q c) s = every p s && every q s.
Proof.
  induction s as [|c s IH]; simpl; [reflexivity|]. rewrite IH.
  destruct (p c), (q c), (every p s), (every q s); reflexivity.
Qed.

Lemma every_strip_leading (p : ascii -> bool) (c : ascii) (s : string) :
  every p s = true -> every p (strip_leading c s) = true.
Proof.
  destruct s as [|x s]; simpl; [auto|].
  intros H. destruct (x =? c)%char; [|exact H].
  now apply andb_true_iff in H.
Qed.

Lemma every_before (p : ascii -> bool) (c : ascii) (s : string) :
  every p s = true -> every p (before c s) = true.
Proof.
  induction s as [|x s IH]; simpl; [auto|].
  rewrite andb_true_iff. intros [Hx Hs].
  destruct (x =? c)%char; simpl; [reflexivity|]. now rewrite Hx, IH.
Qed.

(** The address of an account path is a piece of the path. *)
Lemma every_account_path (p : ascii -> bool) (path a : string) :
  account_path path a -> every p path = true -> every p a = true.
Proof.
  intros (n & m & rest & -> & _). rewrite !every_app, !andb_true_iff. tauto.
Qed.

(** What the URL parser writes into a fragment stays as it is. *)
Lemma fragment_encode_is_stable (s : string) :
  every fragment_stable (fragment_encode s) = true.
Proof.
  induction s as [|c s IH]; simpl; [reflexivity|].
  assert (H : forall r, every fragment_stable r = true ->
            every fragment_stable
              (if tab_or_newline c then r
               else if in_fragment_set c then escape c r else String c r)
            = true).
  { intros r Hr. by_byte c; simpl; exact Hr. }
  exact (H _ IH).
Qed.

Lemma assign_hash_is_stable (href value : string) :
  every fragment_stable (assign_hash href value) = true.
Proof.
  unfold assign_hash, Url.hash.
  destruct (after "#" (Url.set_hash href value)) as [f|] eqn:Hf;
    [|reflexivity].
  destruct (truthy f); [|reflexivity].
  unfold Url.set_hash, Url.without_fragment in Hf.
  destruct (value =? "").
  - now rewrite after_none in Hf by apply lacks_before.
  - rewrite after_lacks in Hf by apply lacks_before.
    change ("#" ++ fragment_encode (strip_leading "#" value))
      with (String "#" (fragment_encode (strip_leading "#" value))) in Hf.
    rewrite after_here in Hf. injection Hf as <-.
    simpl. apply fragment_encode_is_stable.
Qed.

(** The address of an account route, within its fragment. *)
Lemma routed_address (f a : string) (q : URLSearchParams.t) :
  parseRoute f = Acct a q ->
  account_path (fragment_path f) a /\ q = fragment_query f.
Proof.
  rewrite RouterFacts.parseRoute_segments.
  destruct (segments (fragment_path f)) as [|p0 [|p1 l]] eqn:Hs;
    try discriminate.
  destruct (String.eqb_spec p0 "acct") as [->|]; [|discriminate].
  intros [= -> ->].
  split; [exact (RouterFacts.account_path_of_segments _ _ _ Hs) | reflexivity].
Qed.

Lemma routed_address_every (p : ascii -> bool) (f a : string)
    (q : URLSearchParams.t) :
  parseRoute f = Acct a q -> every p f = true -> every p a = true.
Proof.
  intros Hr Hf. destruct (routed_address _ _ _ Hr) as [Hp _].
  apply (every_account_path p _ _ Hp). unfold fragment_path.
  now apply every_before, every_strip_leading.
Qed.

Lemma routed_address_plain (f a : string) (q : URLSearchParams.t) :
  parseRoute f = Acct a q ->
  a <> "" /\ lacks "/" a = true /\ lacks "?" a = true.
Proof.
  intros Hr. destruct (routed_address _ _ _ Hr) as [Hp _].
  assert (Hq : lacks "?" a = true).
  { apply (every_account_path _ _ _ Hp). apply lacks_before. }
  destruct Hp as (n & m & rest & _ & Hne & Hl & _). auto.
Qed.

End AddressFacts.

(** X1.  Whatever the base URL, the text [encodeURIComponent] writes for
    it contains none of the characters that structure a fragment or a
    query ([#], [?], [/], [&], [=], [+]), percent-decoding gives the base
    URL back, and the query [base=<encoded>] read by [URLSearchParams]
    has exactly the parameter [base] with the base URL as its value. *)
Theorem base_url_survives_escaping (b : string) :
  Percent.decode (Percent.encodeURIComponent b) = b
  /\ (forall c, In c ["#"; "?"; "/"; "&"; "="; "+"]%char ->
                Js.lacks c (Percent.encodeURIComponent b) = true)
  /\ URLSearchParams.new ("base=" ++ Percent.encodeURIComponent b)
     = [("base", b)].
Proof.
  split; [apply PercentFacts.decode_encodeURIComponent|]. split.
  - intros c Hc. apply PercentFacts.safe_lacks.
    + simpl in *. tauto.
    + apply PercentFacts.encodeURIComponent_safe.
  - apply PercentFacts.new_base_parameter.
Qed.

(** X2.  The address of every account route that [parseRoute] yields is
    not empty, contains neither [/] nor [?], is made of characters of the
    fragment, and comes with the query parameters of the fragment. *)
Theorem parseRoute_address_is_one_segment (f a : string)
    (q : URLSearchParams.t) :
  parseRoute f = Acct a q ->
  a <> "" /\ Js.lacks "/" a = true /\ Js.lacks "?" a = true
  /\ (forall p, Js.every p f = true -> Js.every p a = true)
  /\ q = fragment_query f.
Proof.
  intros H. destruct (AddressFacts.routed_address_plain _ _ _ H) as (Hn & Hs & Hq).
  repeat (split; [assumption|]). split.
  - intros p. now apply AddressFacts.routed_address_every with (q := q).
  - apply (AddressFacts.routed_address _ _ _ H).
Qed.

Lemma parseRoute_address_is_one_segment_witness :
  parseRoute "#//acct//0xABCD/x?p=1" = Acct "0xABCD" [("p", "1")]
  /\ "0xABCD" <> "" /\ Js.lacks "/" "0xABCD" = true.
Proof.
  split; [reflexivity|].
  pose proof (parseRoute_address_is_one_segment "#//acct//0xABCD/x?p=1"
                "0xABCD" [("p", "1")] eq_refl) as H.
  split; [exact (proj1 H) | exact (proj1 (proj2 H))].
Defined.

(** X3.  Whatever value was assigned to [window.location.hash], if the
    fragment the browser then holds is routed to the account page of an
    address, the share link made for that address (with any base URL,
    from any page URL) is routed back to the same address, with the base
    URL as its [base] parameter. *)
Theorem share_link_of_routed_address (href0 value href base a : string)
    (q : URLSearchParams.t) :
  parseRoute (assign_hash href0 value) = Acct a q ->
  parseRoute (Url.hash (shareUrl href a base)) = Acct a [("base", base)].
Proof.
  intros H.
  destruct (AddressFacts.routed_address_plain _ _ _ H) as (Hn & Hs & Hq).
  pose proof (AddressFacts.routed_address_every fragment_stable _ _ _ H
                (AddressFacts.assign_hash_is_stable href0 value)) as Hst.
  assert (Hp : plain_address a = true).
  { unfold plain_address. apply andb_true_iff. split.
    - now apply JsFacts.truthy_iff.
    - rewrite !AddressFacts.every_and. unfold Js.lacks in Hs, Hq.
      now rewrite Hs, Hq, Hst. }
  rewrite (ShareFacts.share_fragment _ _ _ Hp).
  exact (ShareFacts.parseRoute_share_fragment _ _ Hn Hs Hq).
Qed.

Lemma share_link_of_routed_address_witness :
  parseRoute (Url.hash (shareUrl "https://app.example/#/" "a%20b"
                          "https://example.test"))
  = Acct "a%20b" [("base", "https://example.test")].
Proof.
  exact (share_link_of_routed_address "https://app.example/" "#/acct/a b/x"
           "https://app.example/#/" "https://example.test" "a%20b" []
           eq_refl).
Defined.

(* ================================================================== *)
(** * Further properties: the pages and the stored preference *)

Module AppFacts.
Import Js JsFacts.

Lemma getItem_setItem (ls : Storage.t) (k v : string) :
  Storage.getItem (Storage.setItem ls k v) k = Some v.
Proof.
  induction ls as [|[n w] ls IH]; simpl.
  - now rewrite String.eqb_refl.
  - destruct (n =? k) eqn:Hn; simpl; rewrite Hn; [reflexivity | exact IH].
Qed.

Lemma getItem_setItem_other (ls : Storage.t) (k k' v : string) :
  k' <> k ->
  Storage.getItem (Storage.setItem ls k v) k' = Storage.getItem ls k'.
Proof.
  intros Hk. induction ls as [|[n w] ls IH]; simpl.
  - apply String.eqb_neq in Hk. now rewrite String.eqb_sym, Hk.
  - destruct (String.eqb_spec n k) as [->|Hn]; simpl.
    + apply String.eqb_neq in Hk. now rewrite String.eqb_sym, Hk.
    + now rewrite IH.
Qed.

Lemma in_sync_mount (r : Route) (ls : Storage.t) (n : nat) :
  in_sync (mount r ls n).
Proof. destruct r; apply getItem_setItem. Qed.

Lemma in_sync_hashchange (h : string) (a : App) :
  in_sync a -> in_sync (hashchange h a).
Proof.
  intros H. unfold hashchange.
  destruct (parseRoute (current_hash h)) as [q|addr q];
    destruct (view a) as [l|addr' q' d] eqn:Hv;
    try apply in_sync_mount; try exact H.
  unfold in_sync in *. rewrite Hv in H. exact H.
Qed.

Section WithEngine.
Context {E : Engine}.

Lemma baseUrl_run_settle (c : Completion JsValue) (d : Dashboard) :
  baseUrl (run_settle c d) = baseUrl d.
Proof. unfold run_settle. now destruct (run_try c). Qed.

Lemma in_sync_step (a : App) (e : AppEvent) :
  in_sync a -> in_sync (app_step a e).
Proof.
  intros H. destruct e as [h|v|v|href| |issuer c]; simpl.
  - now apply in_sync_hashchange.
  - unfold in_sync, edit_baseUrl. simpl. rewrite getItem_setItem.
    now destruct (view a).
  - unfold edit_address. destruct (view a) eqn:Hv; [|exact H].
    unfold in_sync in *. rewrite Hv in H. exact H.
  - unfold submit. destruct (view a); [|exact H].
    destruct (go l); [now apply in_sync_hashchange | exact H].
  - destruct (view a) as [l|addr q d] eqn:Hv; [exact H|].
    destruct (loading d); [exact H|].
    unfold click_fetch, in_sync in *. rewrite Hv in *. exact H.
  - unfold settle. destruct (view a) as [l|addr q d] eqn:Hv; [exact H|].
    destruct (issuer =? mounted a)%nat; [|exact H].
    unfold in_sync in *. rewrite Hv in H. cbn [storage view view_baseUrl].
    now rewrite baseUrl_run_settle.
Qed.

Lemma in_sync_after (h : string) (ls : Storage.t) (events : list AppEvent) :
  in_sync (app_after h ls events).
Proof.
  unfold app_after.
  assert (H : in_sync (start h ls)) by apply in_sync_mount.
  revert H. generalize (start h ls).
  induction events as [|e events IH]; intros a H; simpl; [exact H|].
  apply IH. now apply in_sync_step.
Qed.

End WithEngine.
End AppFacts.

(** X4.  A click on Continue with an empty address changes nothing.
    With an address that is one plain segment and a base URL that is not
    empty, it replaces the Landing page by the Dashboard of exactly that
    address, whose base URL is the one of the Landing page and whose
    period is ["week"]. *)
Theorem landing_opens_dashboard (href : string) (a : App) (l : Landing) :
  view a = LandingView l ->
  (landing_addr l = "" -> submit href a = a)
  /\ (plain_address (landing_addr l) = true -> landing_baseUrl l <> "" ->
      exists d,
        view (submit href a)
        = DashboardView (landing_addr l) [("base", landing_baseUrl l)] d
        /\ baseUrl d = landing_baseUrl l
        /\ period d = "week"
        /\ data d = None /\ loading d = false
        /\ mounted (submit href a) = S (mounted a)).
Proof.
  intros Hv. unfold submit. rewrite Hv. split.
  - intros Ha. unfold go. now rewrite Ha.
  - intros Hp Hb.
    destruct (ShareFacts.plain_address_parts _ Hp) as (Hne & Hsl & Hq & _).
    unfold go. apply JsFacts.truthy_iff in Hne as Ht. rewrite Ht. simpl negb.
    cbv iota.
    change (assign_hash href
              ("#/acct/" ++ landing_addr l ++ "?base="
               ++ Percent.encodeURIComponent (landing_baseUrl l)))
      with (Url.hash (shareUrl href (landing_addr l) (landing_baseUrl l))).
    rewrite (ShareFacts.share_fragment _ _ _ Hp).
    unfold hashchange.
    change (current_hash
              ("#" ++ ("/acct/" ++ landing_addr l) ++ "?base="
               ++ Percent.encodeURIComponent (landing_baseUrl l)))
      with ("#" ++ ("/acct/" ++ landing_addr l) ++ "?base="
            ++ Percent.encodeURIComponent (landing_baseUrl l)).
    rewrite (ShareFacts.parseRoute_share_fragment _ _ Hne Hsl Hq), Hv.
    eexists. split; [reflexivity|]. simpl.
    apply JsFacts.truthy_iff in Hb. rewrite Hb. repeat split; reflexivity.
Qed.

Lemma landing_opens_dashboard_witness :
  exists d,
    view (submit "https://app.example/"
            (edit_address "0xABCD"
               (start "" [("ps_base", "https://example.test")])))
    = DashboardView "0xABCD" [("base", "https://example.test")] d
    /\ baseUrl d = "https://example.test"
    /\ period d = "week"
    /\ data d = None /\ loading d = false
    /\ mounted (submit "https://app.example/"
                  (edit_address "0xABCD"
                     (start "" [("ps_base", "https://example.test")])))
       = 2.
Proof.
  refine (proj2 (landing_opens_dashboard "https://app.example/"
                   (edit_address "0xABCD"
                      (start "" [("ps_base", "https://example.test")]))
                   {| landing_baseUrl := "https://example.test";
                      landing_addr := "0xABCD" |} eq_refl)
                eq_refl _).
  discriminate.
Defined.

(** X5.  After every sequence of events (route changes, edits of the base
    URL and of the address, Continue, Fetch, settling requests) from any
    first fragment and any stored preferences, the stored preference
    [ps_base] is the base URL shown by the page that is mounted. *)
Theorem stored_base_is_shown_base {E : Engine} (location_hash : string)
    (ls : Storage.t) (events : list AppEvent) :
  Storage.getItem (storage (app_after location_hash ls events)) "ps_base"
  = Some (view_baseUrl (view (app_after location_hash ls events))).
Proof. apply AppFacts.in_sync_after. Qed.

(** X6.  Handling the same [hashchange] twice is handling it once: the
    second event mounts nothing and changes no state. *)
Theorem hashchange_idempotent (h : string) (a : App) :
  hashchange h (hashchange h a) = hashchange h a.
Proof.
  unfold hashchange.
  destruct (parseRoute (current_hash h)) as [q|addr q] eqn:Hr;
    destruct (view a) as [l|addr' q' d] eqn:Hv; simpl;
    rewrite ?Hr, ?Hv; reflexivity.
Qed.

(* ================================================================== *)
(** * Further properties: requests *)

Module RequestFacts.
Section WithEngine.
Context {E : Engine}.

(** Idle, or loading with one request pending and nothing to show; and
    never a result together with an error. *)
Lemma one_request_step (st : Dashboard * nat) (e : DashEvent) :
  snd st = (if loading (fst st) then 1 else 0) ->
  (loading (fst st) = true -> data (fst st) = None /\ error (fst st) = "") ->
  (data (fst st) <> None -> error (fst st) = "") ->
  snd (dash_step st e) = (if loading (fst (dash_step st e)) then 1 else 0)
  /\ (loading (fst (dash_step st e)) = true ->
      data (fst (dash_step st e)) = None /\ error (fst (dash_step st e)) = "")
  /\ (data (fst (dash_step st e)) <> None -> error (fst (dash_step st e)) = "").
Proof.
  destruct st as [s n]. simpl. intros Hn Hl Hd.
  destruct e as [v| |v|v|v| |c]; simpl; auto.
  - destruct (loading s) eqn:Hs; simpl.
    + rewrite Hs. auto.
    + subst n. repeat split; congruence.
  - destruct n as [|n]; simpl; [auto|].
    destruct (loading s) eqn:Hs; [|discriminate].
    injection Hn as ->. destruct (Hl eq_refl) as [Hdat Herr].
    unfold run_settle. destruct (run_try c) as [j|err]; simpl;
      repeat split; try discriminate; auto.
    intros H. now destruct H.
Qed.

End WithEngine.
End RequestFacts.

(** X7.  On a Dashboard, whatever the sequence of edits, switches, clicks
    on Fetch and settling requests since its mount: at most one request is
    pending, and one is pending exactly while the loading flag is set;
    while it is set neither a result nor an error is held; and a result
    and an error are never held together. *)
Theorem one_request_at_a_time {E : Engine} (qs : URLSearchParams.t)
    (ls : Storage.t) (events : list DashEvent) :
  snd (dash_after qs ls events)
  = (if loading (fst (dash_after qs ls events)) then 1 else 0)
  /\ (loading (fst (dash_after qs ls events)) = true ->
      data (fst (dash_after qs ls events)) = None
      /\ error (fst (dash_after qs ls events)) = "")
  /\ (data (fst (dash_after qs ls events)) <> None ->
      error (fst (dash_after qs ls events)) = "").
Proof.
  unfold dash_after.
  assert (H : snd (Dashboard_init qs ls, 0)
              = (if loading (fst (Dashboard_init qs ls, 0)) then 1 else 0)
              /\ (loading (fst (Dashboard_init qs ls, 0)) = true ->
                  data (fst (Dashboard_init qs ls, 0)) = None
                  /\ error (fst (Dashboard_init qs ls, 0)) = "")
              /\ (data (fst (Dashboard_init qs ls, 0)) <> None ->
                  error (fst (Dashboard_init qs ls, 0)) = "")).
  { simpl. repeat split. }
  revert H. generalize (Dashboard_init qs ls, 0).
  induction events as [|e events IH]; intros st H; simpl; [exact H|].
  apply IH. destruct H as (H1 & H2 & H3).
  now apply RequestFacts.one_request_step.
Qed.

(** X8.  [run()] starts from a clean slate and touches nothing but the
    loading flag, the error and the data: its outcome is the same
    whatever loading flag, error and data the Dashboard held before, it
    leaves the base URL, the period and both switches as they were, and
    running it again on its own outcome (same network, same clock) gives
    that outcome again. *)
Theorem run_starts_clean {E : Engine} (net : Network) (addr : string)
    (now : N) (s : Dashboard) :
  (forall l e d,
     run net addr now (setLoading l (setError e (setData d s)))
     = run net addr now s)
  /\ baseUrl (run net addr now s) = baseUrl s
  /\ period (run net addr now s) = period s
  /\ includePositions (run net addr now s) = includePositions s
  /\ includeClosed (run net addr now s) = includeClosed s
  /\ run net addr now (run net addr now s) = run net addr now s.
Proof.
  assert (Hb : baseUrl (run net addr now s) = baseUrl s)
    by (unfold run, run_settle; now destruct (run_try _)).
  assert (Hp : period (run net addr now s) = period s)
    by (unfold run, run_settle; now destruct (run_try _)).
  assert (Hip : includePositions (run net addr now s) = includePositions s)
    by (unfold run, run_settle; now destruct (run_try _)).
  assert (Hic : includeClosed (run net addr now s) = includeClosed s)
    by (unfold run, run_settle; now destruct (run_try _)).
  split; [reflexivity|].
  repeat (split; [assumption|]).
  assert (Hurl : run_url addr (run net addr now s) now = run_url addr s now).
  { unfold run_url, run_params. now rewrite Hb, Hp, Hip, Hic. }
  assert (Hbegin : run_begin (run net addr now s) = run_begin s).
  { assert (Hrb : forall t, run_begin t
                     = Build_Dashboard (baseUrl t) (period t)
                         (includePositions t) (includeClosed t) true "" None)
      by reflexivity.
    now rewrite (Hrb (run net addr now s)), (Hrb s), Hb, Hp, Hip, Hic. }
  unfold run at 1. now rewrite Hurl, Hbegin.
Qed.

(** X9.  Within the range of the timer, that is for timeouts below
    [2^31] milliseconds, a longer timeout never loses an outcome:
    whatever [fetchJson] returns or throws under a timeout, other than
    the AbortError of its timer, it returns or throws under every longer
    timeout of that range. *)
Theorem fetchJson_longer_timeout {E : Engine} (net : Network) (url : string)
    (t t' : N) :
  (t <= t')%N -> (t' < 2 ^ 31)%N ->
  match fetchJson net url (Some t) with
  | Thrown e => kind e <> AbortError
  | Returned _ => True
  end ->
  fetchJson net url (Some t') = fetchJson net url (Some t).
Proof.
  intros Ht Ht'. unfold fetchJson. simpl timeout_of.
  rewrite (timer_delay_in_range t') by exact Ht'.
  rewrite (timer_delay_in_range t) by (eapply N.le_lt_trans; eassumption).
  destruct (net url) as [r| |a r|h st b body]; [reflexivity|reflexivity| |].
  - destruct (N.ltb_spec a t) as [Ha|Ha]; simpl.
    + intros _. destruct (N.ltb_spec a t'); [reflexivity|lia].
    + intros H. now destruct H.
  - destruct (N.ltb_spec h t) as [Hh|Hh]; simpl;
      [|intros H; now destruct H].
    destruct (N.ltb_spec h t') as [_|Hh']; [|lia]. simpl.
    destruct (res_ok st); simpl; [|reflexivity].
    destruct (N.ltb_spec (h + b) t) as [Hb|Hb]; simpl;
      [|intros H; now destruct H].
    intros _. destruct (N.ltb_spec (h + b) t'); [reflexivity|lia].
Qed.

Lemma fetchJson_longer_timeout_witness :
  @fetchJson sample_host (answers week_result) "https://example.test" (Some 60000%N)
  = Returned week_result.
Proof.
  refine (@fetchJson_longer_timeout sample_host (answers week_result)
            "https://example.test" 15000%N 60000%N _ _ I).
  - intros H. discriminate H.
  - reflexivity.
Defined.

(** Beyond the range of the timer a longer timeout can lose the outcome:
    the delay wraps around. *)
Example fetchJson_longer_timeout_wraps :
  @fetchJson sample_host (answers week_result) "https://example.test"
    (Some 15000%N)
  = Returned week_result
  /\ @fetchJson sample_host (answers week_result) "https://example.test"
       (Some 2147483648%N)
     = Thrown (MkError AbortError "signal is aborted without reason")
  /\ @fetchJson sample_host (answers week_result) "https://example.test"
       (Some 4294982296%N)
     = Returned week_result.
Proof. repeat split; reflexivity. Qed.

(** X10.  [fetchJson] fails with the AbortError of its timer exactly when
    the request is sent and nothing arrives, or the failure of the
    network or the head of the response does not come before the timer
    fires, or the status is in 200-299 and the body is not complete
    before the timer fires; the timer fires after the delay that
    [setTimeout] makes of the timeout.  So a response with an error
    status whose head arrives in time never ends in an abort, however
    late its body, and neither does a request that [fetch] refuses. *)
Theorem fetchJson_aborts_exactly_when_late {E : Engine} (net : Network)
    (url : string) (t : option N) :
  (exists m, fetchJson net url t = Thrown (MkError AbortError m))
  <-> match net url with
      | Refused _ => False
      | Silence => True
      | Failure at_ms _ => (timer_delay (timeout_of t) <= at_ms)%N
      | Response headers_ms status body_ms _ =>
          (timer_delay (timeout_of t) <= headers_ms)%N
          \/ ((200 <= status <= 299)%N
              /\ (timer_delay (timeout_of t) <= headers_ms + body_ms)%N)
      end.
Proof.
  unfold fetchJson. generalize (timer_delay (timeout_of t)). intros limit.
  destruct (net url) as [r| |a r|h st b body].
  - split; [intros [m H]; discriminate H | tauto].
  - split; [tauto|]. intros _. now exists abort_message.
  - destruct (N.ltb_spec a limit) as [Ha|Ha]; split.
    + intros [m H]. discriminate H.
    + lia.
    + auto.
    + intros _. now exists abort_message.
  - destruct (N.ltb_spec h limit) as [Hh|Hh]; simpl.
    2:{ split; [auto|]. intros _. now exists abort_message. }
    destruct (res_ok st) eqn:Hst; simpl.
    + apply res_ok_iff in Hst.
      destruct (N.ltb_spec (h + b) limit) as [Hb|Hb]; simpl; split.
      * intros [m H]. destruct body; discriminate H.
      * intros [H|[_ H]]; lia.
      * auto.
      * intros _. now exists abort_message.
    + split.
      * intros [m H]. discriminate H.
      * intros [H|[H _]]; [lia|]. apply res_ok_iff in H. congruence.
Qed.

(* ================================================================== *)
(** * Further properties: the query of a request *)

Module FormFacts.
Import Js JsFacts Percent PercentFacts.

(** One byte through the urlencoded serializer and back. *)
Lemma decode_serialized_byte (c : ascii) (r : string) :
  decode (URLSearchParams.plus_to_space
            (if is_alnum c
                || existsb (fun x => (x =? c)%char) ["*"; "-"; "."; "_"]%char
             then String c r
             else if (c =? " ")%char then String "+" r
             else escape c r))
  = String c (decode (URLSearchParams.plus_to_space r)).
Proof. by_byte c; reflexivity. Qed.

Lemma decode_serialized (s : string) :
  decode (URLSearchParams.plus_to_space (URLSearchParams.serialize_bytes s)) = s.
Proof.
  induction s as [|c s IH]; simpl; [reflexivity|].
  now rewrite decode_serialized_byte, IH.
Qed.

Lemma serialized_is_written (s : string) :
  every form_written (URLSearchParams.serialize_bytes s) = true.
Proof.
  induction s as [|c s IH]; simpl; [reflexivity|].
  assert (H : forall r, every form_written r = true ->
            every form_written
              (if is_alnum c
                  || existsb (fun x => (x =? c)%char)
                       ["*"; "-"; "."; "_"]%char
               then String c r
               else if (c =? " ")%char then String "+" r
               else escape c r) = true).
  { intros r Hr. by_byte c; simpl; exact Hr. }
  exact (H _ IH).
Qed.

Lemma form_written_plain (c : ascii) :
  form_written c = true ->
  negb (c =? "&")%char && negb (c =? "=")%char && negb (c =? "?")%char
  = true.
Proof. by_byte c; intros H; try reflexivity; discriminate H. Qed.

Lemma written_lacks (x : ascii) (s : string) :
  In x ["&"; "="; "?"]%char -> every form_written s = true ->
  lacks x s = true.
Proof.
  intros Hx. apply every_impl. intros c Hc.
  apply form_written_plain in Hc. rewrite !andb_true_iff in Hc.
  simpl in Hx. intuition (subst; assumption).
Qed.

Lemma serialize_plain (s : string) :
  every form_plain s = true -> URLSearchParams.serialize_bytes s = s.
Proof.
  unfold form_plain. induction s as [|c s IH]; simpl; [reflexivity|].
  rewrite andb_true_iff. intros [Hc Hs]. now rewrite Hc, IH.
Qed.

(** Pieces without the separator, joined and split again. *)
Lemma split_join (sep : ascii) (x : string) (l : list string) :
  Forall (fun y => lacks sep y = true) (x :: l) ->
  split sep (join (String sep "") (x :: l)) = x :: l.
Proof.
  revert x. induction l as [|y l IH]; intros x H.
  - simpl. apply split_lacks. now inversion H.
  - change (join (String sep "") (x :: y :: l))
      with (x ++ String sep (join (String sep "") (y :: l))).
    inversion H as [|? ? Hx Hl]; subst.
    rewrite (split_app _ _ _ Hx). now rewrite IH.
Qed.

Lemma pair_text_every (p : ascii -> bool) (kv : string * string) :
  (forall c, form_written c = true -> p c = true) -> p "="%char = true ->
  every p (pair_text kv) = true.
Proof.
  intros Hp He. unfold pair_text. rewrite !every_app. simpl. rewrite He.
  rewrite !(every_impl _ _ _ Hp (serialized_is_written _)). reflexivity.
Qed.

Lemma parse_pair_text (kv : string * string) :
  URLSearchParams.parse_pair (pair_text kv) = kv.
Proof.
  destruct kv as [k v]. unfold URLSearchParams.parse_pair, pair_text. simpl.
  assert (Hk : lacks "=" (URLSearchParams.serialize_bytes k) = true)
    by (apply (written_lacks "="); [simpl; tauto | apply serialized_is_written]).
  change ("=" ++ URLSearchParams.serialize_bytes v)
    with (String "=" (URLSearchParams.serialize_bytes v)).
  rewrite (before_lacks _ _ _ Hk), (after_lacks _ _ _ Hk).
  rewrite before_here, after_here, append_empty_r.
  now rewrite !decode_serialized.
Qed.

Lemma toString_every (p : ascii -> bool) (qs : URLSearchParams.t) :
  (forall c, form_written c = true -> p c = true) ->
  p "="%char = true -> p "&"%char = true ->
  every p (URLSearchParams.toString qs) = true.
Proof.
  intros Hp He Ha. unfold URLSearchParams.toString.
  fold pair_text.
  induction qs as [|kv qs IH]; [reflexivity|].
  destruct qs as [|kv' qs].
  - simpl. now apply pair_text_every.
  - change (every p (pair_text kv ++ "&"
                     ++ join "&" (map pair_text (kv' :: qs))) = true).
    rewrite !every_app, (pair_text_every p kv Hp He). simpl. rewrite Ha.
    exact IH.
Qed.

(** Any list of parameters, written and read again. *)
Lemma new_toString (qs : URLSearchParams.t) :
  URLSearchParams.new (URLSearchParams.toString qs) = qs.
Proof.
  unfold URLSearchParams.new.
  assert (Hq : strip_leading "?" (URLSearchParams.toString qs)
               = URLSearchParams.toString qs).
  { pose proof (toString_every (fun c => negb (c =? "?")%char) qs) as H.
    destruct (URLSearchParams.toString qs) as [|c r]; [reflexivity|].
    simpl in *. destruct (c =? "?")%char; [|reflexivity].
    assert (false && every (fun c => negb (c =? "?")%char) r = true) as Hf.
    { apply H; try reflexivity. intros x Hx.
      apply form_written_plain in Hx. rewrite !andb_true_iff in Hx. tauto. }
    discriminate Hf. }
  rewrite Hq. unfold URLSearchParams.parse, URLSearchParams.toString.
  fold pair_text.
  destruct qs as [|kv qs]; [reflexivity|].
  change (map pair_text (kv :: qs)) with (pair_text kv :: map pair_text qs).
  rewrite split_join.
  - change (pair_text kv :: map pair_text qs) with (map pair_text (kv :: qs)).
    assert (Hf : forall l, filter truthy (map pair_text l) = map pair_text l).
    { induction l as [|x l IH]; [reflexivity|]. simpl. rewrite IH.
      assert (Ht : truthy (pair_text x) = true).
      { apply truthy_iff. unfold pair_text.
        destruct (URLSearchParams.serialize_bytes (fst x)); discriminate. }
      now rewrite Ht. }
    rewrite Hf, map_map.
    rewrite (map_ext _ (fun x => x) parse_pair_text). apply map_id.
  - change (pair_text kv :: map pair_text qs) with (map pair_text (kv :: qs)).
    apply Forall_forall. intros y Hy. apply in_map_iff in Hy.
    destruct Hy as (x & <- & _). unfold lacks. apply pair_text_every.
    + intros c Hc. apply form_written_plain in Hc.
      rewrite !andb_true_iff in Hc. tauto.
    + reflexivity.
Qed.

Lemma strip_trailing_slash (b : string) : strip_trailing "/" (b ++ "/") = b.
Proof.
  induction b as [|c b IH]; [reflexivity|].
  change (String c b ++ "/") with (String c (b ++ "/")).
  destruct (b ++ "/") as [|x r] eqn:Hb.
  - destruct b; discriminate.
  - simpl. simpl in IH. now rewrite IH.
Qed.

Lemma digit_is_plain (c : ascii) : is_digit c = true -> form_plain c = true.
Proof. by_byte c; intros H; try reflexivity; discriminate H. Qed.

End FormFacts.

Example downloadCsv_url_scenario :
  downloadCsv_url "0xABCD" scenario_dashboard CsvClosed 1700000000123
  = "https://example.test/pnlClean?account=0xABCD&period=week&csv=1&section=closed&_ts=1700000000".
Proof. reflexivity. Qed.

(** X11.  Whatever characters the address and the period contain, the
    query that [run()] sends, read as urlencoded form data, holds exactly
    the parameters it was built from: [account] is the address, [period]
    the period, [_ts] the clock in whole seconds, and [positions] and
    [closed] are ["1"] when their switch is on and missing when it is
    off. *)
Theorem request_query_read_back (addr : string) (s : Dashboard) (now : N) :
  URLSearchParams.new (URLSearchParams.toString (run_params addr s now))
  = run_params addr s now
  /\ URLSearchParams.get (run_params addr s now) "account" = Some addr
  /\ URLSearchParams.get (run_params addr s now) "period" = Some (period s)
  /\ URLSearchParams.get (run_params addr s now) "_ts"
     = Some (Number.digits (now / 1000))
  /\ URLSearchParams.get (run_params addr s now) "positions"
     = (if includePositions s then Some "1" else None)
  /\ URLSearchParams.get (run_params addr s now) "closed"
     = (if includeClosed s then Some "1" else None).
Proof.
  split; [apply FormFacts.new_toString|].
  unfold run_params.
  destruct (includePositions s), (includeClosed s); repeat split.
Qed.

(** X12.  [downloadCsv] writes the address and the period into the query
    without escaping them.  When both consist of letters, digits and
    [* - . _], the query it writes is the one [URLSearchParams] would
    write for [account], [period], [csv=1], [section] and [_ts], and read
    as urlencoded form data it holds exactly these five parameters. *)
Theorem downloadCsv_query_read_back (addr : string) (s : Dashboard)
    (sec : CsvSection) (now : N) :
  Js.every form_plain addr = true ->
  Js.every form_plain (period s) = true ->
  downloadCsv_query addr s sec now
  = URLSearchParams.toString
      [("account", addr); ("period", period s); ("csv", "1");
       ("section", section_name sec); ("_ts", Number.digits (now / 1000))]
  /\ URLSearchParams.new (downloadCsv_query addr s sec now)
     = [("account", addr); ("period", period s); ("csv", "1");
        ("section", section_name sec); ("_ts", Number.digits (now / 1000))].
Proof.
  intros Ha Hp.
  assert (Hq : downloadCsv_query addr s sec now
               = URLSearchParams.toString
                   [("account", addr); ("period", period s); ("csv", "1");
                    ("section", section_name sec);
                    ("_ts", Number.digits (now / 1000))]).
  { unfold downloadCsv_query, URLSearchParams.toString. simpl.
    rewrite (FormFacts.serialize_plain _ Ha), (FormFacts.serialize_plain _ Hp).
    rewrite (FormFacts.serialize_plain (Number.digits (now / 1000)))
      by (apply (JsFacts.every_impl is_digit);
          [apply FormFacts.digit_is_plain | apply NumberFacts.digits_are_digits]).
    rewrite (FormFacts.serialize_plain (section_name sec))
      by (destruct sec; reflexivity).
    reflexivity. }
  split; [exact Hq|]. rewrite Hq. apply FormFacts.new_toString.
Qed.

Lemma downloadCsv_query_read_back_witness :
  URLSearchParams.new
    (downloadCsv_query "0xABCD" scenario_dashboard CsvPositions 1700000000123)
  = [("account", "0xABCD"); ("period", "week"); ("csv", "1");
     ("section", "positions"); ("_ts", "1700000000")].
Proof.
  exact (proj2 (downloadCsv_query_read_back "0xABCD" scenario_dashboard
                  CsvPositions 1700000000123 eq_refl eq_refl)).
Defined.

Example downloadCsv_unescaped_address :
  URLSearchParams.new
    (downloadCsv_query "a&csv=0" scenario_dashboard CsvClosed 1700000000123)
  = [("account", "a"); ("csv", "0"); ("period", "week"); ("csv", "1");
     ("section", "closed"); ("_ts", "1700000000")].
Proof. reflexivity. Qed.

(** X13.  One trailing slash of the base URL, and only one, is left out
    of the URLs of the request and of the CSV download: for the base URL
    [b/] both are [b], then [/pnlClean?], then the query. *)
Theorem base_url_trailing_slash (b addr : string) (s : Dashboard)
    (sec : CsvSection) (now : N) :
  run_url addr (setBaseUrl (b ++ "/") s) now
  = b ++ "/pnlClean?" ++ URLSearchParams.toString (run_params addr s now)
  /\ downloadCsv_url addr (setBaseUrl (b ++ "/") s) sec now
     = b ++ "/pnlClean?" ++ downloadCsv_query addr s sec now.
Proof.
  unfold run_url, downloadCsv_url. simpl baseUrl.
  rewrite FormFacts.strip_trailing_slash. split; reflexivity.
Qed.

(* ================================================================== *)
(** * Further properties: what is shown *)

Module ShownFacts.
Section WithEngine.
Context {E : Engine}.

(** Fixed notation of a finite number below [1e21]: sign, digits, point,
    and as many digits as asked for. *)
Lemma toFixed_shape (w : float) (f : nat) :
  f <> 0 -> is_finite w = true -> (1e21 <=? abs w)%float = false ->
  exists sign int frac,
    Number.toFixed w f = sign ++ int ++ "." ++ frac
    /\ (sign = "" \/ sign = "-")
    /\ int <> "" /\ Js.every is_digit int = true
    /\ String.length frac = f /\ Js.every is_digit frac = true.
Proof.
  intros Hf Hfin Hbig. unfold Number.toFixed. rewrite Hfin, Hbig.
  simpl negb. cbv iota. rewrite FloatFacts.is_finite_SF in Hfin.
  destruct (Prim2SF w) as [s|s| |s m e]; try discriminate.
  - destruct (NumberFacts.fixed_point_shape 0 f Hf) as (int & frac & Heq & H).
    exists "", int, frac. rewrite Heq. split; [reflexivity|]. tauto.
  - destruct (NumberFacts.fixed_point_shape (Number.nearest_scaled m e f) f Hf)
      as (int & frac & Heq & H).
    exists (if s then "-" else ""), int, frac. rewrite Heq.
    split; [reflexivity|]. split; [destruct s; tauto | exact H].
Qed.

End WithEngine.
End ShownFacts.

(** X14.  For every finite number below [1e21] in magnitude, whether a
    fraction or an already scaled value, [pct] gives an optional minus
    sign, one or more digits, a point, exactly two digits and a percent
    sign; it never gives an exponent or an empty text there. *)
Theorem pct_is_well_formed {E : Engine} (v : float) :
  is_finite v = true -> (1e21 <=? abs v)%float = false ->
  exists sign int frac,
    pct (VNum v) = Returned (sign ++ int ++ "." ++ frac ++ "%")
    /\ (sign = "" \/ sign = "-")
    /\ int <> "" /\ Js.every is_digit int = true
    /\ String.length frac = 2 /\ Js.every is_digit frac = true.
Proof.
  intros Hf Hbig. unfold pct. simpl. rewrite Hf. simpl.
  assert (H : exists sign int frac,
            Number.toFixed (if (abs v <=? 1)%float then (v * 100)%float else v) 2
            = sign ++ int ++ "." ++ frac
            /\ (sign = "" \/ sign = "-")
            /\ int <> "" /\ Js.every is_digit int = true
            /\ String.length frac = 2 /\ Js.every is_digit frac = true).
  { destruct (abs v <=? 1)%float eqn:Hle.
    - apply ShownFacts.toFixed_shape; [discriminate | |].
      + now apply FloatFacts.mul100_finite.
      + now apply FloatFacts.mul100_below_1e21.
    - now apply ShownFacts.toFixed_shape. }
  destruct H as (sign & int & frac & Heq & H).
  exists sign, int, frac. rewrite Heq. split; [|exact H].
  now rewrite !JsFacts.append_assoc.
Qed.

Lemma pct_is_well_formed_witness :
  exists sign int frac,
    @pct sample_host (VNum (-12.5))
    = Returned (sign ++ int ++ "." ++ frac ++ "%")
    /\ (sign = "" \/ sign = "-")
    /\ int <> "" /\ Js.every is_digit int = true
    /\ String.length frac = 2 /\ Js.every is_digit frac = true.
Proof.
  exact (@pct_is_well_formed sample_host (-12.5)%float eq_refl eq_refl).
Defined.

Example summary_cards_example :
  @summary_cards sample_host week_result
  = Some [("Period", "week", ""); ("Trading PnL", "$12.50", "ROI ");
          ("Portfolio PnL", "$", "ROI ");
          ("Balances Now", "Perp $" ++ String "010" "Port $", "")]
  /\ @summary_cards sample_host (VObj [("ok", VBool true)])
     = Some [("Period", "—", ""); ("Trading PnL", "$", "ROI ");
             ("Portfolio PnL", "$", "ROI ");
             ("Balances Now", "Perp $" ++ String "010" "Port $", "")]
  /\ @summary_cards sample_host
       (VObj [("ok", VBool true); ("perp_pnl", VObj [("toString", VNum 1)])])
     = None
  /\ @summary_cards sample_host
       (VObj [("ok", VBool true); ("period", VObj [])])
     = None.
Proof. repeat split; reflexivity. Qed.

Lemma value_of_some {A : Type} (c : Completion A) (a : A) :
  value_of c = Some a -> c = Returned a.
Proof. destruct c; [now intros [= ->] | discriminate]. Qed.

(** X15.  Whenever the summary cards render, the second of the four is
    the Trading PnL card, and it never shows the placeholder dash of an
    empty value: its value is the dollar sign followed by what [num]
    returns for [perp_pnl], so it is the bare dollar sign when
    [perp_pnl] is missing, null or not a finite number; and its ROI line
    is ["ROI "] followed by what [pct] returns, just ["ROI "] when the
    percentage is missing. *)
Theorem trading_card_never_shows_dash {E : Engine} (d : JsValue)
    (cards : list (string * string * string)) :
  summary_cards d = Some cards ->
  exists n p period portfolio balances,
    num (get_opt d "perp_pnl") 2 = Returned n
    /\ pct (get_opt (get_opt d "roi") "trading_pct") = Returned p
    /\ cards = [period; ("Trading PnL", "$" ++ n, "ROI " ++ p);
                portfolio; balances]
    /\ "$" ++ n <> "—"
    /\ (nullish (get_opt d "perp_pnl") = true
        \/ (exists x, ToNumber (get_opt d "perp_pnl") = Returned x
                      /\ is_finite x = false) ->
        n = "")
    /\ (nullish (get_opt (get_opt d "roi") "trading_pct") = true -> p = "").
Proof.
  unfold summary_cards. intros H.
  apply RenderFacts.and_then_some in H. destruct H as (period & _ & H).
  apply RenderFacts.and_then_some in H. destruct H as (n & Hn & H).
  apply RenderFacts.and_then_some in H. destruct H as (p & Hp & H).
  apply RenderFacts.and_then_some in H. destruct H as (trading & Ht & H).
  apply RenderFacts.and_then_some in H. destruct H as (bc & _ & H).
  apply RenderFacts.and_then_some in H. destruct H as (pp & _ & H).
  apply RenderFacts.and_then_some in H. destruct H as (portfolio & _ & H).
  apply RenderFacts.and_then_some in H. destruct H as (pn & _ & H).
  apply RenderFacts.and_then_some in H. destruct H as (fn & _ & H).
  apply RenderFacts.and_then_some in H. destruct H as (balances & _ & H).
  injection H as <-. injection Ht as <-.
  apply value_of_some in Hn. apply value_of_some in Hp.
  exists n, p, period, portfolio, balances.
  split; [exact Hn|]. split; [exact Hp|]. split; [reflexivity|].
  split; [discriminate|]. split.
  - intros Hm. unfold num in Hn.
    destruct Hm as [Hm | (x & Hx & Hfin)].
    + rewrite Hm in Hn. now injection Hn as <-.
    + destruct (nullish (get_opt d "perp_pnl")); [now injection Hn as <-|].
      rewrite Hx in Hn. simpl in Hn. rewrite Hfin in Hn.
      now injection Hn as <-.
  - intros Hm. unfold pct in Hp. rewrite Hm in Hp. now injection Hp as <-.
Qed.

Lemma trading_card_never_shows_dash_witness :
  exists n p period portfolio balances,
    @num sample_host (get_opt week_result "perp_pnl") 2 = Returned n
    /\ @pct sample_host (get_opt (get_opt week_result "roi") "trading_pct")
       = Returned p
    /\ [("Period", "week", ""); ("Trading PnL", "$12.50", "ROI ");
        ("Portfolio PnL", "$", "ROI ");
        ("Balances Now", "Perp $" ++ String "010" "Port $", "")]
       = [period; ("Trading PnL", "$" ++ n, "ROI " ++ p);
          portfolio; balances]
    /\ "$" ++ n <> "—"
    /\ (nullish (get_opt week_result "perp_pnl") = true
        \/ (exists x, @ToNumber sample_host (get_opt week_result "perp_pnl")
                      = Returned x
                      /\ is_finite x = false) ->
        n = "")
    /\ (nullish (get_opt (get_opt week_result "roi") "trading_pct") = true ->
        p = "").
Proof.
  exact (@trading_card_never_shows_dash sample_host week_result _ eq_refl).
Defined.

(** X16.  Leaving a Dashboard for the home route and coming back by a
    fragment without a [base] parameter mounts a new Dashboard: the
    result, the error and the loading flag of the old one are gone, and
    the base URL the old one showed, when it was not empty, is the base
    URL of the new one, carried by the stored preference. *)
Theorem base_url_survives_leaving {E : Engine} (h0 : string) (ls : Storage.t)
    (events : list AppEvent) (h_home h_acct addr addr' : string)
    (q0 qs qs' : URLSearchParams.t) (d : Dashboard) :
  view (app_after h0 ls events) = DashboardView addr qs d ->
  baseUrl d <> "" ->
  parseRoute (current_hash h_home) = Home q0 ->
  parseRoute (current_hash h_acct) = Acct addr' qs' ->
  unset (URLSearchParams.get qs' "base") ->
  exists d',
    view (hashchange h_acct (hashchange h_home (app_after h0 ls events)))
    = DashboardView addr' qs' d'
    /\ baseUrl d' = baseUrl d
    /\ data d' = None /\ error d' = "" /\ loading d' = false.
Proof.
  intros Hv Hb Hh Ha Hq.
  pose proof (AppFacts.in_sync_after h0 ls events) as Hs.
  unfold in_sync in Hs. rewrite Hv in Hs. simpl in Hs.
  set (a := app_after h0 ls events) in *.
  assert (H1 : hashchange h_home a = mount (Home q0) (storage a) (mounted a)).
  { unfold hashchange. now rewrite Hh, Hv. }
  rewrite H1. unfold hashchange at 1. rewrite Ha. simpl.
  eexists. split; [reflexivity|]. simpl.
  rewrite (or_else_unset _ _ Hq), AppFacts.getItem_setItem.
  unfold Landing_init. simpl. rewrite Hs.
  unfold or_else. apply JsFacts.truthy_iff in Hb. rewrite !Hb.
  repeat split; reflexivity.
Qed.

Lemma base_url_survives_leaving_witness :
  exists d',
    view (hashchange "#/acct/0xB"
            (hashchange "#/"
               (@app_after sample_host
                  "#/acct/0xA?base=https%3A%2F%2Fexample.test" [] [])))
    = DashboardView "0xB" [] d'
    /\ baseUrl d' = "https://example.test"
    /\ data d' = None /\ error d' = "" /\ loading d' = false.
Proof.
  refine (@base_url_survives_leaving sample_host
            "#/acct/0xA?base=https%3A%2F%2Fexample.test" [] []
            "#/" "#/acct/0xB" "0xA" "0xB" []
            [("base", "https://example.test")] []
            (Dashboard_init [("base", "https://example.test")] [])
            eq_refl _ eq_refl eq_refl _).
  - discriminate.
  - left. reflexivity.
Defined.

(* ================================================================== *)
(** * Further properties: results that render *)

Module PlainFacts.
Section WithEngine.
Context {E : Engine}.
Hypothesis host : formats_six_decimals E.

Lemma ToNumber_primitive (v : JsValue) :
  primitive v = true -> exists x, ToNumber v = Returned x.
Proof. destruct v; try discriminate; intros _; eexists; reflexivity. Qed.

Lemma num_primitive (v : JsValue) (d : nat) :
  primitive v = true -> d <= 6 -> exists text, num v d = Returned text.
Proof.
  intros Hv Hd. unfold num. destruct (nullish v); [now exists ""|].
  destruct (ToNumber_primitive v Hv) as [x ->]. simpl.
  destruct (is_finite x); simpl; [now apply host | now exists ""].
Qed.

Lemma pct_primitive (v : JsValue) :
  primitive v = true -> exists text, pct v = Returned text.
Proof.
  intros Hv. unfold pct. destruct (nullish v); [now exists ""|].
  destruct (ToNumber_primitive v Hv) as [x ->]. simpl. eexists. reflexivity.
Qed.

Lemma ts_primitive (v : JsValue) :
  primitive v = true -> exists text, ts v = Returned text.
Proof.
  intros Hv. unfold ts. destruct (ToBoolean v); simpl; [|now exists ""].
  destruct v; try discriminate; eexists; reflexivity.
Qed.

Lemma child_primitive (v : JsValue) :
  primitive v = true -> exists text, child_text v = Some text.
Proof. destruct v; try discriminate; intros _; eexists; reflexivity. Qed.

Lemma js_or_primitive (a b : JsValue) :
  primitive a = true -> primitive b = true -> primitive (js_or a b) = true.
Proof. intros Ha Hb. unfold js_or. now destruct (ToBoolean a). Qed.

(** What is read from a list of properties that all satisfy [P]. *)
Lemma lookup_forallb (P : string * JsValue -> bool)
    (fields : list (string * JsValue)) (k : string) :
  forallb P fields = true ->
  lookup fields k = VUndefined \/ P (k, lookup fields k) = true.
Proof.
  induction fields as [|[n v] r IH]; simpl; [now left|].
  rewrite andb_true_iff. intros [Hv Hr].
  destruct (String.eqb_spec n k) as [->|_]; [now right | now apply IH].
Qed.

Lemma flat_get (v : JsValue) (k : string) :
  flat v = true -> primitive (get_opt v k) = true.
Proof.
  destruct v as [| | | | | |fields]; try reflexivity. simpl. intros H.
  destruct (lookup_forallb _ fields k H) as [-> | Hp]; [reflexivity|].
  exact Hp.
Qed.

Lemma all_of_map {A B : Type} (f : A -> option B) (l : list A) :
  (forall x, In x l -> exists y, f x = Some y) ->
  exists ys, all_of (map f l) = Some ys.
Proof.
  induction l as [|x l IH]; intros H; simpl; [now exists []|].
  destruct (H x (or_introl eq_refl)) as [y ->].
  destruct IH as [ys ->]; [intros z Hz; apply H; now right|].
  simpl. eexists. reflexivity.
Qed.

Ltac cell :=
  match goal with
  | |- context [value_of (num ?v ?d)] =>
      let t := fresh "t" in let H := fresh "H" in
      destruct (num_primitive v d) as [t H];
      [first [assumption | reflexivity | apply flat_get; assumption] | lia
      | rewrite H; cbn [value_of and_then]]
  | |- context [value_of (pct ?v)] =>
      let t := fresh "t" in let H := fresh "H" in
      destruct (pct_primitive v) as [t H];
      [first [assumption | reflexivity | apply flat_get; assumption]
      | rewrite H; cbn [value_of and_then]]
  | |- context [value_of (ts ?v)] =>
      let t := fresh "t" in let H := fresh "H" in
      destruct (ts_primitive v) as [t H];
      [first [assumption | reflexivity | apply flat_get; assumption]
      | rewrite H; cbn [value_of and_then]]
  end.

Lemma position_row_flat (p : JsValue) :
  nullish p = false -> flat p = true ->
  exists cells, position_row p = Some cells.
Proof.
  intros Hn Hf. unfold position_row. rewrite Hn.
  destruct (child_primitive
              (js_or (get_opt p "symbolPretty") (get_opt p "coin")))
    as [c1 ->]; [apply js_or_primitive; now apply flat_get|].
  destruct (child_primitive (get_opt p "side")) as [c2 ->];
    [now apply flat_get|].
  destruct (child_primitive (get_opt p "coin")) as [c3 ->];
    [now apply flat_get|].
  destruct (child_primitive
              (if nullish (get_opt p "leverage") then VStr ""
               else get_opt p "leverage")) as [c4 ->];
    [destruct (nullish (get_opt p "leverage")); [reflexivity|];
     now apply flat_get|].
  cbn [and_then]. repeat cell.
  destruct (ToBoolean (get_opt p "entryTs"));
    cbn [and_then]; eexists; reflexivity.
Qed.

Lemma closed_row_flat (c : JsValue) :
  nullish c = false -> flat c = true ->
  exists cells, closed_row c = Some cells.
Proof.
  intros Hn Hf. unfold closed_row. rewrite Hn.
  destruct (child_primitive
              (js_or (get_opt c "symbolPretty") (get_opt c "coin")))
    as [c1 ->]; [apply js_or_primitive; now apply flat_get|].
  destruct (child_primitive (get_opt c "direction")) as [c2 ->];
    [now apply flat_get|].
  destruct (ToNumber_primitive (get_opt c "durationMs")) as [ms ->];
    [now apply flat_get|].
  cbn [bind and_then].
  destruct (num_primitive (VNum (ms / 1000)) 0) as [t0 ->];
    [reflexivity | lia |].
  cbn [value_of and_then]. repeat cell.
  eexists. reflexivity.
Qed.

Lemma rows_flat (f : JsValue -> option (list string)) (d : JsValue)
    (k : string) :
  (forall r, nullish r = false -> flat r = true -> exists cells, f r = Some cells) ->
  plain_rows (get_opt d k) = true ->
  exists rows,
    (items <-- rows_of d k ;; rows <-- all_of (map f items) ;; Some rows)
    = Some rows.
Proof.
  intros Hf Hp. unfold rows_of.
  destruct (get_opt d k) as [| | | | |items|]; try discriminate;
    try (now exists []).
  simpl in Hp. cbn [and_then].
  destruct (all_of_map f items) as [rows ->]; [|now exists rows].
  intros r Hr. rewrite forallb_forall in Hp. specialize (Hp r Hr).
  apply andb_true_iff in Hp. destruct Hp as [Hn Hfl].
  apply negb_true_iff in Hn. now apply Hf.
Qed.

(** What is read from a plain result. *)
Lemma plain_get (d : JsValue) (k : string) :
  plain_result d = true -> plain_field (k, get_opt d k) = true.
Proof.
  destruct d as [| | | | | |fields]; try discriminate. simpl. intros H.
  destruct (lookup_forallb _ fields k H) as [-> | Hp]; [|exact Hp].
  unfold plain_field. simpl.
  repeat match goal with |- context [if ?b then _ else _] => destruct b end;
    reflexivity.
Qed.

Lemma summary_cards_plain (d : JsValue) :
  plain_result d = true -> exists cards, summary_cards d = Some cards.
Proof.
  intros Hd.
  pose proof (plain_get d "period" Hd) as H1.
  pose proof (plain_get d "method" Hd) as H2.
  pose proof (plain_get d "perp_pnl" Hd) as H3.
  pose proof (plain_get d "balance_change" Hd) as H4.
  pose proof (plain_get d "roi" Hd) as H5.
  pose proof (plain_get d "balances" Hd) as H6.
  unfold plain_field in *. simpl in H1, H2, H3, H4, H5, H6.
  unfold summary_cards, InfoCard.
  destruct (child_primitive (js_or (get_opt d "period") (VStr "—")))
    as [c1 ->]; [now apply js_or_primitive|].
  destruct (child_primitive (get_opt d "method")) as [c2 ->];
    [assumption|].
  cbn [and_then]. repeat cell.
  cbn [js_or ToBoolean Js.truthy String.eqb Ascii.eqb Bool.eqb negb
       child_text and_then].
  eexists. reflexivity.
Qed.

Lemma window_text_plain (d : JsValue) :
  plain_result d = true -> exists text, window_text d = Some text.
Proof.
  intros Hd. pose proof (plain_get d "window" Hd) as H1.
  unfold plain_field in H1. simpl in H1.
  unfold window_text. repeat cell. eexists. reflexivity.
Qed.

Lemma cashflows_text_plain (d : JsValue) :
  plain_result d = true -> exists text, cashflows_text d = Some text.
Proof.
  intros Hd. pose proof (plain_get d "adjustments" Hd) as H1.
  unfold plain_field in H1. simpl in H1.
  unfold cashflows_text. repeat cell. eexists. reflexivity.
Qed.

Lemma data_block_plain (s : Dashboard) (d : JsValue) :
  plain_result d = true ->
  exists cards window cashflows positions closed,
    data_block s d
    = Some ([SummaryCards cards; WindowAndCashflows window cashflows]
            ++ (if includePositions s then [PositionsTable positions] else [])
            ++ (if includeClosed s then [ClosedTable closed] else []))%list.
Proof.
  intros Hd.
  destruct (summary_cards_plain d Hd) as [cards Hc].
  destruct (window_text_plain d Hd) as [w Hw].
  destruct (cashflows_text_plain d Hd) as [c Hf].
  pose proof (plain_get d "positions" Hd) as Hp.
  pose proof (plain_get d "closed" Hd) as Hl.
  unfold plain_field in Hp, Hl. simpl in Hp, Hl.
  destruct (rows_flat position_row d "positions" position_row_flat Hp)
    as [prow Hprow].
  destruct (rows_flat closed_row d "closed" closed_row_flat Hl)
    as [crow Hcrow].
  exists cards, w, c, prow, crow.
  unfold data_block. rewrite Hc, Hw, Hf. cbn [and_then].
  unfold positions_table, closed_table.
  apply RenderFacts.and_then_some in Hprow.
  destruct Hprow as (pi & Hpi & Hprow).
  apply RenderFacts.and_then_some in Hprow.
  destruct Hprow as (pr & Hpr & [= <-]).
  apply RenderFacts.and_then_some in Hcrow.
  destruct Hcrow as (ci & Hci & Hcrow).
  apply RenderFacts.and_then_some in Hcrow.
  destruct Hcrow as (cr & Hcr & [= <-]).
  rewrite Hpi, Hci. cbn [and_then]. rewrite Hpr, Hcr. cbn [and_then].
  destruct (includePositions s), (includeClosed s); reflexivity.
Qed.

End WithEngine.
End PlainFacts.

Example week_result_is_plain : plain_result week_result = true.
Proof. reflexivity. Qed.

(** X18.  On a host that formats numbers with up to six decimals, a
    Dashboard whose data is a plain result always renders, whatever else
    its state is: the summary cards and the window and cashflows are
    shown, the positions table exactly when the positions toggle is on,
    and the closed-trades table exactly when the closed-trades toggle is
    on.  A plain result is an object whose [positions] and [closed] are
    missing, null or arrays of rows, none of them null, with primitive
    values as cells, whose [roi], [balances], [window] and [adjustments]
    are primitive values or objects of primitive values, and whose other
    properties are primitive values. *)
Theorem plain_result_renders {E : Engine} (s : Dashboard) (d : JsValue) :
  formats_six_decimals E ->
  data s = Some d ->
  plain_result d = true ->
  exists widgets,
    render s = Some widgets
    /\ existsb is_positions_table widgets = includePositions s
    /\ existsb is_closed_table widgets = includeClosed s
    /\ existsb (fun w => match w with SummaryCards _ => true | _ => false end)
         widgets = true.
Proof.
  intros Hhost Hs Hd.
  destruct (PlainFacts.data_block_plain Hhost s d Hd)
    as (cards & w & c & prow & crow & Hb).
  assert (Ht : ToBoolean d = true) by (destruct d; try discriminate; reflexivity).
  eexists. split.
  - unfold render. rewrite Hs, Ht, Hb. cbn [and_then]. reflexivity.
  - rewrite !existsb_app. unfold has_data. rewrite Hs, Ht.
    destruct (includePositions s), (includeClosed s),
      (Js.truthy (error s)), (loading s); repeat split; reflexivity.
Qed.

Lemma plain_result_renders_witness :
  exists widgets,
    @render sample_host (setData (Some week_result) scenario_dashboard)
    = Some widgets
    /\ existsb is_positions_table widgets = true
    /\ existsb is_closed_table widgets = true
    /\ existsb (fun w => match w with SummaryCards _ => true | _ => false end)
         widgets = true.
Proof.
  refine (@plain_result_renders sample_host
            (setData (Some week_result) scenario_dashboard) week_result
            _ eq_refl eq_refl).
  intros x d Hd. unfold toLocaleString, sample_host.
  destruct (Nat.ltb_spec 100 d) as [H|H]; [lia|]. eexists. reflexivity.
Defined.
